(** * ssb-wifi: the AP rotation daemon and the programs around it

    A shallow embedding of [ap/ap_rotate.py] (credential rotation per
    interface, the construction of the engines, the supervisor's startup,
    tick, reload, shutdown and history log), of [qr/make_qr.py] (escaping
    of the WiFi join string, the payload and the script's entry point), of
    the status reader of [web/server.py] and of the display and the manual
    trigger of [sensehat/sensehat_monitor.py], with the properties of the
    specification and further properties of the code stated over it.

    Conventions of the embedding:
    - Python floats that hold seconds (timestamps of [time.time()],
      durations read from the configuration) are rationals [Q]. The sum
      that gives the expiry of new credentials is rounded to binary64, to
      the nearest value and to even on a tie, as the addition of two floats
      is ([float_add]; an overflow to infinity is outside the model). The
      differences and comparisons of timestamps are exact: the difference
      of two floats within a factor of two of each other is a float.
    - Python [str] is [string]; the output of the prober, from which white
      space is stripped, is the list of its code points. [int] is [Z] (or
      [nat] for a count).
    - The file system is a store of typed payloads; a write that the
      operating system accepts always succeeds (the daemon runs as root on
      its own run directory), so the [except] branches that only log the
      I/O error of a write are not reachable in the model. The removal of a
      trigger marker can fail: its outcome comes from the oracle.
    - Everything the daemon reads from outside (clock, client counts, random
      choices, outcomes of subprocesses, the configuration file) comes from
      an oracle indexed by the number of readings made so far. *)

From Stdlib Require Import Ascii String QArith Qround Qpower DecimalString Lqa.
From stdpp Require Import gmap strings list fin_maps.

Open Scope string_scope.

(** ** Python's [str.replace] and the join-string escaping *)

Module Qr.

(** [old] is a prefix of [s]. *)
Fixpoint starts_with (old s : string) : bool :=
  match old, s with
  | EmptyString, _ => true
  | String a old', String c s' => if Ascii.eqb a c then starts_with old' s' else false
  | String _ _, EmptyString => false
  end.

(** [s.replace(old, new)] for a non-empty [old]: occurrences are found from
    the left and do not overlap; [skip] counts the characters of the
    occurrence just replaced that are still to be passed over. *)
Fixpoint replace_from (old new : string) (skip : nat) (s : string) : string :=
  match s with
  | EmptyString => EmptyString
  | String c s' =>
      match skip with
      | S k => replace_from old new k s'
      | O =>
          if starts_with old s
          then new +:+ replace_from old new (String.length old - 1) s'
          else String c (replace_from old new 0 s')
      end
  end.

Definition replace (old new s : string) : string := replace_from old new 0 s.

Definition backslash : ascii := "\"%char.
Definition dquote : ascii := "034"%char.

(** [escape_wifi_string], make_qr.py lines 47-59. *)
Definition escape_wifi_string (s : string) : string :=
  let result := s in
  let result := replace (String backslash "") (String backslash (String backslash "")) result in
  let result := replace ";" (String backslash ";") result in
  let result := replace "," (String backslash ",") result in
  let result := replace (String dquote "") (String backslash (String dquote "")) result in
  let result := replace ":" (String backslash ":") result in
  result.

(** [generate_wifi_qr_string], make_qr.py lines 62-73. *)
Definition generate_wifi_qr_string (ssid password security : string) : string :=
  let escaped_ssid := escape_wifi_string ssid in
  let escaped_password := escape_wifi_string password in
  "WIFI:T:" +:+ security +:+ ";S:" +:+ escaped_ssid +:+ ";P:" +:+ escaped_password +:+ ";;".

(** The five characters of the docstring: backslash, semicolon, comma,
    double quote, colon. *)
Definition is_special (c : ascii) : bool :=
  Ascii.eqb c backslash || Ascii.eqb c ";"%char || Ascii.eqb c ","%char
  || Ascii.eqb c dquote || Ascii.eqb c ":"%char.

(** What the specification asks of the escaping, one character at a time. *)
Definition escape_char (c : ascii) : string :=
  if is_special c then String backslash (String c "") else String c "".

Fixpoint escape_spec (s : string) : string :=
  match s with
  | EmptyString => EmptyString
  | String c s' => escape_char c +:+ escape_spec s'
  end.

(** The decoder of the specification (the repository has none: the payload
    is decoded by whoever scans the image): remove one level of backslash
    escaping, a backslash makes the next character literal. *)
Fixpoint unescape_wifi_string (s : string) : string :=
  match s with
  | EmptyString => EmptyString
  | String c s' =>
      if Ascii.eqb c backslash then
        match s' with
        | EmptyString => String c EmptyString
        | String d s'' => String d (unescape_wifi_string s'')
        end
      else String c (unescape_wifi_string s')
  end.

(** The passphrase of the specification's round-trip example. *)
Definition sample_passphrase : string :=
  "a\b;c,d" +:+ String dquote "e:f".

(** How a scanner reads one field of the payload (the repository has no
    reader): up to the first semicolon that no backslash protects, a
    backslash making the next character literal; the result is the field,
    decoded, and what follows the semicolon. *)
Fixpoint read_field (s : string) : string * string :=
  match s with
  | EmptyString => (EmptyString, EmptyString)
  | String c s' =>
      if Ascii.eqb c backslash then
        match s' with
        | EmptyString => (String c EmptyString, EmptyString)
        | String d s'' => let (field, rest) := read_field s'' in (String d field, rest)
        end
      else if Ascii.eqb c ";"%char then (EmptyString, s')
      else let (field, rest) := read_field s' in (String c field, rest)
  end.

End Qr.

(** ** The rotation daemon *)

Module Ap.

(** *** Python values *)

(** [str(n)] for an [int]. *)
Definition py_str_int (n : Z) : string := NilZero.string_of_int (Z.to_int n).

(** [int(x)] for a float: truncation toward zero. *)
Definition py_int (x : Q) : Z := Z.quot (Qnum x) (Zpos (Qden x)).

(** Rounding to binary64, the format of a Python float. The exponent of a
    positive rational: [2 ^ ilog2 x <= x < 2 ^ (ilog2 x + 1)]. *)
Definition ilog2 (x : Q) : Z :=
  let e := (Z.log2 (Qnum x) - Z.log2 (Zpos (Qden x)))%Z in
  if Qle_bool (2 ^ e) x then e else (e - 1)%Z.

(** The nearest integer, the even one on a tie. *)
Definition round_half_even (x : Q) : Z :=
  let f := Qfloor x in
  match Qcompare (x - inject_Z f) (1 # 2) with
  | Lt => f
  | Gt => (f + 1)%Z
  | Eq => if Z.even f then f else (f + 1)%Z
  end.

(** The binary64 value nearest to a positive rational: 53 significant bits,
    the exponent not below that of the subnormal numbers. *)
Definition binary64_pos (x : Q) : Q :=
  let e := Z.max (ilog2 x) (-1022) in
  let ulp := (2 ^ (e - 52))%Q in
  (inject_Z (round_half_even (x / ulp)) * ulp)%Q.

Definition binary64 (x : Q) : Q :=
  match Qcompare x 0 with
  | Eq => 0%Q
  | Gt => binary64_pos x
  | Lt => (- binary64_pos (- x))%Q
  end.

(** [x + y] on two floats. *)
Definition float_add (x y : Q) : Q := binary64 (x + y).

(** Comparisons of numbers, as booleans. *)
Definition py_ge (x y : Q) : bool := Qle_bool y x.
Definition py_gt (x y : Q) : bool := negb (Qle_bool x y).
Definition py_lt (x y : Q) : bool := negb (Qle_bool y x).

(** [l[start:]]: a negative [start] counts from the end, and both ends are
    clamped to the list. *)
Definition py_slice_from {A} (start : Z) (l : list A) : list A :=
  if (start <? 0)%Z
  then drop (Z.to_nat (Z.max 0 (Z.of_nat (length l) + start))) l
  else drop (Z.to_nat start) l.

(** *** Configuration *)

(** The keys of the configuration dict that [ap_rotate.py] reads. *)
Record Config := {
  rotation_interval_sec : Q;
  client_threshold : Z;
  min_time_after_clients_sec : Q;
  ssid_prefix : string;
  ssid_length : Z;
  password_length : Z;
  country_code : string;
  log_retention_count : Z;
  manual_rotation_cooldown_sec : Q;
  dual_ap_mode : bool
}.

Definition DEFAULT_CONFIG : Config := {|
  rotation_interval_sec := 300;
  client_threshold := 5;
  min_time_after_clients_sec := 120;
  ssid_prefix := "ssb-";
  ssid_length := 6;
  password_length := 16;
  country_code := "AR";
  log_retention_count := 100;
  manual_rotation_cooldown_sec := 30;
  dual_ap_mode := false
|}.

(** A per-interface dict of the configuration; a key may be missing (the
    code reads both with [.get] and a default). *)
Record IfaceConfig := {
  ic_enabled : option bool;
  ic_channel : option Z
}.

(** [d.update(other)] on such a dict. *)
Definition iface_update (d other : IfaceConfig) : IfaceConfig := {|
  ic_enabled := match ic_enabled other with Some b => Some b | None => ic_enabled d end;
  ic_channel := match ic_channel other with Some c => Some c | None => ic_channel d end
|}.

(** [DEFAULT_CONFIG["interfaces"]]. *)
Definition DEFAULT_INTERFACES : gmap string IfaceConfig :=
  <["wlan0" := {| ic_enabled := Some true; ic_channel := Some 6%Z |}]>
  (<["wlan1" := {| ic_enabled := Some false; ic_channel := Some 11%Z |}]> ∅).

(** The parsed configuration file: every key is optional. *)
Record FileConfig := {
  fc_rotation_interval_sec : option Q;
  fc_client_threshold : option Z;
  fc_min_time_after_clients_sec : option Q;
  fc_ssid_prefix : option string;
  fc_ssid_length : option Z;
  fc_password_length : option Z;
  fc_country_code : option string;
  fc_log_retention_count : option Z;
  fc_manual_rotation_cooldown_sec : option Q;
  fc_dual_ap_mode : option bool;
  fc_interfaces : option (list (string * IfaceConfig))
}.

(** [config.update(file_config)] on the top-level keys. *)
Definition config_update (c : Config) (f : FileConfig) : Config := {|
  rotation_interval_sec := default (rotation_interval_sec c) (fc_rotation_interval_sec f);
  client_threshold := default (client_threshold c) (fc_client_threshold f);
  min_time_after_clients_sec :=
    default (min_time_after_clients_sec c) (fc_min_time_after_clients_sec f);
  ssid_prefix := default (ssid_prefix c) (fc_ssid_prefix f);
  ssid_length := default (ssid_length c) (fc_ssid_length f);
  password_length := default (password_length c) (fc_password_length f);
  country_code := default (country_code c) (fc_country_code f);
  log_retention_count := default (log_retention_count c) (fc_log_retention_count f);
  manual_rotation_cooldown_sec :=
    default (manual_rotation_cooldown_sec c) (fc_manual_rotation_cooldown_sec f);
  dual_ap_mode := default (dual_ap_mode c) (fc_dual_ap_mode f)
|}.

(** *** The dataclasses *)

Module Credentials.
Record t := {
  interface : string;
  ssid : string;
  password : string;
  created_at : Q;
  expires_at : Q;
  rotation_reason : string
}.
End Credentials.

Module InterfaceStatus.
Record t := {
  interface : string;
  enabled : bool;
  state : string;
  ssid : string;
  created_at : Q;
  expires_at : Q;
  time_remaining : Z;
  client_count : Z;
  last_rotation_reason : string;
  last_error : option string
}.
End InterfaceStatus.

(** An entry of the rotation history. *)
Module Entry.
Record t := {
  timestamp : string;
  interface : string;
  ssid : string;
  reason : string;
  created_at : Q
}.
End Entry.

(** *** The engine object *)

(** References into the object store: a [Credentials] object, a
    configuration dict. *)
Abbreviation cred_ref := nat (only parsing).
Abbreviation cfg_ref := nat (only parsing).

Module APInstance.
Record t := {
  interface : string;
  (** the per-interface dict, an entry of the shared ["interfaces"] dict *)
  config : string;
  global_config : cfg_ref;
  current_creds : option cred_ref;
  last_manual_rotation : Q;
  (** identity of the engine's [threading.Lock] *)
  rotation_lock : nat
}.

Definition set_global_config (r : cfg_ref) (ap : t) : t := {|
  interface := interface ap; config := config ap; global_config := r;
  current_creds := current_creds ap; last_manual_rotation := last_manual_rotation ap;
  rotation_lock := rotation_lock ap |}.

Definition set_current_creds (r : option cred_ref) (ap : t) : t := {|
  interface := interface ap; config := config ap; global_config := global_config ap;
  current_creds := r; last_manual_rotation := last_manual_rotation ap;
  rotation_lock := rotation_lock ap |}.

Definition set_last_manual_rotation (x : Q) (ap : t) : t := {|
  interface := interface ap; config := config ap; global_config := global_config ap;
  current_creds := current_creds ap; last_manual_rotation := x;
  rotation_lock := rotation_lock ap |}.
End APInstance.

(** The supervisor object; [ap_instances] is a dict, in insertion order. *)
Module APRotationDaemon.
Record t := {
  config : cfg_ref;
  running : bool;
  ap_instances : list (string * APInstance.t)
}.
End APRotationDaemon.

(** *** The world outside the Python objects *)

(** A file opened with mode ['w'] is empty until its new content is written. *)
Inductive File (A : Type) : Type :=
| Truncated
| Holds (a : A).
Arguments Truncated {A}.
Arguments Holds {A} a.

Inductive Signal := SIGTERM | SIGINT | SIGHUP.

(** What the daemon reads from outside; the [k]-th reading of the run is
    answered at index [k]. *)
Record Oracle := {
  (** [time.time()] *)
  o_time : nat -> Q;
  (** stdout of [iw dev <iface> station dump] when it exits with 0: the
      code points of the decoded text *)
  o_station_dump : nat -> option (list N);
  (** the index drawn by [secrets.choice] *)
  o_randbelow : nat -> nat;
  (** the hostapd template, when the file is there and readable *)
  o_template : nat -> option string;
  (** the QR subprocess exited with 0 *)
  o_qr_ok : nat -> bool;
  (** [systemctl restart] exited with 0 in time *)
  o_restart_ok : nat -> bool;
  (** [datetime.now().isoformat()] *)
  o_isoformat : nat -> string;
  (** the parsed configuration file, when it is there and valid *)
  o_config_file : nat -> option FileConfig;
  (** the signal delivered before a tick, if any *)
  o_signal : nat -> option Signal;
  (** [Path.unlink] of a trigger marker that is there removes it (it
      raises otherwise, and the marker stays) *)
  o_unlink_ok : nat -> bool
}.

(** What the daemon does to the outside, in the order it does it. *)
Inductive Event :=
| EvAcquire (lock : nat)
| EvRelease (lock : nat)
| EvStartRotation (iface reason : string)
| EvPublish (iface state : string) (error : option string)
| EvWriteHostapd (iface ssid password : string) (ok : bool)
| EvGenerateQr (iface ssid password : string) (ok : bool)
| EvCopyMainQr
| EvRestart (service : string) (ok : bool)
| EvSaveCredentials (iface : string)
| EvLogRotation (iface reason : string)
| EvUnlinkTrigger (iface : string)
| EvWarning (msg : string)
| EvError (msg : string)
| EvSleep (seconds : Z).

(** The object store (credentials objects, configuration dicts, the shared
    ["interfaces"] dict), the files under [/var/run/ssb-ap], [/var/log/ssb-ap]
    and [/etc/hostapd] keyed by interface name, and the outside. *)
Record World := {
  creds_heap : cred_ref -> Credentials.t;
  creds_next : cred_ref;
  cfg_heap : cfg_ref -> Config;
  cfg_next : cfg_ref;
  interfaces : gmap string IfaceConfig;
  (** [status-<iface>.json] *)
  status_files : gmap string (File InterfaceStatus.t);
  (** [current-<iface>.json] *)
  creds_files : gmap string Credentials.t;
  (** [trigger-rotate-<iface>] *)
  trigger_files : gset string;
  (** [hostapd-<iface>.conf] *)
  hostapd_confs : gmap string string;
  (** [rotations.json] *)
  rotations_log : option (File (list Entry.t));
  oracle : Oracle;
  step : nat;
  trace : list Event
}.

Definition alloc_creds (c : Credentials.t) (w : World) : World := {|
  creds_heap := (fun r => if Nat.eqb r (creds_next w) then c else creds_heap w r);
  creds_next := S (creds_next w); cfg_heap := cfg_heap w; cfg_next := cfg_next w;
  interfaces := interfaces w; status_files := status_files w;
  creds_files := creds_files w; trigger_files := trigger_files w;
  hostapd_confs := hostapd_confs w; rotations_log := rotations_log w;
  oracle := oracle w; step := step w; trace := trace w |}.

Definition alloc_cfg (c : Config) (w : World) : World := {|
  creds_heap := creds_heap w; creds_next := creds_next w;
  cfg_heap := (fun r => if Nat.eqb r (cfg_next w) then c else cfg_heap w r);
  cfg_next := S (cfg_next w); interfaces := interfaces w;
  status_files := status_files w; creds_files := creds_files w;
  trigger_files := trigger_files w; hostapd_confs := hostapd_confs w;
  rotations_log := rotations_log w; oracle := oracle w; step := step w;
  trace := trace w |}.

Definition set_interfaces (x : gmap string IfaceConfig) (w : World) : World := {|
  creds_heap := creds_heap w; creds_next := creds_next w; cfg_heap := cfg_heap w;
  cfg_next := cfg_next w; interfaces := x; status_files := status_files w;
  creds_files := creds_files w; trigger_files := trigger_files w;
  hostapd_confs := hostapd_confs w; rotations_log := rotations_log w;
  oracle := oracle w; step := step w; trace := trace w |}.

Definition set_status_files (x : gmap string (File InterfaceStatus.t)) (w : World) : World := {|
  creds_heap := creds_heap w; creds_next := creds_next w; cfg_heap := cfg_heap w;
  cfg_next := cfg_next w; interfaces := interfaces w; status_files := x;
  creds_files := creds_files w; trigger_files := trigger_files w;
  hostapd_confs := hostapd_confs w; rotations_log := rotations_log w;
  oracle := oracle w; step := step w; trace := trace w |}.

Definition set_creds_files (x : gmap string Credentials.t) (w : World) : World := {|
  creds_heap := creds_heap w; creds_next := creds_next w; cfg_heap := cfg_heap w;
  cfg_next := cfg_next w; interfaces := interfaces w; status_files := status_files w;
  creds_files := x; trigger_files := trigger_files w; hostapd_confs := hostapd_confs w;
  rotations_log := rotations_log w; oracle := oracle w; step := step w;
  trace := trace w |}.

Definition set_trigger_files (x : gset string) (w : World) : World := {|
  creds_heap := creds_heap w; creds_next := creds_next w; cfg_heap := cfg_heap w;
  cfg_next := cfg_next w; interfaces := interfaces w; status_files := status_files w;
  creds_files := creds_files w; trigger_files := x; hostapd_confs := hostapd_confs w;
  rotations_log := rotations_log w; oracle := oracle w; step := step w;
  trace := trace w |}.

Definition set_hostapd_confs (x : gmap string string) (w : World) : World := {|
  creds_heap := creds_heap w; creds_next := creds_next w; cfg_heap := cfg_heap w;
  cfg_next := cfg_next w; interfaces := interfaces w; status_files := status_files w;
  creds_files := creds_files w; trigger_files := trigger_files w; hostapd_confs := x;
  rotations_log := rotations_log w; oracle := oracle w; step := step w;
  trace := trace w |}.

Definition set_rotations_log (x : option (File (list Entry.t))) (w : World) : World := {|
  creds_heap := creds_heap w; creds_next := creds_next w; cfg_heap := cfg_heap w;
  cfg_next := cfg_next w; interfaces := interfaces w; status_files := status_files w;
  creds_files := creds_files w; trigger_files := trigger_files w;
  hostapd_confs := hostapd_confs w; rotations_log := x; oracle := oracle w;
  step := step w; trace := trace w |}.

Definition set_step (x : nat) (w : World) : World := {|
  creds_heap := creds_heap w; creds_next := creds_next w; cfg_heap := cfg_heap w;
  cfg_next := cfg_next w; interfaces := interfaces w; status_files := status_files w;
  creds_files := creds_files w; trigger_files := trigger_files w;
  hostapd_confs := hostapd_confs w; rotations_log := rotations_log w;
  oracle := oracle w; step := x; trace := trace w |}.

Definition set_trace (x : list Event) (w : World) : World := {|
  creds_heap := creds_heap w; creds_next := creds_next w; cfg_heap := cfg_heap w;
  cfg_next := cfg_next w; interfaces := interfaces w; status_files := status_files w;
  creds_files := creds_files w; trigger_files := trigger_files w;
  hostapd_confs := hostapd_confs w; rotations_log := rotations_log w;
  oracle := oracle w; step := step w; trace := x |}.

(** *** The state monad of the daemon *)

Definition M (A : Type) : Type := World -> A * World.

Definition ret {A} (a : A) : M A := fun w => (a, w).

Definition bind {A B} (m : M A) (k : A -> M B) : M B :=
  fun w => let (a, w') := m w in k a w'.

Notation "x <- c1 ;; c2" := (bind c1 (fun x => c2))
  (at level 100, c1 at next level, right associativity).
Notation "c1 ;; c2" := (bind c1 (fun _ => c2))
  (at level 100, right associativity).

Definition get {A} (f : World -> A) : M A := fun w => (f w, w).
Definition modify (f : World -> World) : M unit := fun w => (tt, f w).
Definition ask {A} (f : Oracle -> nat -> A) : M A :=
  fun w => (f (oracle w) (step w), set_step (S (step w)) w).
Definition emit (e : Event) : M unit :=
  modify (fun w => set_trace (trace w ++ [e])%list w).

Definition time_time : M Q := ask o_time.
Definition time_sleep (seconds : Z) : M unit := emit (EvSleep seconds).

(** *** String helpers of the prober *)

(** The code points of a text of ASCII characters. *)
Definition text_of (s : string) : list N := map N_of_ascii (list_ascii_of_string s).

(** [c.isspace()] on the character of code point [c]: the white space of
    Unicode (general category Zs, or bidirectional class WS, B or S). *)
Definition is_space (c : N) : bool :=
  ((9 <=? c) && (c <=? 13) || (28 <=? c) && (c <=? 32)
   || (c =? 133) || (c =? 160) || (c =? 5760)
   || (8192 <=? c) && (c <=? 8202)
   || (c =? 8232) || (c =? 8233) || (c =? 8239) || (c =? 8287) || (c =? 12288))%N.

Fixpoint lstrip (s : list N) : list N :=
  match s with
  | [] => []
  | c :: s' => if is_space c then lstrip s' else s
  end.

(** [s.strip()] *)
Definition strip (s : list N) : list N := rev (lstrip (rev (lstrip s))).

(** [s.split(sep)] for a one-character separator. *)
Fixpoint split (sep : N) (s : list N) : list (list N) :=
  match s with
  | [] => [[]]
  | c :: s' =>
      if N.eqb c sep then [] :: split sep s'
      else match split sep s' with
           | h :: t => (c :: h) :: t
           | [] => [[c]]
           end
  end.

(** [s.startswith(prefix)] *)
Fixpoint startswith (prefix s : list N) : bool :=
  match prefix, s with
  | [], _ => true
  | a :: prefix', c :: s' => if N.eqb a c then startswith prefix' s' else false
  | _ :: _, [] => false
  end.

Definition newline : N := 10.

(** The count of [get_client_count] on the stdout of a successful call. *)
Definition count_stations (stdout : list N) : Z :=
  Z.of_nat (length (filter (fun line => startswith (text_of "Station") (strip line) = true)
                           (split newline stdout))).

(** *** The status file, one system call at a time *)

Inductive StatusOp :=
| OpenTruncate (iface : string)
| Dump (iface : string) (status : InterfaceStatus.t).

Definition status_apply (op : StatusOp) (files : gmap string (File InterfaceStatus.t))
  : gmap string (File InterfaceStatus.t) :=
  match op with
  | OpenTruncate iface => <[iface := Truncated]> files
  | Dump iface status => <[iface := Holds status]> files
  end.

(** [with open(self.status_file, 'w') as f: json.dump(asdict(status), f)]:
    the file is truncated when it is opened and receives the snapshot when
    the buffer is flushed. *)
Definition status_write_ops (iface : string) (status : InterfaceStatus.t) : list StatusOp :=
  [OpenTruncate iface; Dump iface status].

Definition run_status_ops (ops : list StatusOp) (files : gmap string (File InterfaceStatus.t))
  : gmap string (File InterfaceStatus.t) :=
  fold_left (fun fs op => status_apply op fs) ops files.

(** The contents of the directory that a reader can find while [ops] run:
    after each operation. *)
Fixpoint observable (ops : list StatusOp) (files : gmap string (File InterfaceStatus.t))
  : list (gmap string (File InterfaceStatus.t)) :=
  match ops with
  | [] => []
  | op :: ops' => status_apply op files :: observable ops' (status_apply op files)
  end.

(** *** Methods of [APInstance] *)

Section Methods.

Import APInstance.

Definition current_credentials (ap : APInstance.t) : M (option Credentials.t) :=
  get (fun w => option_map (creds_heap w) (current_creds ap)).

Definition the_global_config (ap : APInstance.t) : M Config :=
  get (fun w => cfg_heap w (global_config ap)).

Definition the_config (ap : APInstance.t) : M (option IfaceConfig) :=
  get (fun w => interfaces w !! config ap).

(** [get_client_count], lines 148-164. *)
Definition get_client_count (ap : APInstance.t) : M Z :=
  result <- ask o_station_dump;;
  match result with
  | Some stdout => ret (count_stations stdout)
  | None => ret 0%Z
  end.

Definition ascii_lowercase : string := "abcdefghijklmnopqrstuvwxyz".
Definition ascii_uppercase : string := "ABCDEFGHIJKLMNOPQRSTUVWXYZ".
Definition ascii_letters : string := ascii_lowercase +:+ ascii_uppercase.
Definition digits : string := "0123456789".

(** [secrets.choice(chars)] *)
Definition secrets_choice (chars : string) : M ascii :=
  i <- ask o_randbelow;;
  ret (default "000"%char (String.get (i mod String.length chars) chars)).

(** [''.join(secrets.choice(chars) for _ in range(length))] *)
Fixpoint random_string (chars : string) (length : nat) : M string :=
  match length with
  | O => ret EmptyString
  | S n => c <- secrets_choice chars;;
           rest <- random_string chars n;;
           ret (String c rest)
  end.

(** [generate_ssid], lines 166-172. *)
Definition generate_ssid (ap : APInstance.t) : M string :=
  cfg <- the_global_config ap;;
  let prefix := ssid_prefix cfg in
  let length := ssid_length cfg in
  let chars := ascii_lowercase +:+ digits in
  random_part <- random_string chars (Z.to_nat length);;
  ret (prefix +:+ random_part).

(** [generate_password], lines 174-178. *)
Definition generate_password (ap : APInstance.t) : M string :=
  cfg <- the_global_config ap;;
  let length := password_length cfg in
  let chars := ascii_letters +:+ digits in
  random_string chars (Z.to_nat length).

(** [write_hostapd_config], lines 180-210. *)
Definition write_hostapd_config (ap : APInstance.t) (ssid password : string) : M bool :=
  template <- ask o_template;;
  match template with
  | None =>
      emit (EvWriteHostapd (interface ap) ssid password false);;
      ret false
  | Some template =>
      ic <- the_config ap;;
      cfg <- the_global_config ap;;
      let config_content := Qr.replace "{{SSID}}" ssid template in
      let config_content := Qr.replace "{{PASSWORD}}" password config_content in
      let config_content :=
        Qr.replace "{{CHANNEL}}" (py_str_int (default 6%Z (ic ≫= ic_channel))) config_content in
      let config_content := Qr.replace "{{COUNTRY_CODE}}" (country_code cfg) config_content in
      modify (fun w => set_hostapd_confs (<[interface ap := config_content]> (hostapd_confs w)) w);;
      emit (EvWriteHostapd (interface ap) ssid password true);;
      ret true
  end.

(** [generate_qr], lines 212-243. *)
Definition generate_qr (ap : APInstance.t) (ssid password : string) : M bool :=
  ok <- ask o_qr_ok;;
  emit (EvGenerateQr (interface ap) ssid password ok);;
  if ok then
    (if String.eqb (interface ap) "wlan0" then emit EvCopyMainQr else ret tt);;
    ret true
  else ret false.

(** [restart_hostapd], lines 245-279. *)
Definition restart_hostapd (ap : APInstance.t) : M bool :=
  cfg <- the_global_config ap;;
  let dual_mode := dual_ap_mode cfg in
  let service_name := if dual_mode then "hostapd@" +:+ interface ap else "hostapd" in
  ok <- ask o_restart_ok;;
  emit (EvRestart service_name ok);;
  ret ok.

(** [save_credentials], lines 281-290. *)
Definition save_credentials (ap : APInstance.t) : M unit :=
  creds <- current_credentials ap;;
  match creds with
  | None => ret tt
  | Some c =>
      modify (fun w => set_creds_files (<[interface ap := c]> (creds_files w)) w);;
      emit (EvSaveCredentials (interface ap))
  end.

(** [update_status], lines 292-318. *)
Definition update_status (state : string) (error : option string) (ap : APInstance.t)
  : M unit :=
  now <- time_time;;
  creds <- current_credentials ap;;
  let time_remaining :=
    match creds with
    | Some c =>
        if py_gt (Credentials.expires_at c) now
        then py_int (Credentials.expires_at c - now)
        else 0%Z
    | None => 0%Z
    end in
  ic <- the_config ap;;
  count <- get_client_count ap;;
  let status := {|
    InterfaceStatus.interface := interface ap;
    InterfaceStatus.enabled := default true (ic ≫= ic_enabled);
    InterfaceStatus.state := state;
    InterfaceStatus.ssid := match creds with Some c => Credentials.ssid c | None => "" end;
    InterfaceStatus.created_at :=
      match creds with Some c => Credentials.created_at c | None => 0 end;
    InterfaceStatus.expires_at :=
      match creds with Some c => Credentials.expires_at c | None => 0 end;
    InterfaceStatus.time_remaining := time_remaining;
    InterfaceStatus.client_count := count;
    InterfaceStatus.last_rotation_reason :=
      match creds with Some c => Credentials.rotation_reason c | None => "" end;
    InterfaceStatus.last_error := error
  |} in
  modify (fun w =>
    set_status_files (run_status_ops (status_write_ops (interface ap) status) (status_files w)) w);;
  emit (EvPublish (interface ap) state error).

(** [rotate_credentials], lines 320-362. *)
Definition rotate_credentials (reason : string) (ap : APInstance.t)
  : M (bool * APInstance.t) :=
  emit (EvAcquire (rotation_lock ap));;
  emit (EvStartRotation (interface ap) reason);;
  update_status "rotating" None ap;;
  new_ssid <- generate_ssid ap;;
  new_password <- generate_password ap;;
  now <- time_time;;
  cfg <- the_global_config ap;;
  let expires_at := float_add now (rotation_interval_sec cfg) in
  written <- write_hostapd_config ap new_ssid new_password;;
  if negb written then
    update_status "error" (Some "Failed to write hostapd config") ap;;
    emit (EvRelease (rotation_lock ap));;
    ret (false, ap)
  else
    generate_qr ap new_ssid new_password;;
    restarted <- restart_hostapd ap;;
    if negb restarted then
      update_status "error" (Some "Failed to restart hostapd") ap;;
      emit (EvRelease (rotation_lock ap));;
      ret (false, ap)
    else
      r <- get creds_next;;
      modify (alloc_creds {|
        Credentials.interface := interface ap;
        Credentials.ssid := new_ssid;
        Credentials.password := new_password;
        Credentials.created_at := now;
        Credentials.expires_at := expires_at;
        Credentials.rotation_reason := reason
      |});;
      let ap := set_current_creds (Some r) ap in
      save_credentials ap;;
      update_status "ready" None ap;;
      emit (EvRelease (rotation_lock ap));;
      ret (true, ap).

(** [Path.unlink] of the trigger marker: [None] stands for the exception
    it raises, the [FileNotFoundError] of a missing file or the [OSError]
    of a marker that cannot be removed, which then stays. *)
Definition unlink_trigger (ap : APInstance.t) : M (option unit) :=
  present <- get (fun w => bool_decide (interface ap ∈ trigger_files w));;
  if present then
    removed <- ask o_unlink_ok;;
    if removed then
      modify (fun w => set_trigger_files (trigger_files w ∖ {[interface ap]}) w);;
      emit (EvUnlinkTrigger (interface ap));;
      ret (Some tt)
    else ret None
  else ret None.

(** [check_trigger_file], lines 364-381. *)
Definition check_trigger_file (ap : APInstance.t) : M (bool * APInstance.t) :=
  present <- get (fun w => bool_decide (interface ap ∈ trigger_files w));;
  if present then
    unlinked <- unlink_trigger ap;;
    match unlinked with
    | Some _ =>
        now <- time_time;;
        cfg <- the_global_config ap;;
        let cooldown := manual_rotation_cooldown_sec cfg in
        if py_lt (now - last_manual_rotation ap) cooldown then
          emit (EvWarning "Manual rotation cooldown");;
          ret (false, ap)
        else
          ret (true, set_last_manual_rotation now ap)
    | None =>
        emit (EvError "Error checking trigger");;
        ret (false, ap)
    end
  else ret (false, ap).

(** [should_rotate], lines 383-412. *)
Definition should_rotate (ap : APInstance.t) : M (bool * string) :=
  match current_creds ap with
  | None => ret (true, "initial")
  | Some r =>
      now <- time_time;;
      c <- get (fun w => creds_heap w r);;
      let time_since_creation := (now - Credentials.created_at c)%Q in
      client_count <- get_client_count ap;;
      if py_ge now (Credentials.expires_at c) then
        ret (true, "time_expired")
      else
        cfg <- the_global_config ap;;
        let threshold := client_threshold cfg in
        let min_time := min_time_after_clients_sec cfg in
        if (client_count >=? threshold)%Z && py_ge time_since_creation min_time then
          ret (true, "client_threshold_" +:+ py_str_int client_count)
        else
          ret (false, "")
  end.

End Methods.

(** *** Methods of [APRotationDaemon] *)

Section Supervisor.

Import APRotationDaemon.

Definition set_config (r : cfg_ref) (d : APRotationDaemon.t) : APRotationDaemon.t :=
  {| config := r; running := running d; ap_instances := ap_instances d |}.

Definition set_running (b : bool) (d : APRotationDaemon.t) : APRotationDaemon.t :=
  {| config := config d; running := b; ap_instances := ap_instances d |}.

Definition set_ap_instances (l : list (string * APInstance.t)) (d : APRotationDaemon.t)
  : APRotationDaemon.t :=
  {| config := config d; running := running d; ap_instances := l |}.

(** The deep merge of ["interfaces"] in [_load_config], lines 446-452: the
    per-interface dicts of the shared dict are updated in place. *)
Fixpoint merge_interfaces (items : list (string * IfaceConfig))
    (store : gmap string IfaceConfig) : gmap string IfaceConfig :=
  match items with
  | [] => store
  | (iface, iface_config) :: rest =>
      merge_interfaces rest
        (match store !! iface with
         | Some old => <[iface := iface_update old iface_config]> store
         | None => <[iface := iface_config]> store
         end)
  end.

(** [_load_config], lines 436-459: a new dict on every call. *)
Definition _load_config : M cfg_ref :=
  file <- ask o_config_file;;
  match file with
  | Some file_config =>
      match fc_interfaces file_config with
      | Some items => modify (fun w => set_interfaces (merge_interfaces items (interfaces w)) w)
      | None => ret tt
      end;;
      r <- get cfg_next;;
      modify (alloc_cfg (config_update DEFAULT_CONFIG file_config));;
      ret r
  | None =>
      r <- get cfg_next;;
      modify (alloc_cfg DEFAULT_CONFIG);;
      ret r
  end.

(** [_handle_signal], lines 496-499. *)
Definition _handle_signal (d : APRotationDaemon.t) : M APRotationDaemon.t :=
  ret (set_running false d).

(** [_handle_reload], lines 501-507. *)
Definition _handle_reload (d : APRotationDaemon.t) : M APRotationDaemon.t :=
  r <- _load_config;;
  let d := set_config r d in
  ret (set_ap_instances
         (map (fun item => (fst item, APInstance.set_global_config (config d) (snd item)))
              (ap_instances d))
         d).

(** [log_rotation], lines 509-535. *)
Definition log_rotation (d : APRotationDaemon.t) (creds : option cred_ref) : M unit :=
  file <- get rotations_log;;
  match file with
  | Some Truncated => emit (EvError "Failed to log rotation")
  | _ =>
      let rotations := match file with Some (Holds l) => l | _ => [] end in
      timestamp <- ask o_isoformat;;
      match creds with
      | None => emit (EvError "Failed to log rotation")
      | Some r =>
          c <- get (fun w => creds_heap w r);;
          let entry := {|
            Entry.timestamp := timestamp;
            Entry.interface := Credentials.interface c;
            Entry.ssid := Credentials.ssid c;
            Entry.reason := Credentials.rotation_reason c;
            Entry.created_at := Credentials.created_at c
          |} in
          let rotations := (rotations ++ [entry])%list in
          cfg <- get (fun w => cfg_heap w (config d));;
          let retention := log_retention_count cfg in
          let rotations :=
            if (Z.of_nat (length rotations) >? retention)%Z
            then py_slice_from (- retention) rotations
            else rotations in
          modify (set_rotations_log (Some (Holds rotations)));;
          emit (EvLogRotation (Credentials.interface c) (Credentials.rotation_reason c))
      end
  end.

(** [for interface, ap in self.ap_instances.items(): body]; the engines are
    updated in place. *)
Fixpoint for_each (body : string -> APInstance.t -> M APInstance.t)
    (items : list (string * APInstance.t)) : M (list (string * APInstance.t)) :=
  match items with
  | [] => ret []
  | (interface, ap) :: rest =>
      ap <- body interface ap;;
      rest <- for_each body rest;;
      ret ((interface, ap) :: rest)
  end.

(** The body of the startup loop of [run], lines 544-552. *)
Definition startup_body (d : APRotationDaemon.t) (interface : string) (ap : APInstance.t)
  : M APInstance.t :=
  first <- rotate_credentials "startup" ap;;
  let ap := snd first in
  if negb (fst first) then
    emit (EvError "Initial rotation failed, retrying...");;
    time_sleep 5;;
    second <- rotate_credentials "startup_retry" ap;;
    let ap := snd second in
    if negb (fst second) then
      emit (EvError "Startup rotation failed");;
      update_status "error" (Some "Startup rotation failed") ap;;
      ret ap
    else ret ap
  else
    log_rotation d (APInstance.current_creds ap);;
    ret ap.

(** The body of the loop over the engines in a tick, lines 557-573. *)
Definition tick_body (d : APRotationDaemon.t) (interface : string) (ap : APInstance.t)
  : M APInstance.t :=
  triggered <- check_trigger_file ap;;
  let ap := snd triggered in
  if fst triggered then
    rotated <- rotate_credentials "manual_trigger" ap;;
    let ap := snd rotated in
    (if fst rotated then log_rotation d (APInstance.current_creds ap) else ret tt);;
    ret ap
  else
    decision <- should_rotate ap;;
    if fst decision then
      rotated <- rotate_credentials (snd decision) ap;;
      let ap := snd rotated in
      (if fst rotated then log_rotation d (APInstance.current_creds ap)
       else emit (EvWarning "Rotation failed, will retry"));;
      ret ap
    else
      update_status "ready" None ap;;
      ret ap.

Definition startup (d : APRotationDaemon.t) : M APRotationDaemon.t :=
  items <- for_each (startup_body d) (ap_instances d);;
  ret (set_ap_instances items d).

(** One iteration of the main loop, lines 556-575. *)
Definition tick (d : APRotationDaemon.t) : M APRotationDaemon.t :=
  items <- for_each (tick_body d) (ap_instances d);;
  time_sleep 1;;
  ret (set_ap_instances items d).

(** A signal, if one is pending, runs its handler between two ticks. *)
Definition deliver_signal (d : APRotationDaemon.t) : M APRotationDaemon.t :=
  pending <- ask o_signal;;
  match pending with
  | Some SIGHUP => _handle_reload d
  | Some _ => _handle_signal d
  | None => ret d
  end.

(** [while self.running], for at most [fuel] iterations. *)
Fixpoint main_loop (fuel : nat) (d : APRotationDaemon.t) : M APRotationDaemon.t :=
  match fuel with
  | O => ret d
  | S fuel =>
      d <- deliver_signal d;;
      if running d then
        d <- tick d;;
        main_loop fuel d
      else ret d
  end.

(** [run], lines 537-581. *)
Definition run (fuel : nat) (d : APRotationDaemon.t) : M APRotationDaemon.t :=
  d <- startup d;;
  main_loop fuel d.

(** The loop of [_init_ap_instances], lines 466-488, over the keys of
    [config["interfaces"]] in the order of the dict. [available] is the
    outcome of [is_interface_available] (lines 136-146: [ip link show]
    exits with 0) for each interface; [lock] numbers the locks that the
    constructor creates. *)
Fixpoint init_loop (available : string -> bool) (d : APRotationDaemon.t)
    (names : list string) (lock : nat) : M (list (string * APInstance.t)) :=
  match names with
  | [] => ret []
  | interface :: rest =>
      cfg <- get (fun w => cfg_heap w (config d));;
      iface_config <- get (fun w => interfaces w !! interface);;
      let dual_mode := dual_ap_mode cfg in
      if String.eqb interface "wlan1" && negb dual_mode then
        init_loop available d rest lock
      else if negb (default true (iface_config ≫= ic_enabled)) then
        init_loop available d rest lock
      else
        let ap := {|
          APInstance.interface := interface;
          APInstance.config := interface;
          APInstance.global_config := config d;
          APInstance.current_creds := None;
          APInstance.last_manual_rotation := 0;
          APInstance.rotation_lock := lock
        |} in
        if negb (available interface) then
          update_status "disabled" (Some "Interface not found") ap;;
          init_loop available d rest (S lock)
        else
          rest <- init_loop available d rest (S lock);;
          ret ((interface, ap) :: rest)
  end.

(** [_init_ap_instances], lines 461-494; [None] stands for [sys.exit(1)]. *)
Definition _init_ap_instances (available : string -> bool) (names : list string)
    (d : APRotationDaemon.t) : M (option APRotationDaemon.t) :=
  items <- init_loop available d names 0;;
  match items with
  | [] => emit (EvError "No AP interfaces available!");; ret None
  | _ => ret (Some (set_ap_instances items d))
  end.

End Supervisor.

End Ap.

(** ** Vocabulary of the statements *)

Module ApSpec.

Import Ap.

(** The next reading of the clock. *)
Definition now_at (w : World) : Q := o_time (oracle w) (step w).

(** The reading of the clock that follows the next reading: in
    [check_trigger_file] the next reading is the outcome of [unlink]. *)
Definition checked_at (w : World) : Q := o_time (oracle w) (S (step w)).

(** The client count that the reading at index [k] yields. *)
Definition clients_at (w : World) (k : nat) : Z :=
  match o_station_dump (oracle w) k with
  | Some stdout => count_stations stdout
  | None => 0%Z
  end.

(** The credentials object the engine points to. *)
Definition creds_of (ap : APInstance.t) (w : World) : option Credentials.t :=
  option_map (creds_heap w) (APInstance.current_creds ap).

(** The snapshot that [update_status state error] builds in [w]. *)
Definition snapshot (state : string) (error : option string) (ap : APInstance.t)
    (w : World) : InterfaceStatus.t :=
  let creds := creds_of ap w in {|
    InterfaceStatus.interface := APInstance.interface ap;
    InterfaceStatus.enabled :=
      default true ((interfaces w !! APInstance.config ap) ≫= ic_enabled);
    InterfaceStatus.state := state;
    InterfaceStatus.ssid := match creds with Some c => Credentials.ssid c | None => "" end;
    InterfaceStatus.created_at :=
      match creds with Some c => Credentials.created_at c | None => 0 end;
    InterfaceStatus.expires_at :=
      match creds with Some c => Credentials.expires_at c | None => 0 end;
    InterfaceStatus.time_remaining :=
      match creds with
      | Some c =>
          if py_gt (Credentials.expires_at c) (now_at w)
          then py_int (Credentials.expires_at c - now_at w)
          else 0%Z
      | None => 0%Z
      end;
    InterfaceStatus.client_count := clients_at w (S (step w));
    InterfaceStatus.last_rotation_reason :=
      match creds with Some c => Credentials.rotation_reason c | None => "" end;
    InterfaceStatus.last_error := error
  |}.

(** The world after [update_status state error]. *)
Definition published (state : string) (error : option string) (ap : APInstance.t)
    (w : World) : World :=
  set_trace (trace w ++ [EvPublish (APInstance.interface ap) state error])%list
    (set_status_files
       (<[APInstance.interface ap := Holds (snapshot state error ap w)]>
          (<[APInstance.interface ap := Truncated]> (status_files w)))
       (set_step (S (S (step w))) w)).

(** World transformers: events added to the trace, readings consumed, the
    hostapd configuration and the credentials file written. *)
Definition emitted (evs : list Event) (w : World) : World :=
  set_trace (trace w ++ evs)%list w.

Definition asked (n : nat) (w : World) : World := set_step (n + step w) w.

Definition configured (iface content : string) (w : World) : World :=
  set_hostapd_confs (<[iface := content]> (hostapd_confs w)) w.

Definition saved (iface : string) (c : Credentials.t) (w : World) : World :=
  set_creds_files (<[iface := c]> (creds_files w)) w.

(** The next answer of the oracle to a reading of kind [f]. *)
Definition reading {A} (f : Oracle -> nat -> A) (w : World) : A :=
  f (oracle w) (step w).

(** The rendered hostapd configuration. *)
Definition hostapd_content (ap : APInstance.t) (ssid password template : string)
    (w : World) : string :=
  Qr.replace "{{COUNTRY_CODE}}" (country_code (cfg_heap w (APInstance.global_config ap)))
    (Qr.replace "{{CHANNEL}}"
       (py_str_int (default 6%Z ((interfaces w !! APInstance.config ap) ≫= ic_channel)))
       (Qr.replace "{{PASSWORD}}" password (Qr.replace "{{SSID}}" ssid template))).

Definition service_name (ap : APInstance.t) (w : World) : string :=
  if dual_ap_mode (cfg_heap w (APInstance.global_config ap))
  then "hostapd@" +:+ APInstance.interface ap
  else "hostapd".

(** [w'] differs from [w] at most in the status file and the hostapd
    configuration of [iface], in the readings consumed and in the trace. *)
Record engine_frame (iface : string) (w w' : World) : Prop := {
  same_creds_heap : creds_heap w' = creds_heap w;
  same_creds_next : creds_next w' = creds_next w;
  same_cfg_heap : cfg_heap w' = cfg_heap w;
  same_cfg_next : cfg_next w' = cfg_next w;
  same_interfaces : interfaces w' = interfaces w;
  same_creds_files : creds_files w' = creds_files w;
  same_trigger_files : trigger_files w' = trigger_files w;
  same_rotations_log : rotations_log w' = rotations_log w;
  same_oracle : oracle w' = oracle w;
  same_other_status : forall j, j <> iface -> status_files w' !! j = status_files w !! j
}.

(** The string that [random_string chars n] draws from index [k] on. *)
Fixpoint random_text (chars : string) (n : nat) (o : Oracle) (k : nat) : string :=
  match n with
  | O => EmptyString
  | S n' =>
      String (default "000"%char (String.get (o_randbelow o k mod String.length chars) chars))
             (random_text chars n' o (S k))
  end.

(** What a run adds to the trace. *)
Definition new_events (w w' : World) : list Event :=
  drop (length (trace w)) (trace w').

(** The rotation attempts recorded in a trace: interface and reason. *)
Definition attempts (evs : list Event) : list (string * string) :=
  flat_map (fun e => match e with
                     | EvStartRotation iface reason => [(iface, reason)]
                     | _ => []
                     end) evs.

(** The reasons of the rotation attempts on one interface. *)
Definition attempts_on (iface : string) (evs : list Event) : list string :=
  flat_map (fun e => match e with
                     | EvStartRotation i reason =>
                         if String.eqb i iface then [reason] else []
                     | _ => []
                     end) evs.

(** What the QR step adds to the trace. *)
Definition qr_events (ap : APInstance.t) (ssid pw : string) (ok : bool) : list Event :=
  EvGenerateQr (APInstance.interface ap) ssid pw ok ::
  if ok && String.eqb (APInstance.interface ap) "wlan0" then [EvCopyMainQr] else [].

(** The two fatal gates of a rotation: the events from the configuration
    write up to the gate that failed, and the error message published. *)
Inductive gate_failure (ap : APInstance.t) : list Event -> string -> Prop :=
| write_gate_failed ssid pw :
    gate_failure ap [EvWriteHostapd (APInstance.interface ap) ssid pw false]
      "Failed to write hostapd config"
| apply_gate_failed ssid pw qr service :
    gate_failure ap
      (EvWriteHostapd (APInstance.interface ap) ssid pw true
         :: qr_events ap ssid pw qr ++ [EvRestart service false])
      "Failed to restart hostapd".


(** A published status shows these credentials (or none). *)
Definition reports (st : InterfaceStatus.t) (creds : option Credentials.t) : Prop :=
  InterfaceStatus.ssid st = match creds with Some c => Credentials.ssid c | None => "" end /\
  InterfaceStatus.created_at st
  = match creds with Some c => Credentials.created_at c | None => 0%Q end /\
  InterfaceStatus.expires_at st
  = match creds with Some c => Credentials.expires_at c | None => 0%Q end /\
  InterfaceStatus.last_rotation_reason st
  = match creds with Some c => Credentials.rotation_reason c | None => "" end.

(** The claim of an atomic replace: whatever a reader finds for [iface]
    while [ops] run on [files] is the previous file or the final one. *)
Definition atomic_replace (iface : string) (files : gmap string (File InterfaceStatus.t))
    (ops : list StatusOp) : Prop :=
  Forall (fun seen => seen !! iface = files !! iface \/
                      seen !! iface = run_status_ops ops files !! iface)
         (observable ops files).

(** The rotation history that [rotations.json] holds. *)
Definition history (w : World) : list Entry.t :=
  match rotations_log w with
  | Some (Holds l) => l
  | _ => []
  end.

(** The entry that [log_rotation] builds from a credentials object. *)
Definition entry_of (timestamp : string) (c : Credentials.t) : Entry.t := {|
  Entry.timestamp := timestamp;
  Entry.interface := Credentials.interface c;
  Entry.ssid := Credentials.ssid c;
  Entry.reason := Credentials.rotation_reason c;
  Entry.created_at := Credentials.created_at c
|}.

(** The trimming of [log_rotation], lines 526-528. *)
Definition capped {A} (retention : Z) (l : list A) : list A :=
  if (Z.of_nat (length l) >? retention)%Z then py_slice_from (- retention) l else l.

(** The last [n] elements of a list. *)
Definition keep_last {A} (n : nat) (l : list A) : list A := drop (length l - n) l.

(** The configuration that [_load_config] builds from the next reading of
    the file, and the world it leaves. *)
Definition loaded_config (w : World) : Config :=
  match reading o_config_file w with
  | Some file_config => config_update DEFAULT_CONFIG file_config
  | None => DEFAULT_CONFIG
  end.

Definition loaded_interfaces (w : World) : gmap string IfaceConfig :=
  match reading o_config_file w with
  | Some file_config =>
      match fc_interfaces file_config with
      | Some items => merge_interfaces items (interfaces w)
      | None => interfaces w
      end
  | None => interfaces w
  end.

Definition reloaded (w : World) : World :=
  alloc_cfg (loaded_config w) (set_interfaces (loaded_interfaces w) (asked 1 w)).





(** The entries that successive calls of [log_rotation] build for the
    credentials objects [rs], the first timestamp being reading [k]. *)
Fixpoint logged_entries (o : Oracle) (heap : cred_ref -> Credentials.t) (k : nat)
    (rs : list cred_ref) : list Entry.t :=
  match rs with
  | [] => []
  | r :: rs' => entry_of (o_isoformat o k) (heap r) :: logged_entries o heap (S k) rs'
  end.

(** The world after logging the rotations that produced [rs], in order. *)
Definition log_all (d : APRotationDaemon.t) (rs : list cred_ref) (w : World) : World :=
  fold_left (fun w r => snd (log_rotation d (Some r) w)) rs w.


(** The lock operations recorded in a trace. *)
Definition lock_events (evs : list Event) : list Event :=
  flat_map (fun e => match e with EvAcquire _ | EvRelease _ => [e] | _ => [] end) evs.

(** An event that records a successful restart of hostapd. *)
Definition is_restart_done (e : Event) : bool :=
  match e with
  | EvRestart _ true => true
  | _ => false
  end.


(** An engine as the constructor leaves it, registered under its interface
    name and sharing the supervisor's configuration. *)
Definition fresh_engine (d : APRotationDaemon.t) (item : string * APInstance.t) : Prop :=
  APInstance.interface (snd item) = fst item /\
  APInstance.config (snd item) = fst item /\
  APInstance.global_config (snd item) = APRotationDaemon.config d /\
  APInstance.current_creds (snd item) = None /\
  APInstance.last_manual_rotation (snd item) = 0%Q.

(** The test that [_init_ap_instances] makes before it constructs an
    engine: not wlan1 outside dual mode, and not disabled in the
    configuration. *)
Definition wanted (d : APRotationDaemon.t) (w : World) (name : string) : bool :=
  negb (String.eqb name "wlan1" && negb (dual_ap_mode (cfg_heap w (APRotationDaemon.config d))))
  && default true ((interfaces w !! name) ≫= ic_enabled).


(** The credentials file of the engine's interface holds the credentials
    object that the engine points to (an engine without credentials asks
    for nothing). *)
Definition mirrored (w : World) (ap : APInstance.t) : Prop :=
  match APInstance.current_creds ap with
  | Some r =>
      r < creds_next w /\
      creds_files w !! APInstance.interface ap = Some (creds_heap w r)
  | None => True
  end.

(** [w'] has the credentials objects and files of [w]. *)
Definition creds_same (w w' : World) : Prop :=
  creds_heap w' = creds_heap w /\
  creds_next w' = creds_next w /\
  creds_files w' = creds_files w.

(** [w'] has the credentials objects of [w], maybe more, and the
    credentials files of [w] except maybe the one of interface [i]. *)
Definition creds_kept (i : string) (w w' : World) : Prop :=
  creds_next w <= creds_next w' /\
  (forall r, r < creds_next w -> creds_heap w' r = creds_heap w r) /\
  (forall j, j <> i -> creds_files w' !! j = creds_files w !! j).

(** What the body of a loop over the engines keeps, for the engine [ap] it
    runs on in [w]. *)
Definition body_keeps (ap : APInstance.t) (w : World) (run : APInstance.t * World) : Prop :=
  creds_kept (APInstance.interface ap) w (snd run) /\
  (mirrored w ap -> mirrored (snd run) (fst run)) /\
  APInstance.interface (fst run) = APInstance.interface ap.

(** The engine map has distinct keys, each engine is registered under its
    interface name and its credentials file mirrors its credentials. *)
Definition consistent (d : APRotationDaemon.t) (w : World) : Prop :=
  NoDup (map fst (APRotationDaemon.ap_instances d)) /\
  Forall (fun item => APInstance.interface (snd item) = fst item)
    (APRotationDaemon.ap_instances d) /\
  Forall (fun item => mirrored w (snd item)) (APRotationDaemon.ap_instances d).


End ApSpec.

(** ** Concrete runs *)

Module Scenario.

Import Ap ApSpec.

(** The stdout of a station dump with [n] stations. *)
Fixpoint station_dump (n : nat) : list N :=
  match n with
  | O => []
  | S n' =>
      (text_of "Station 02:00:00:00:00:01 (on wlan0)" ++ newline :: station_dump n')%list
  end.

(** An outside world given by its clock, the number of associated clients
    and the outcome of the two fatal gates at each reading. *)
Definition make_oracle (time : nat -> Q) (stations : nat -> nat)
    (template_there restart_ok : nat -> bool) : Oracle := {|
  o_time := time;
  o_station_dump := fun k => Some (station_dump (stations k));
  o_randbelow := fun k => k * 7;
  o_template := fun k =>
    if template_there k then Some "ssid={{SSID}} wpa_passphrase={{PASSWORD}}" else None;
  o_qr_ok := fun _ => true;
  o_restart_ok := restart_ok;
  o_isoformat := fun _ => "2026-01-01T00:00:00";
  o_config_file := fun _ => None;
  o_signal := fun _ => None;
  o_unlink_ok := fun _ => true
|}.

Definition no_credentials : Credentials.t := {|
  Credentials.interface := ""; Credentials.ssid := ""; Credentials.password := "";
  Credentials.created_at := 0; Credentials.expires_at := 0;
  Credentials.rotation_reason := "" |}.

(** A world right after the supervisor is constructed: one configuration
    dict (reference 0), no credentials object, an empty run directory. *)
Definition fresh_world (cfg : Config) (o : Oracle) : World := {|
  creds_heap := fun _ => no_credentials; creds_next := 0;
  cfg_heap := fun _ => cfg; cfg_next := 1;
  interfaces := DEFAULT_INTERFACES;
  status_files := ∅; creds_files := ∅; trigger_files := ∅; hostapd_confs := ∅;
  rotations_log := None;
  oracle := o; step := 0; trace := []
|}.

Definition wlan0 : APInstance.t := {|
  APInstance.interface := "wlan0"; APInstance.config := "wlan0";
  APInstance.global_config := 0; APInstance.current_creds := None;
  APInstance.last_manual_rotation := 0; APInstance.rotation_lock := 0 |}.

Definition supervisor : APRotationDaemon.t := {|
  APRotationDaemon.config := 0; APRotationDaemon.running := true;
  APRotationDaemon.ap_instances := [("wlan0", wlan0)] |}.

(** Everything works; the clock reads 1000 s plus one second per reading. *)
Definition calm : Oracle :=
  make_oracle (fun k => inject_Z (1000 + Z.of_nat k)) (fun _ => 0)
    (fun _ => true) (fun _ => true).



(** An engine that serves credentials created at 1000 s, valid to 1300 s. *)
Definition current : Credentials.t := {|
  Credentials.interface := "wlan0"; Credentials.ssid := "ssb-k3x9qa";
  Credentials.password := "Zq8rT1mVb0pLs4Yd";
  Credentials.created_at := 1000; Credentials.expires_at := 1300;
  Credentials.rotation_reason := "startup" |}.

Definition wlan0_serving : APInstance.t :=
  APInstance.set_current_creds (Some 0) wlan0.

Definition serving_world (cfg : Config) (o : Oracle) (markers : gset string) : World := {|
  creds_heap := fun _ => current; creds_next := 1;
  cfg_heap := fun _ => cfg; cfg_next := 1;
  interfaces := DEFAULT_INTERFACES;
  status_files := ∅; creds_files := ∅; trigger_files := markers; hostapd_confs := ∅;
  rotations_log := None;
  oracle := o; step := 0; trace := []
|}.

(** The clock reads 1150 s and six clients are associated. *)
Definition busy : Oracle :=
  make_oracle (fun _ => 1150%Q) (fun _ => 6) (fun _ => true) (fun _ => true).

(** The clock reads 1150 s and nobody is associated. *)
Definition idle : Oracle :=
  make_oracle (fun _ => 1150%Q) (fun _ => 0) (fun _ => true) (fun _ => true).

(** The default configuration with a retention count of zero. *)
Definition keep_nothing : Config := {|
  rotation_interval_sec := 300; client_threshold := 5;
  min_time_after_clients_sec := 120; ssid_prefix := "ssb-"; ssid_length := 6;
  password_length := 16; country_code := "AR"; log_retention_count := 0;
  manual_rotation_cooldown_sec := 30; dual_ap_mode := false |}.

(** Two snapshots of wlan0, before and after a rotation. *)
Definition before : InterfaceStatus.t := {|
  InterfaceStatus.interface := "wlan0"; InterfaceStatus.enabled := true;
  InterfaceStatus.state := "ready"; InterfaceStatus.ssid := "ssb-k3x9qa";
  InterfaceStatus.created_at := 1000; InterfaceStatus.expires_at := 1300;
  InterfaceStatus.time_remaining := 0; InterfaceStatus.client_count := 0;
  InterfaceStatus.last_rotation_reason := "startup";
  InterfaceStatus.last_error := None |}.

Definition after : InterfaceStatus.t := {|
  InterfaceStatus.interface := "wlan0"; InterfaceStatus.enabled := true;
  InterfaceStatus.state := "rotating"; InterfaceStatus.ssid := "ssb-k3x9qa";
  InterfaceStatus.created_at := 1000; InterfaceStatus.expires_at := 1300;
  InterfaceStatus.time_remaining := 0; InterfaceStatus.client_count := 0;
  InterfaceStatus.last_rotation_reason := "startup";
  InterfaceStatus.last_error := None |}.

(** The clock reads 1150 s, nobody is associated, and the trigger marker
    cannot be unlinked. *)
Definition stuck : Oracle := {|
  o_time := o_time idle; o_station_dump := o_station_dump idle;
  o_randbelow := o_randbelow idle; o_template := o_template idle;
  o_qr_ok := o_qr_ok idle; o_restart_ok := o_restart_ok idle;
  o_isoformat := o_isoformat idle; o_config_file := o_config_file idle;
  o_signal := o_signal idle; o_unlink_ok := fun _ => false |}.

(** A rotation interval of 2^-24 s. *)
Definition tiny_interval : Config := {|
  rotation_interval_sec := 1 # 16777216; client_threshold := 5;
  min_time_after_clients_sec := 120; ssid_prefix := "ssb-"; ssid_length := 6;
  password_length := 16; country_code := "AR"; log_retention_count := 100;
  manual_rotation_cooldown_sec := 30; dual_ap_mode := false |}.

(** Everything works; the clock reads 1700000000 s. *)
Definition at_1700000000 : Oracle :=
  make_oracle (fun _ => 1700000000%Q) (fun _ => 0) (fun _ => true) (fun _ => true).



(** Dual AP mode: a second engine on wlan1. *)
Definition wlan1 : APInstance.t := {|
  APInstance.interface := "wlan1"; APInstance.config := "wlan1";
  APInstance.global_config := 0; APInstance.current_creds := None;
  APInstance.last_manual_rotation := 0; APInstance.rotation_lock := 1 |}.

Definition dual_supervisor : APRotationDaemon.t := {|
  APRotationDaemon.config := 0; APRotationDaemon.running := true;
  APRotationDaemon.ap_instances := [("wlan0", wlan0); ("wlan1", wlan1)] |}.


(** The default configuration with a retention count of two. *)
Definition keep_two : Config := {|
  rotation_interval_sec := 300; client_threshold := 5;
  min_time_after_clients_sec := 120; ssid_prefix := "ssb-"; ssid_length := 6;
  password_length := 16; country_code := "AR"; log_retention_count := 2;
  manual_rotation_cooldown_sec := 30; dual_ap_mode := false |}.


(** The clock reads 1000 s plus one second per reading; a marker is there. *)
Definition first_request : World :=
  serving_world DEFAULT_CONFIG calm {["wlan0"]}.

(** The same run a little later (reading 10), with a new marker. *)
Definition second_request : World :=
  set_step 10 (serving_world DEFAULT_CONFIG calm {["wlan0"]}).

(** The configuration file sets a rotation interval of 60 s. *)
Definition one_minute : FileConfig := {|
  fc_rotation_interval_sec := Some 60%Q; fc_client_threshold := None;
  fc_min_time_after_clients_sec := None; fc_ssid_prefix := None;
  fc_ssid_length := None; fc_password_length := None; fc_country_code := None;
  fc_log_retention_count := None; fc_manual_rotation_cooldown_sec := None;
  fc_dual_ap_mode := None; fc_interfaces := None |}.

(** Everything works and the configuration file is [one_minute]. *)
Definition reconfigured : Oracle := {|
  o_time := o_time calm; o_station_dump := o_station_dump calm;
  o_randbelow := o_randbelow calm; o_template := o_template calm;
  o_qr_ok := o_qr_ok calm; o_restart_ok := o_restart_ok calm;
  o_isoformat := o_isoformat calm;
  o_config_file := fun _ => Some one_minute;
  o_signal := o_signal calm; o_unlink_ok := o_unlink_ok calm |}.


(** Everything works and SIGTERM is pending. *)
Definition terminated : Oracle := {|
  o_time := o_time calm; o_station_dump := o_station_dump calm;
  o_randbelow := o_randbelow calm; o_template := o_template calm;
  o_qr_ok := o_qr_ok calm; o_restart_ok := o_restart_ok calm;
  o_isoformat := o_isoformat calm; o_config_file := o_config_file calm;
  o_signal := fun _ => Some SIGTERM; o_unlink_ok := o_unlink_ok calm |}.


(** A configuration file that only moves wlan0 to channel 1. *)
Definition channel_one : FileConfig := {|
  fc_rotation_interval_sec := None; fc_client_threshold := None;
  fc_min_time_after_clients_sec := None; fc_ssid_prefix := None;
  fc_ssid_length := None; fc_password_length := None; fc_country_code := None;
  fc_log_retention_count := None; fc_manual_rotation_cooldown_sec := None;
  fc_dual_ap_mode := None;
  fc_interfaces := Some [("wlan0", {| ic_enabled := None; ic_channel := Some 1%Z |})] |}.

(** Everything works and the configuration file is [channel_one]. *)
Definition rechannelled : Oracle := {|
  o_time := o_time calm; o_station_dump := o_station_dump calm;
  o_randbelow := o_randbelow calm; o_template := o_template calm;
  o_qr_ok := o_qr_ok calm; o_restart_ok := o_restart_ok calm;
  o_isoformat := o_isoformat calm;
  o_config_file := fun _ => Some channel_one;
  o_signal := o_signal calm; o_unlink_ok := o_unlink_ok calm |}.


(** Only wlan0 is configured to be probed, and its radio is missing. *)
Definition radio_missing : World :=
  snd (_init_ap_instances (fun _ => false) ["wlan0"] supervisor
         (fresh_world DEFAULT_CONFIG calm)).


(** The daemon accepted its last manual request at 971 s; the clock reads
    1000 s. *)
Definition accepted_late : APInstance.t :=
  APInstance.set_last_manual_rotation 971 wlan0_serving.

Definition at_1000 : Oracle :=
  make_oracle (fun _ => 1000%Q) (fun _ => 0) (fun _ => true) (fun _ => true).

End Scenario.

(** ** The status reader of the web server *)

Module Web.

Import Ap.

(** The dict that [get_interface_status] of [web/server.py] returns. *)
Record Status := {
  interface : string;
  enabled : bool;
  state : string;
  ssid : string;
  created_at : Q;
  expires_at : Q;
  time_remaining : Z;
  client_count : Z;
  last_rotation_reason : string;
  last_error : option string;
  expires_at_iso : string;
  created_at_iso : string
}.

(** What the server finds in the run directory: the status files by
    interface and the legacy [status.json]. *)
Record RunDir := {
  status : gmap string (File InterfaceStatus.t);
  legacy : option (File InterfaceStatus.t)
}.

Section Reader.

(** [datetime.fromtimestamp(t).strftime("%H:%M:%S")] *)
Variable strftime : Q -> string.

(** [str(e)] for the exception that [json.load] raises on a file that does
    not hold a JSON document. *)
Variable str_error : string.

Definition default_status (interface : string) : Status := {|
  interface := interface; enabled := false; state := "unknown"; ssid := "";
  created_at := 0; expires_at := 0; time_remaining := 0; client_count := 0;
  last_rotation_reason := ""; last_error := None;
  expires_at_iso := ""; created_at_iso := "" |}.

(** [default_status.update(status)] followed by
    [default_status["enabled"] = True], server.py lines 90-91. *)
Definition updated (st : InterfaceStatus.t) : Status := {|
  interface := InterfaceStatus.interface st;
  enabled := true;
  state := InterfaceStatus.state st;
  ssid := InterfaceStatus.ssid st;
  created_at := InterfaceStatus.created_at st;
  expires_at := InterfaceStatus.expires_at st;
  time_remaining := InterfaceStatus.time_remaining st;
  client_count := InterfaceStatus.client_count st;
  last_rotation_reason := InterfaceStatus.last_rotation_reason st;
  last_error := InterfaceStatus.last_error st;
  expires_at_iso := ""; created_at_iso := "" |}.

Definition failed (e : string) (s : Status) : Status := {|
  interface := interface s; enabled := enabled s; state := state s; ssid := ssid s;
  created_at := created_at s; expires_at := expires_at s;
  time_remaining := time_remaining s; client_count := client_count s;
  last_rotation_reason := last_rotation_reason s; last_error := Some e;
  expires_at_iso := expires_at_iso s; created_at_iso := created_at_iso s |}.

(** The computed fields, server.py lines 96-111. *)
Definition computed (now : Q) (s : Status) : Status := {|
  interface := interface s; enabled := enabled s; state := state s; ssid := ssid s;
  created_at := created_at s; expires_at := expires_at s;
  time_remaining :=
    if py_gt (expires_at s) 0 then Z.max 0 (py_int (expires_at s - now)) else 0%Z;
  client_count := client_count s;
  last_rotation_reason := last_rotation_reason s; last_error := last_error s;
  expires_at_iso := if py_gt (expires_at s) 0 then strftime (expires_at s) else "";
  created_at_iso := if py_gt (created_at s) 0 then strftime (created_at s) else "" |}.

(** The file that [get_interface_status] reads, server.py lines 80-84. *)
Definition status_file (dir : RunDir) (interface : string)
  : option (File InterfaceStatus.t) :=
  match status dir !! interface with
  | Some file => Some file
  | None => if String.eqb interface "wlan0" then legacy dir else None
  end.

(** [get_interface_status], server.py lines 64-113, at clock reading [now]. *)
Definition get_interface_status (dir : RunDir) (now : Q) (interface : string) : Status :=
  let default_status :=
    match status_file dir interface with
    | Some (Holds st) => updated st
    | Some Truncated => failed str_error (default_status interface)
    | None => default_status interface
    end in
  computed now default_status.

(** [f.stem.replace("status-", "")] for the status file of key [k]. *)
Definition stem_interface (k : string) : string :=
  Qr.replace "status-" "" ("status-" +:+ k).

(** The test of line 124. *)
Definition listed (dir : RunDir) (now : Q) (interface : string) : bool :=
  let status := get_interface_status dir now interface in
  enabled status && negb (String.eqb (state status) "disabled").

(** [get_active_interfaces], server.py lines 116-133: the function returns
    the sorted list of this set. *)
Definition get_active_interfaces (dir : RunDir) (now : Q) : gset string :=
  let interfaces : gset string :=
    list_to_set
      (filter (fun interface => listed dir now interface = true)
         (stem_interface <$>
            filter (fun k => Qr.starts_with "wlan" k = true)
                   (fst <$> map_to_list (status dir)))) in
  if decide (interfaces = ∅) then
    match legacy dir with
    | Some _ => {["wlan0"]}
    | None => ∅
    end
  else interfaces.

End Reader.

End Web.

(** ** The QR script *)

Module MakeQr.

Definition QR_OUTPUT_PATH : string := "/opt/ssb-wifi-kiosk/web/static/qr.png".

(** What [make_qr.py] does to the outside, in the order it does it. *)
Inductive Effect :=
| SaveImage (path payload : string)
| Chmod (path : string) (mode : Z)
| WriteCurrentJson (ssid password : string) (created_at expires_at : Q)
| Stdout (line : string)
| Stderr (line : string).

(** What the script finds outside. *)
Record Env := {
  (** [str(Path(s))]: the path as [pathlib] writes it *)
  path_str : string -> string;
  (** the QR library renders the payload, the directory is there or can be
      made and the image is saved; [str(e)] of the exception otherwise,
      nothing being written then *)
  image_ok : bool;
  image_error : string;
  (** [os.chmod] on the saved image succeeds; [str(e)] of the exception
      otherwise *)
  image_chmod_ok : bool;
  image_chmod_error : string;
  (** [current.json] is there *)
  current_json_exists : bool;
  (** the directory is there or can be made and [current.json] is written;
      [str(e)] of the exception otherwise, nothing being written then *)
  json_ok : bool;
  json_error : string;
  (** [os.chmod] on the written [current.json] succeeds; [str(e)] of the
      exception otherwise *)
  json_chmod_ok : bool;
  json_chmod_error : string;
  (** the readings of [time.time()] *)
  clock : nat -> Q
}.

(** [len(s)] on a text held as UTF-8: the number of its code points, which
    are its bytes apart from the continuation bytes [10xxxxxx]. *)
Definition py_len (s : string) : nat :=
  length (List.filter (fun c => negb (Nat.leb 128 (nat_of_ascii c)
                                      && Nat.ltb (nat_of_ascii c) 192))
            (list_ascii_of_string s)).

(** [generate_qr_code], make_qr.py lines 76-120: the image is saved, then
    its permissions are set, in one [try]. *)
Definition generate_qr_code (env : Env) (ssid password output_path : string)
  : bool * list Effect :=
  let wifi_string := Qr.generate_wifi_qr_string ssid password "WPA" in
  if image_ok env then
    if image_chmod_ok env then
      (true, [SaveImage output_path wifi_string;
              Chmod output_path 420;
              Stdout ("QR code saved to: " +:+ output_path)])
    else
      (false, [SaveImage output_path wifi_string;
               Stderr ("ERROR: Failed to generate QR code: " +:+ image_chmod_error env)])
  else
    (false, [Stderr ("ERROR: Failed to generate QR code: " +:+ image_error env)]).

(** [update_current_json], make_qr.py lines 123-152. *)
Definition update_current_json (env : Env) (ssid password : string) : bool * list Effect :=
  if json_ok env then
    let written :=
      WriteCurrentJson ssid password (clock env 0) (Ap.float_add (clock env 1) 300) in
    if json_chmod_ok env then
      (true, [written; Chmod "/var/run/ssb-ap/current.json" 384])
    else
      (false, [written;
               Stderr ("WARNING: Failed to update current.json: "
                       +:+ json_chmod_error env)])
  else
    (false, [Stderr ("WARNING: Failed to update current.json: " +:+ json_error env)]).

(** [main], make_qr.py lines 155-193, on [sys.argv]: the exit status
    ([None] when the script runs to its end) and the effects. *)
Definition main (argv : list string) (env : Env) : option Z * list Effect :=
  match argv with
  | prog :: ssid :: password :: rest =>
      let output_path :=
        match rest with
        | path :: _ => path_str env path
        | [] => QR_OUTPUT_PATH
        end in
      if String.eqb ssid "" then
        (Some 1%Z, [Stderr "ERROR: SSID cannot be empty"])
      else if String.eqb password "" then
        (Some 1%Z, [Stderr "ERROR: Password cannot be empty"])
      else
        let warning :=
          if Nat.ltb (py_len password) 8
          then [Stderr "WARNING: WPA2 passwords should be at least 8 characters"]
          else [] in
        let generated := generate_qr_code env ssid password output_path in
        if negb (fst generated) then
          (Some 1%Z, (warning ++ snd generated)%list)
        else
          let updated :=
            if negb (current_json_exists env)
            then snd (update_current_json env ssid password)
            else [] in
          (None,
           (warning ++ snd generated ++ updated ++
            [Stdout "WiFi QR code generated successfully!";
             Stdout ("  SSID: " +:+ ssid);
             Stdout ("  Output: " +:+ output_path)])%list)
  | _ =>
      let prog := hd "" argv in
      (Some 1%Z,
       [Stdout ("Usage: " +:+ prog +:+ " <SSID> <PASSWORD>");
        Stdout ("       " +:+ prog +:+ " <SSID> <PASSWORD> <OUTPUT_PATH>")])
  end.

(** The images saved and the credentials files written by a run. *)
Definition images (effects : list Effect) : list (string * string) :=
  flat_map (fun e => match e with SaveImage path payload => [(path, payload)] | _ => [] end)
           effects.

Definition json_writes (effects : list Effect) : list (string * string) :=
  flat_map (fun e => match e with
                     | WriteCurrentJson ssid password _ _ => [(ssid, password)]
                     | _ => []
                     end) effects.

(** The path that the image of a run on [argv] gets. *)
Definition image_path (env : Env) (rest : list string) : string :=
  match rest with
  | path :: _ => path_str env path
  | [] => QR_OUTPUT_PATH
  end.

(** The environment in which everything works and [current.json] is there
    (the paths are given as [pathlib] writes them). *)
Definition working : Env := {|
  path_str := fun s => s;
  image_ok := true; image_error := ""; image_chmod_ok := true; image_chmod_error := "";
  current_json_exists := true;
  json_ok := true; json_error := ""; json_chmod_ok := true; json_chmod_error := "";
  clock := fun _ => 1000%Q |}.

(** The image is saved, but its permissions cannot be set. *)
Definition chmod_refused : Env := {|
  path_str := fun s => s;
  image_ok := true; image_error := "";
  image_chmod_ok := false; image_chmod_error := "[Errno 1] Operation not permitted";
  current_json_exists := true;
  json_ok := true; json_error := ""; json_chmod_ok := true; json_chmod_error := "";
  clock := fun _ => 1000%Q |}.

End MakeQr.

(** ** The LED monitor *)

Module SenseHat.

Import Ap.

(** A colour: (R, G, B). *)
Definition Color : Type := Z * Z * Z.

Definition COLOR_GREEN : Color := (0, 255, 0)%Z.
Definition COLOR_YELLOW : Color := (255, 200, 0)%Z.
Definition COLOR_RED : Color := (255, 0, 0)%Z.
Definition COLOR_WHITE : Color := (255, 255, 255)%Z.
Definition COLOR_OFF : Color := (0, 0, 0)%Z.

(** [DIGIT_PATTERNS], sensehat_monitor.py lines 67-82. *)
Definition DIGIT_PATTERNS (digit : Z) : option (list (list Z)) :=
  match digit with
  | 0%Z => Some [[1; 1; 1]; [1; 0; 1]; [1; 0; 1]; [1; 0; 1]; [1; 1; 1]]%Z
  | 1%Z => Some [[0; 1; 0]; [1; 1; 0]; [0; 1; 0]; [0; 1; 0]; [1; 1; 1]]%Z
  | _ => None
  end.

(** [pixels[idx] = color] on a Python list: a negative index counts from
    the end, and [None] stands for the [IndexError]. *)
Definition setitem (idx : Z) (color : Color) (pixels : list Color) : option (list Color) :=
  let n := Z.of_nat (length pixels) in
  if (0 <=? idx)%Z && (idx <? n)%Z then Some (<[Z.to_nat idx := color]> pixels)
  else if (- n <=? idx)%Z && (idx <? 0)%Z then Some (<[Z.to_nat (n + idx) := color]> pixels)
  else None.

(** [range(a, b)] *)
Definition range (a b : Z) : list Z :=
  map (fun k => (a + Z.of_nat k)%Z) (seq 0 (Z.to_nat (b - a))).

(** [for x in xs: body], stopping at the first exception. *)
Fixpoint for_in {A S} (xs : list A) (body : A -> S -> option S) (s : S) : option S :=
  match xs with
  | [] => Some s
  | x :: rest =>
      match body x s with
      | Some s' => for_in rest body s'
      | None => None
      end
  end.

(** [pattern[row][col]] as a truth value. *)
Definition lit (pattern : list (list Z)) (row col : Z) : bool :=
  negb (Z.eqb (nth (Z.to_nat col) (nth (Z.to_nat row) pattern []) 0%Z) 0).

(** [draw_digit], lines 290-301. *)
Definition draw_digit (digit start_col : Z) (color : Color) (pixels : list Color)
  : option (list Color) :=
  let pattern := default (default [] (DIGIT_PATTERNS 0)) (DIGIT_PATTERNS digit) in
  for_in (range 0 5) (fun row =>
    for_in (range 0 3) (fun col pixels =>
      if lit pattern row col then
        let x := (start_col + col)%Z in
        let y := row in
        if (0 <=? x)%Z && (x <? 8)%Z && (0 <=? y)%Z && (y <? 8)%Z then
          let idx := (y * 8 + x)%Z in
          setitem idx color pixels
        else Some pixels
      else Some pixels)) pixels.

(** [draw_half], lines 303-316. *)
Definition draw_half (start_col digit : Z) (color : Color) (show : bool)
    (pixels : list Color) : option (list Color) :=
  if negb show then Some pixels
  else
    match draw_digit digit start_col COLOR_WHITE pixels with
    | None => None
    | Some pixels =>
        for_in (range 5 8) (fun row =>
          for_in (range start_col (start_col + 4)) (fun col pixels =>
            let idx := (row * 8 + col)%Z in
            setitem idx color pixels)) pixels
    end.

(** [draw_full_display], lines 318-324. *)
Definition draw_full_display (color : Color) (show : bool) (pixels : list Color)
  : option (list Color) :=
  if negb show then Some pixels
  else for_in (range 0 64) (fun i pixels => setitem i color pixels) pixels.

(** [should_blink], lines 269-273, on a status as [ap_rotate.py] writes
    it (every key is there); [threshold] is [led_blink_threshold_sec]. *)
Definition should_blink (threshold : Z) (status : InterfaceStatus.t) : bool :=
  let time_remaining := InterfaceStatus.time_remaining status in
  (time_remaining <=? threshold)%Z && (time_remaining >? 0)%Z.

(** [get_status_color], lines 275-288. *)
Definition get_status_color (status : InterfaceStatus.t) (has_internet : bool) : Color :=
  let state := InterfaceStatus.state status in
  if String.eqb state "rotating" then COLOR_YELLOW
  else if String.eqb state "error" then COLOR_RED
  else if String.eqb state "disabled" then COLOR_OFF
  else if negb has_internet then COLOR_RED
  else COLOR_GREEN.

(** What [update_display] reads: the result of [is_dual_mode], of
    [check_internet] and of [get_interface_status] for both interfaces
    ([None] when the file is missing or unreadable), the blink toggle and
    the blink threshold. *)
Record Inputs := {
  dual_mode : bool;
  has_internet : bool;
  status0 : option InterfaceStatus.t;
  status1 : option InterfaceStatus.t;
  blink_state : bool;
  threshold : Z
}.

(** [update_display], lines 333-376: the pixels handed to [set_pixels],
    or [None] for an exception. *)
Definition update_display (i : Inputs) : option (list Color) :=
  let pixels := replicate 64 COLOR_OFF in
  if dual_mode i then
    let left :=
      match status0 i with
      | Some status0 =>
          if negb (String.eqb (InterfaceStatus.state status0) "disabled") then
            let color0 := get_status_color status0 (has_internet i) in
            let should_blink0 := should_blink (threshold i) status0 in
            let show0 := negb should_blink0 || blink_state i in
            draw_half 0 0 color0 show0 pixels
          else Some pixels
      | None => Some pixels
      end in
    match left with
    | None => None
    | Some pixels =>
        match status1 i with
        | Some status1 =>
            if negb (String.eqb (InterfaceStatus.state status1) "disabled") then
              let color1 := get_status_color status1 (has_internet i) in
              let should_blink1 := should_blink (threshold i) status1 in
              let show1 := negb should_blink1 || blink_state i in
              draw_half 4 1 color1 show1 pixels
            else Some pixels
        | None => Some pixels
        end
    end
  else
    match status0 i with
    | Some status =>
        let color := get_status_color status (has_internet i) in
        let should_blink := should_blink (threshold i) status in
        let show := negb should_blink || blink_state i in
        draw_full_display color show pixels
    | None =>
        if has_internet i then draw_full_display COLOR_GREEN true pixels
        else draw_full_display COLOR_RED true pixels
    end.

(** The columns 0-3 and 4-7 of an 8x8 matrix stored row by row. *)
Definition left_half (pixels : list Color) : list Color :=
  flat_map (fun row => take 4 (drop (row * 8) pixels)) (seq 0 8).

Definition right_half (pixels : list Color) : list Color :=
  flat_map (fun row => take 4 (drop (row * 8 + 4) pixels)) (seq 0 8).

(** The monitor's own record of manual requests. *)
Record Monitor := {
  cooldown : Q;
  last_rotation_trigger : gmap string Q
}.

(** [trigger_rotation], lines 378-411, at clock reading [now]: the result,
    the monitor, the markers in the run directory and the colour flashed
    ([_blink_confirm] is yellow, [_blink_error] red). [touch_ok] tells
    whether the marker can be created. *)
Definition trigger_rotation (touch_ok : bool) (now : Q) (interface : string)
    (m : Monitor) (markers : gset string) : bool * Monitor * gset string * Color :=
  let last_trigger := default 0%Q (last_rotation_trigger m !! interface) in
  if py_lt (now - last_trigger) (cooldown m) then
    (false, m, markers, COLOR_RED)
  else if touch_ok then
    (true,
     {| cooldown := cooldown m;
        last_rotation_trigger := <[interface := now]> (last_rotation_trigger m) |},
     {[interface]} ∪ markers,
     COLOR_YELLOW)
  else (false, m, markers, COLOR_RED).

(** The monitor last created a marker at 970 s. *)
Definition pressed_before : Monitor :=
  {| cooldown := 30; last_rotation_trigger := {["wlan0" := 970%Q]} |}.

End SenseHat.

(** * Properties *)

(** ** The join-string escaping *)

Module QrFacts.

Import Qr.

Lemma append_cons (x : ascii) (a b : string) : String x a +:+ b = String x (a +:+ b).
Proof. reflexivity. Qed.

Lemma append_nil (b : string) : "" +:+ b = b.
Proof. reflexivity. Qed.

Lemma append_assoc (a b c : string) : (a +:+ b) +:+ c = a +:+ (b +:+ c).
Proof.
  induction a as [|x a IH]; [reflexivity|].
  rewrite !append_cons, IH. reflexivity.
Qed.

(** Replacing a one-character pattern works character by character. *)
Lemma replace_char_cons (a : ascii) (new : string) (c : ascii) (s : string) :
  replace (String a "") new (String c s)
  = (if Ascii.eqb a c then new else String c "") +:+ replace (String a "") new s.
Proof.
  unfold replace. simpl. destruct (Ascii.eqb a c); reflexivity.
Qed.

Lemma replace_char_app (a : ascii) (new s t : string) :
  replace (String a "") new (s +:+ t)
  = replace (String a "") new s +:+ replace (String a "") new t.
Proof.
  induction s as [|c s IH].
  - reflexivity.
  - change (String c s +:+ t) with (String c (s +:+ t)).
    rewrite !replace_char_cons, IH, append_assoc. reflexivity.
Qed.

Lemma escape_app (s t : string) :
  escape_wifi_string (s +:+ t) = escape_wifi_string s +:+ escape_wifi_string t.
Proof.
  unfold escape_wifi_string. now rewrite !replace_char_app.
Qed.

Lemma escape_one (c : ascii) : escape_wifi_string (String c "") = escape_char c.
Proof.
  destruct c as [b0 b1 b2 b3 b4 b5 b6 b7].
  destruct b0, b1, b2, b3, b4, b5, b6, b7; reflexivity.
Qed.

Lemma escape_is_spec (s : string) : escape_wifi_string s = escape_spec s.
Proof.
  induction s as [|c s IH].
  - reflexivity.
  - change (String c s) with (String c "" +:+ s).
    rewrite escape_app, escape_one, IH. reflexivity.
Qed.

Lemma special_backslash (c : ascii) :
  is_special c = false -> Ascii.eqb c backslash = false.
Proof.
  unfold is_special. destruct (Ascii.eqb c backslash); [discriminate | reflexivity].
Qed.

Lemma unescape_escape_char (c : ascii) (t : string) :
  unescape_wifi_string (escape_char c +:+ t) = String c (unescape_wifi_string t).
Proof.
  unfold escape_char. destruct (is_special c) eqn:E.
  - reflexivity.
  - rewrite append_cons, append_nil. simpl. now rewrite (special_backslash c E).
Qed.

Lemma unescape_escape_spec (s : string) : unescape_wifi_string (escape_spec s) = s.
Proof.
  induction s as [|c s IH]; [reflexivity|].
  simpl. now rewrite unescape_escape_char, IH.
Qed.

(** C4. [escape_wifi_string] puts one backslash before each occurrence of
    the five characters backslash, semicolon, comma, double quote and colon
    and copies every other character ([escape_spec]; the backslashes it adds
    are not escaped again); removing one level of backslash escaping gives
    the input back, so the escaping is injective; this holds in particular
    for the passphrase of the specification's example, [sample_passphrase]. *)
Theorem escape_wifi_string_round_trip :
  (forall s, escape_wifi_string s = escape_spec s) /\
  (forall s, unescape_wifi_string (escape_wifi_string s) = s) /\
  (forall s t, escape_wifi_string s = escape_wifi_string t -> s = t) /\
  escape_wifi_string sample_passphrase
  = "a\\b\;c\,d\" +:+ String dquote "e\:f" /\
  unescape_wifi_string (escape_wifi_string sample_passphrase) = sample_passphrase.
Proof.
  assert (R : forall s, unescape_wifi_string (escape_wifi_string s) = s).
  { intros s. rewrite escape_is_spec. apply unescape_escape_spec. }
  split; [exact escape_is_spec|].
  split; [exact R|].
  split; [|split; reflexivity].
  intros s t H. rewrite <- (R s), <- (R t), H. reflexivity.
Qed.

(** The escaping tells apart two names that differ only in a backslash. *)
Lemma escape_wifi_string_round_trip_witness :
  escape_wifi_string "a;b" = escape_wifi_string "a;b" /\ "a;b" = "a;b".
Proof.
  split; [reflexivity|].
  apply (proj1 (proj2 (proj2 escape_wifi_string_round_trip)) "a;b" "a;b").
  reflexivity.
Defined.


(** ** The payload *)

Lemma escape_char_length c :
  String.length (escape_char c) = (if is_special c then 2 else 1).
Proof. unfold escape_char. now destruct (is_special c). Qed.

Lemma append_length (s1 s2 : string) :
  String.length (s1 +:+ s2) = String.length s1 + String.length s2.
Proof.
  induction s1 as [|c s1 IH]; [now rewrite append_nil|].
  rewrite append_cons. cbn [String.length]. now rewrite IH.
Qed.

(** Escaping adds one character per special character and nothing else, so
    that a string comes out unchanged exactly when it has no backslash,
    semicolon, comma, double quote or colon. *)
Theorem escape_wifi_string_length (s : string) :
  String.length (escape_wifi_string s)
  = String.length s + length (filter (fun c => is_special c = true) (list_ascii_of_string s)) /\
  (escape_wifi_string s = s <->
   Forall (fun c => is_special c = false) (list_ascii_of_string s)).
Proof.
  rewrite escape_is_spec.
  assert (Hlen : String.length (escape_spec s)
                 = String.length s
                   + length (filter (fun c => is_special c = true) (list_ascii_of_string s))).
  { induction s as [|c s IH]; [reflexivity|].
    cbn [escape_spec list_ascii_of_string String.length].
    rewrite append_length, escape_char_length, IH, filter_cons.
    destruct (is_special c) eqn:E.
    - rewrite decide_True by reflexivity. cbn [length]. lia.
    - rewrite decide_False by discriminate. lia. }
  split; [exact Hlen|]. split.
  - intros Heq. rewrite Heq in Hlen.
    assert (Hnone : filter (fun c => is_special c = true) (list_ascii_of_string s) = []).
    { apply length_zero_iff_nil. lia. }
    clear Hlen Heq. induction (list_ascii_of_string s) as [|c l IH]; [constructor|].
    rewrite filter_cons in Hnone. destruct (is_special c) eqn:E.
    + rewrite decide_True in Hnone by reflexivity. discriminate.
    + rewrite decide_False in Hnone by discriminate. constructor; [exact E | now apply IH].
  - clear Hlen. induction s as [|c s IH]; intros Hall; [reflexivity|].
    cbn [list_ascii_of_string] in Hall. apply Forall_cons in Hall as [Hc Hall].
    cbn [escape_spec]. unfold escape_char. rewrite Hc, append_cons, append_nil.
    now rewrite (IH Hall).
Qed.

Lemma read_field_escape (s rest : string) :
  read_field (escape_spec s +:+ String ";" rest) = (s, rest).
Proof.
  induction s as [|c s IH].
  - rewrite append_nil. reflexivity.
  - cbn [escape_spec]. unfold escape_char. destruct (is_special c) eqn:E.
    + rewrite !append_cons, append_nil. cbn [read_field].
      rewrite Ascii.eqb_refl, IH. reflexivity.
    + rewrite !append_cons, append_nil. cbn [read_field].
      unfold is_special in E. apply orb_false_elim in E as [E _].
      apply orb_false_elim in E as [E _]. apply orb_false_elim in E as [E _].
      apply orb_false_elim in E as [Eb Es]. rewrite Eb, Es, IH. reflexivity.
Qed.

Lemma append_inv_head (p s1 s2 : string) : p +:+ s1 = p +:+ s2 -> s1 = s2.
Proof.
  induction p as [|c p IH]; [now rewrite !append_nil|].
  rewrite !append_cons. intros H. injection H as H. now apply IH.
Qed.

(** The payload can be read back: after the security type, a scanner that
    reads a field up to the first unprotected semicolon finds the SSID and
    then the password, each as it was given, whatever characters they hold;
    for one security type, two payloads are therefore equal only for the
    same SSID and the same password. *)
Theorem generate_wifi_qr_string_fields (ssid password security : string) :
  (exists body rest,
     generate_wifi_qr_string ssid password security
     = "WIFI:T:" +:+ security +:+ ";S:" +:+ body /\
     read_field body = (ssid, "P:" +:+ rest) /\
     read_field rest = (password, ";")) /\
  (forall ssid' password',
     generate_wifi_qr_string ssid password security
     = generate_wifi_qr_string ssid' password' security ->
     ssid = ssid' /\ password = password').
Proof.
  assert (Hshape : forall s p,
            generate_wifi_qr_string s p security
            = "WIFI:T:" +:+ security +:+ ";S:" +:+
              (escape_spec s +:+ String ";" ("P:" +:+ (escape_spec p +:+ String ";" ";")))).
  { intros s p. unfold generate_wifi_qr_string. cbv zeta. rewrite !escape_is_spec.
    reflexivity. }
  split.
  - eexists _, _. split; [apply Hshape|].
    split; apply read_field_escape.
  - intros ssid' password' Heq. rewrite !Hshape in Heq.
    do 3 apply append_inv_head in Heq.
    apply (f_equal read_field) in Heq. rewrite !read_field_escape in Heq.
    injection Heq as Hs Hp. split; [exact Hs|].
    apply append_inv_head in Hp.
    apply (f_equal read_field) in Hp. rewrite !read_field_escape in Hp.
    now injection Hp.
Qed.

End QrFacts.

(** ** The rotation daemon *)

Module ApFacts.

Import Ap ApSpec.

(** *** The laws of the monad and of its operations *)

Section Laws.

Context {A B : Type}.

Lemma bind_ret (a : A) (k : A -> M B) w : bind (ret a) k w = k a w.
Proof. reflexivity. Qed.

Lemma bind_get (f : World -> A) (k : A -> M B) w : bind (get f) k w = k (f w) w.
Proof. reflexivity. Qed.

Lemma bind_modify (f : World -> World) (k : unit -> M B) w :
  bind (modify f) k w = k tt (f w).
Proof. reflexivity. Qed.

Lemma bind_ask (f : Oracle -> nat -> A) (k : A -> M B) w :
  bind (ask f) k w = k (reading f w) (asked 1 w).
Proof. reflexivity. Qed.

Lemma bind_emit (e : Event) (k : unit -> M B) w :
  bind (emit e) k w = k tt (emitted [e] w).
Proof. reflexivity. Qed.

Lemma bind_bind {C} (m : M A) (f : A -> M B) (g : B -> M C) w :
  bind (bind m f) g w = bind m (fun a => bind (f a) g) w.
Proof. unfold bind. destruct (m w). reflexivity. Qed.

End Laws.

Lemma update_status_run state error ap w :
  update_status state error ap w = (tt, published state error ap w).
Proof.
  unfold update_status, published, snapshot, creds_of, now_at, clients_at,
    get_client_count, time_time, current_credentials, the_config, bind, ask, get,
    modify, emit, ret.
  cbn [step oracle set_step status_files interfaces creds_heap trace set_status_files].
  destruct (o_station_dump (oracle w) (S (step w))); reflexivity.
Qed.

Lemma bind_update_status {B} state error ap (k : unit -> M B) w :
  bind (update_status state error ap) k w = k tt (published state error ap w).
Proof. unfold bind at 1. now rewrite update_status_run. Qed.

Lemma random_string_run chars n w :
  random_string chars n w = (random_text chars n (oracle w) (step w), asked n w).
Proof.
  unfold asked. revert w. induction n as [|n IH]; intros w.
  - destruct w; reflexivity.
  - cbn [random_string random_text]. unfold bind at 1. unfold secrets_choice, ask, bind, ret.
    rewrite IH. cbn [oracle step set_step]. rewrite Nat.add_succ_r. reflexivity.
Qed.

Lemma bind_generate_ssid ap w :
  exists s n, forall B (k : string -> M B), bind (generate_ssid ap) k w = k s (asked n w).
Proof.
  eexists _, _. intros B k.
  unfold generate_ssid, the_global_config. rewrite bind_bind, bind_get.
  rewrite bind_bind. unfold bind at 1. rewrite random_string_run.
  rewrite bind_ret. reflexivity.
Qed.

Lemma bind_generate_password ap w :
  exists s n, forall B (k : string -> M B),
    bind (generate_password ap) k w = k s (asked n w).
Proof.
  eexists _, _. intros B k.
  unfold generate_password, the_global_config. rewrite bind_bind, bind_get.
  unfold bind at 1. rewrite random_string_run. reflexivity.
Qed.

Lemma bind_write_hostapd_config {B} ap ssid pw (k : bool -> M B) w :
  bind (write_hostapd_config ap ssid pw) k w =
  match reading o_template w with
  | Some template =>
      k true (emitted [EvWriteHostapd (APInstance.interface ap) ssid pw true]
                (configured (APInstance.interface ap)
                   (hostapd_content ap ssid pw template (asked 1 w)) (asked 1 w)))
  | None =>
      k false (emitted [EvWriteHostapd (APInstance.interface ap) ssid pw false] (asked 1 w))
  end.
Proof.
  unfold write_hostapd_config. rewrite bind_bind, bind_ask. cbv beta.
  destruct (reading o_template w); reflexivity.
Qed.

Lemma bind_generate_qr {B} ap ssid pw (k : bool -> M B) w :
  bind (generate_qr ap ssid pw) k w =
  k (reading o_qr_ok w) (emitted (qr_events ap ssid pw (reading o_qr_ok w)) (asked 1 w)).
Proof.
  unfold generate_qr. rewrite bind_bind, bind_ask. cbv beta.
  unfold qr_events, emitted.
  destruct (reading o_qr_ok w); [|reflexivity].
  destruct (String.eqb (APInstance.interface ap) "wlan0"); cbn [andb].
  - unfold bind, emit, modify, ret. cbn [trace set_trace].
    rewrite <- app_assoc. reflexivity.
  - reflexivity.
Qed.

Lemma bind_restart_hostapd {B} ap (k : bool -> M B) w :
  bind (restart_hostapd ap) k w =
  k (reading o_restart_ok w)
    (emitted [EvRestart (service_name ap w) (reading o_restart_ok w)] (asked 1 w)).
Proof. reflexivity. Qed.

Lemma bind_save_credentials {B} ap (k : unit -> M B) w :
  bind (save_credentials ap) k w =
  match creds_of ap w with
  | Some c =>
      k tt (emitted [EvSaveCredentials (APInstance.interface ap)]
              (saved (APInstance.interface ap) c w))
  | None => k tt w
  end.
Proof.
  unfold save_credentials, current_credentials. rewrite bind_bind, bind_get. cbv beta.
  fold (creds_of ap w). destruct (creds_of ap w); reflexivity.
Qed.

(** [if not b: x else: y], with the test turned around by rewriting. *)
Lemma if_negb {A} (b : bool) (x y : A) :
  (if negb b then x else y) = (if b then y else x).
Proof. now destruct b. Qed.

(** One step of the run recorded in hypothesis [E]. *)
Ltac mstep E :=
  first [ rewrite bind_emit in E | rewrite bind_update_status in E | rewrite bind_get in E
        | rewrite bind_ask in E | rewrite bind_modify in E | rewrite bind_ret in E
        | rewrite bind_write_hostapd_config in E | rewrite bind_generate_qr in E
        | rewrite bind_restart_hostapd in E | rewrite bind_save_credentials in E ];
  cbv beta in E.

(** *** Frames *)

Ltac wsimp :=
  cbn [creds_heap creds_next cfg_heap cfg_next interfaces status_files creds_files
       trigger_files hostapd_confs rotations_log oracle step trace
       alloc_creds alloc_cfg set_interfaces set_status_files set_creds_files
       set_trigger_files set_hostapd_confs set_rotations_log set_step set_trace
       published emitted asked configured saved].

Lemma engine_frame_refl iface w : engine_frame iface w w.
Proof. now split. Qed.

Lemma engine_frame_trans iface w1 w2 w3 :
  engine_frame iface w1 w2 -> engine_frame iface w2 w3 -> engine_frame iface w1 w3.
Proof.
  intros [] []. split; try congruence.
  intros j Hj. rewrite same_other_status1, same_other_status0; auto.
Qed.

Lemma frame_emitted iface evs w : engine_frame iface w (emitted evs w).
Proof. now split. Qed.

Lemma frame_asked iface n w : engine_frame iface w (asked n w).
Proof. now split. Qed.

Lemma frame_configured iface i content w : engine_frame iface w (configured i content w).
Proof. now split. Qed.

Lemma frame_published state error ap w :
  engine_frame (APInstance.interface ap) w (published state error ap w).
Proof.
  split; try reflexivity.
  intros j Hj. wsimp. rewrite !lookup_insert_ne by (intros Heq; apply Hj; now symmetry).
  reflexivity.
Qed.

Lemma frame_published_set state error r ap w :
  engine_frame (APInstance.interface ap) w
    (published state error (APInstance.set_current_creds r ap) w).
Proof. exact (frame_published state error (APInstance.set_current_creds r ap) w). Qed.

Ltac frame_solver :=
  repeat (eapply engine_frame_trans;
          [| first [ apply frame_emitted | apply frame_asked | apply frame_configured
                   | apply frame_published | apply frame_published_set ] ]);
  apply engine_frame_refl.

Lemma trace_emitted evs w : trace (emitted evs w) = (trace w ++ evs)%list.
Proof. reflexivity. Qed.

Lemma trace_asked n w : trace (asked n w) = trace w.
Proof. reflexivity. Qed.

Lemma trace_configured i c w : trace (configured i c w) = trace w.
Proof. reflexivity. Qed.

Lemma trace_saved i c w : trace (saved i c w) = trace w.
Proof. reflexivity. Qed.

Lemma trace_alloc_creds c w : trace (alloc_creds c w) = trace w.
Proof. reflexivity. Qed.

Lemma trace_published state error ap w :
  trace (published state error ap w)
  = (trace w ++ [EvPublish (APInstance.interface ap) state error])%list.
Proof. reflexivity. Qed.

Lemma confs_emitted evs w : hostapd_confs (emitted evs w) = hostapd_confs w.
Proof. reflexivity. Qed.

Lemma confs_asked n w : hostapd_confs (asked n w) = hostapd_confs w.
Proof. reflexivity. Qed.

Lemma confs_configured i c w :
  hostapd_confs (configured i c w) = <[i := c]> (hostapd_confs w).
Proof. reflexivity. Qed.

Lemma confs_saved i c w : hostapd_confs (saved i c w) = hostapd_confs w.
Proof. reflexivity. Qed.

Lemma confs_alloc_creds c w : hostapd_confs (alloc_creds c w) = hostapd_confs w.
Proof. reflexivity. Qed.

Lemma confs_published state error ap w :
  hostapd_confs (published state error ap w) = hostapd_confs w.
Proof. reflexivity. Qed.

Ltac confs_simp :=
  repeat first [ rewrite confs_emitted | rewrite confs_asked | rewrite confs_configured
               | rewrite confs_saved | rewrite confs_alloc_creds
               | rewrite confs_published ].

Ltac app_norm := repeat first [ rewrite <- app_assoc | progress cbn [app] ].

Ltac trace_simp :=
  repeat first [ rewrite trace_emitted | rewrite trace_asked | rewrite trace_configured
               | rewrite trace_saved | rewrite trace_alloc_creds
               | rewrite trace_published ];
  rewrite <- ?app_assoc; cbn [app].

Lemma status_published state error ap w :
  status_files (published state error ap w) !! APInstance.interface ap
  = Some (Holds (snapshot state error ap w)).
Proof. wsimp. apply lookup_insert_eq. Qed.

Lemma status_emitted evs w : status_files (emitted evs w) = status_files w.
Proof. reflexivity. Qed.

Lemma snapshot_reports state error ap w w0 :
  creds_heap w = creds_heap w0 ->
  reports (snapshot state error ap w) (creds_of ap w0).
Proof.
  intros H. unfold reports, snapshot, creds_of. rewrite H.
  cbn. destruct (APInstance.current_creds ap); cbn; auto.
Qed.

Tactic Notation "trace_simp" "in" hyp(H) :=
  repeat first [ rewrite trace_emitted in H | rewrite trace_asked in H
               | rewrite trace_configured in H | rewrite trace_saved in H
               | rewrite trace_alloc_creds in H | rewrite trace_published in H ];
  rewrite <- ?app_assoc in H; cbn [app] in H.

Lemma creds_of_alloc c ap w :
  creds_of (APInstance.set_current_creds (Some (creds_next w)) ap) (alloc_creds c w)
  = Some c.
Proof.
  unfold creds_of.
  cbn [APInstance.current_creds APInstance.set_current_creds option_map creds_heap
       alloc_creds].
  now rewrite Nat.eqb_refl.
Qed.

(** *** One rotation attempt, phase by phase *)

(** Up to the gates: [w1] is the world after the status "rotating", the
    random draws and the reading of the clock. *)
Ltac rotate_prefix E reason ap w w1 F1 T1 :=
  unfold rotate_credentials, time_time, the_global_config in E;
  do 3 mstep E;
  match type of E with context [bind (generate_ssid ?a) _ ?w0] =>
    let ssid := fresh "ssid" in let n := fresh "n" in let Es := fresh in
    destruct (bind_generate_ssid a w0) as (ssid & n & Es); rewrite Es in E; clear Es;
    cbv beta in E end;
  match type of E with context [bind (generate_password ?a) _ ?w0] =>
    let pw := fresh "pw" in let n := fresh "n" in let Es := fresh in
    destruct (bind_generate_password a w0) as (pw & n & Es); rewrite Es in E; clear Es;
    cbv beta in E end;
  mstep E;
  match type of E with context [reading o_time ?w0] =>
    let now := fresh "now" in set (now := reading o_time w0) in E; clearbody now end;
  mstep E;
  match type of E with context [bind (write_hostapd_config _ _ _) _ ?W] =>
    assert (F1 : engine_frame (APInstance.interface ap) w W) by frame_solver;
    assert (T1 : trace W = (trace w ++ [EvAcquire (APInstance.rotation_lock ap);
               EvStartRotation (APInstance.interface ap) reason;
               EvPublish (APInstance.interface ap) "rotating" None])%list)
      by (trace_simp; reflexivity);
    set (w1 := W) in *; clearbody w1
  end;
  rewrite (same_cfg_heap _ _ _ F1) in E.

Ltac name_world E ap w1 w2 F2 T2 :=
  match type of E with context [bind _ _ ?W] =>
    assert (F2 : engine_frame (APInstance.interface ap) w1 W) by frame_solver;
    eassert (T2 : trace W = _) by (trace_simp; reflexivity);
    let C := fresh "Hconfs" in
    eassert (C : hostapd_confs W = _) by (confs_simp; reflexivity);
    set (w2 := W) in *; clearbody w2
  end.

(** The gates: three cases, in this order: both gates pass, the restart
    fails, the configuration cannot be written. *)
Ltac rotate_gates E ap w1 w2 F2 T2 :=
  mstep E; rewrite !if_negb in E;
  match type of E with context [reading o_template ?w0] =>
    let template := fresh "template" in
    destruct (reading o_template w0) as [template|] end;
  cbv beta iota in E;
  [ match type of E with context [hostapd_content ?a ?s ?p ?t ?w0] =>
      let content := fresh "content" in
      let Hc := fresh "Hcontent" in
      set (content := hostapd_content a s p t w0) in E;
      assert (Hc : content = hostapd_content a s p t w0) by reflexivity;
      clearbody content end;
    mstep E;
    match type of E with context [reading o_qr_ok ?w0] =>
      let qr := fresh "qr" in set (qr := reading o_qr_ok w0) in E; clearbody qr end;
    mstep E; rewrite if_negb in E;
    match type of E with context [service_name ?a ?w0] =>
      let service := fresh "service" in set (service := service_name a w0) in E;
      clearbody service end;
    match type of E with context [reading o_restart_ok ?w0] =>
      let restarted := fresh "restarted" in
      set (restarted := reading o_restart_ok w0) in E; clearbody restarted;
      destruct restarted end;
    cbv beta iota in E;
    name_world E ap w1 w2 F2 T2
  | name_world E ap w1 w2 F2 T2 ].

(** After the gates, to the result. *)
Ltac rotate_finish E :=
  first [ do 2 mstep E; rewrite bind_save_credentials, creds_of_alloc in E;
          cbv beta iota in E; do 2 mstep E
        | do 2 mstep E ];
  unfold ret in E.

Ltac rotate_exec E reason ap w w1 w2 F1 T1 F2 T2 :=
  rotate_prefix E reason ap w w1 F1 T1;
  rotate_gates E ap w1 w2 F2 T2;
  rotate_finish E.

(** A failed attempt: which gate failed, what was published, what stayed. *)
Lemma rotate_credentials_false reason ap w ap' w' :
  rotate_credentials reason ap w = (false, ap', w') ->
  ap' = ap /\
  engine_frame (APInstance.interface ap) w w' /\
  exists gate msg st,
    gate_failure ap gate msg /\
    trace w' = (trace w ++ [EvAcquire (APInstance.rotation_lock ap);
                 EvStartRotation (APInstance.interface ap) reason;
                 EvPublish (APInstance.interface ap) "rotating" None] ++ gate ++
               [EvPublish (APInstance.interface ap) "error" (Some msg);
                EvRelease (APInstance.rotation_lock ap)])%list /\
    status_files w' !! APInstance.interface ap = Some (Holds st) /\
    InterfaceStatus.state st = "error" /\
    InterfaceStatus.last_error st = Some msg /\
    reports st (creds_of ap w).
Proof.
  intros E. rotate_exec E reason ap w w1 w2 F1 T1 F2 T2; try discriminate E.
  all: injection E as <- <-.
  all: split; [reflexivity|].
  all: split; [eapply engine_frame_trans; [exact F1|];
               eapply engine_frame_trans; [exact F2|]; frame_solver|].
  - eexists _, _, _. split; [apply apply_gate_failed|].
    split; [trace_simp; rewrite T2, T1; app_norm; reflexivity|].
    rewrite status_emitted, status_published.
    split; [reflexivity|]. split; [reflexivity|]. split; [reflexivity|].
    apply snapshot_reports.
    rewrite (same_creds_heap _ _ _ F2). apply (same_creds_heap _ _ _ F1).
  - eexists _, _, _. split; [apply write_gate_failed|].
    split; [trace_simp; rewrite T2, T1; app_norm; reflexivity|].
    rewrite status_emitted, status_published.
    split; [reflexivity|]. split; [reflexivity|]. split; [reflexivity|].
    apply snapshot_reports.
    rewrite (same_creds_heap _ _ _ F2). apply (same_creds_heap _ _ _ F1).
Qed.

(** The world in which the new credentials are installed. *)
Lemma installed_world i c w :
  (forall r, creds_heap (saved i c (alloc_creds c w)) r
             = if Nat.eqb r (creds_next w) then c else creds_heap w r) /\
  creds_next (saved i c (alloc_creds c w)) = S (creds_next w) /\
  creds_files (saved i c (alloc_creds c w)) = <[i := c]> (creds_files w) /\
  cfg_heap (saved i c (alloc_creds c w)) = cfg_heap w /\
  cfg_next (saved i c (alloc_creds c w)) = cfg_next w /\
  interfaces (saved i c (alloc_creds c w)) = interfaces w /\
  rotations_log (saved i c (alloc_creds c w)) = rotations_log w /\
  trigger_files (saved i c (alloc_creds c w)) = trigger_files w /\
  oracle (saved i c (alloc_creds c w)) = oracle w /\
  status_files (saved i c (alloc_creds c w)) = status_files w.
Proof. repeat split. Qed.

Lemma creds_of_emitted ap evs w : creds_of ap (emitted evs w) = creds_of ap w.
Proof. reflexivity. Qed.

Lemma creds_of_saved ap i c w : creds_of ap (saved i c w) = creds_of ap w.
Proof. reflexivity. Qed.

(** The frame of a successful attempt: beside what [engine_frame] allows,
    one credentials object is allocated and the credentials file written. *)
Lemma rotate_credentials_true reason ap w ap' w' :
  rotate_credentials reason ap w = (true, ap', w') ->
  exists ssid pw now qr service,
    let c := {|
      Credentials.interface := APInstance.interface ap;
      Credentials.ssid := ssid;
      Credentials.password := pw;
      Credentials.created_at := now;
      Credentials.expires_at :=
        float_add now (rotation_interval_sec (cfg_heap w (APInstance.global_config ap)));
      Credentials.rotation_reason := reason |} in
    ap' = APInstance.set_current_creds (Some (creds_next w)) ap /\
    (forall r, creds_heap w' r = if Nat.eqb r (creds_next w) then c else creds_heap w r) /\
    creds_next w' = S (creds_next w) /\
    creds_files w' = <[APInstance.interface ap := c]> (creds_files w) /\
    cfg_heap w' = cfg_heap w /\ cfg_next w' = cfg_next w /\
    interfaces w' = interfaces w /\ rotations_log w' = rotations_log w /\
    trigger_files w' = trigger_files w /\ oracle w' = oracle w /\
    (forall j, j <> APInstance.interface ap ->
               status_files w' !! j = status_files w !! j) /\
    trace w' = (trace w ++ [EvAcquire (APInstance.rotation_lock ap);
                 EvStartRotation (APInstance.interface ap) reason;
                 EvPublish (APInstance.interface ap) "rotating" None;
                 EvWriteHostapd (APInstance.interface ap) ssid pw true] ++
               qr_events ap ssid pw qr ++
               [EvRestart service true;
                EvSaveCredentials (APInstance.interface ap);
                EvPublish (APInstance.interface ap) "ready" None;
                EvRelease (APInstance.rotation_lock ap)])%list /\
    exists st,
      status_files w' !! APInstance.interface ap = Some (Holds st) /\
      InterfaceStatus.state st = "ready" /\
      InterfaceStatus.last_error st = None /\
      reports st (Some c).
Proof.
  intros E. rotate_exec E reason ap w w1 w2 F1 T1 F2 T2; try discriminate E.
  pose proof (engine_frame_trans _ _ _ _ F1 F2) as F.
  destruct F as [Fh Fn Fc Fcn Fi Ff Ft Fr Fo Fs].
  match type of E with
    (_, _, emitted ?e1 (published ?s ?er ?a (emitted ?e2 (saved ?i ?c0 (alloc_creds _ _))))) = _ =>
    destruct (installed_world i c0 w2)
      as (Ih & In & If & Ic & Icn & Ii & Ir & It & Io & Is);
    assert (F3 : engine_frame (APInstance.interface ap) (saved i c0 (alloc_creds c0 w2))
                   (emitted e1 (published s er a (emitted e2 (saved i c0 (alloc_creds c0 w2))))))
      by frame_solver;
    eassert (T3 : trace (emitted e1 (published s er a
                           (emitted e2 (saved i c0 (alloc_creds c0 w2))))) = _)
      by (trace_simp; rewrite T2, T1; app_norm; reflexivity);
    assert (S3 : status_files (emitted e1 (published s er a
                           (emitted e2 (saved i c0 (alloc_creds c0 w2)))))
                 !! APInstance.interface ap
                 = Some (Holds (snapshot s er a (emitted e2 (saved i c0 (alloc_creds c0 w2))))))
      by (rewrite status_emitted; exact (status_published s er a _));
    assert (C3 : creds_of a (emitted e2 (saved i c0 (alloc_creds c0 w2))) = Some c0)
      by (rewrite creds_of_emitted, creds_of_saved; apply creds_of_alloc);
    set (w3 := emitted e1 (published s er a (emitted e2 (saved i c0 (alloc_creds c0 w2))))) in *;
    set (w0 := saved i c0 (alloc_creds c0 w2)) in *;
    clearbody w3 w0
  end.
  destruct F3 as [Gh Gn Gc Gcn Gi Gf Gt Gr Go Gs].
  injection E as <- <-.
  exists ssid, pw, now, qr, service. cbv zeta.
  split; [now rewrite Fn|].
  split; [intros r; now rewrite Gh, Ih, Fn, Fh|].
  split; [now rewrite Gn, In, Fn|].
  split; [now rewrite Gf, If, Ff|].
  split; [now rewrite Gc, Ic|]. split; [now rewrite Gcn, Icn|].
  split; [now rewrite Gi, Ii|]. split; [now rewrite Gr, Ir|].
  split; [now rewrite Gt, It|]. split; [now rewrite Go, Io|].
  split; [intros j Hj; rewrite Gs, Is by exact Hj; now apply Fs|].
  split; [exact T3|].
  eexists. split; [exact S3|].
  split; [reflexivity|]. split; [reflexivity|].
  unfold reports, snapshot. rewrite C3. repeat split.
Qed.


Lemma new_events_app w w' evs : trace w' = (trace w ++ evs)%list -> new_events w w' = evs.
Proof. intros H. unfold new_events. rewrite H. apply drop_app_length. Qed.




(** *** Rounding to binary64 *)

Section Binary64.

Local Open Scope Q_scope.

Lemma round_half_even_bounds x :
  (Qfloor x <= round_half_even x <= Qfloor x + 1)%Z.
Proof.
  unfold round_half_even. destruct (Qcompare _ _); [destruct (Z.even _)| |]; lia.
Qed.

Lemma round_half_even_mono x y : x <= y -> (round_half_even x <= round_half_even y)%Z.
Proof.
  intros Hxy. pose proof (Qfloor_resp_le _ _ Hxy) as Hf.
  destruct (Z.eq_dec (Qfloor x) (Qfloor y)) as [Heq|Hne].
  - unfold round_half_even. rewrite <- Heq.
    destruct (Qcompare_spec (x - inject_Z (Qfloor x)) (1 # 2)) as [Hx|Hx|Hx];
    destruct (Qcompare_spec (y - inject_Z (Qfloor x)) (1 # 2)) as [Hy|Hy|Hy];
    try destruct (Z.even (Qfloor x)); try lia; exfalso; lra.
  - pose proof (round_half_even_bounds x). pose proof (round_half_even_bounds y). lia.
Qed.

Lemma round_half_even_Z n : round_half_even (inject_Z n) = n.
Proof.
  unfold round_half_even. rewrite Qfloor_Z.
  destruct (Qcompare_spec (inject_Z n - inject_Z n) (1 # 2)) as [H|H|H]; [exfalso; lra|reflexivity|exfalso; lra].
Qed.

Lemma round_half_even_eq x n : x == inject_Z n -> round_half_even x = n.
Proof.
  intros H. apply Z.le_antisymm.
  - rewrite <- (round_half_even_Z n). apply round_half_even_mono. lra.
  - rewrite <- (round_half_even_Z n) at 1. apply round_half_even_mono. lra.
Qed.

Lemma pow2_pos e : 0 < 2 ^ e.
Proof. apply Qpower_0_lt. reflexivity. Qed.

Lemma pow2_Z k : (0 <= k)%Z -> 2 ^ k == inject_Z (2 ^ k).
Proof. intros H. symmetry. exact (Zpower_Qpower 2 k H). Qed.

Lemma pow2_le a b : (a <= b)%Z -> 2 ^ a <= 2 ^ b.
Proof. intros H. apply Qpower_le_compat_l; [exact H | discriminate]. Qed.

Lemma pow2_lt a b : (a < b)%Z -> 2 ^ a < 2 ^ b.
Proof. intros H. apply Qpower_lt_compat_l; [exact H | reflexivity]. Qed.

Lemma pow2_plus a b : 2 ^ (a + b) == 2 ^ a * 2 ^ b.
Proof. apply Qpower_plus. discriminate. Qed.

Lemma ilog2_spec x : 0 < x -> 2 ^ ilog2 x <= x /\ x < 2 ^ (ilog2 x + 1).
Proof.
  intros Hx. unfold ilog2.
  destruct x as [n d]. cbn [Qnum Qden].
  assert (Hn : (0 < n)%Z) by (unfold Qlt in Hx; cbn in Hx; lia).
  pose proof (Z.log2_spec n Hn) as [Ha1 Ha2].
  pose proof (Z.log2_spec (Z.pos d) eq_refl) as [Hb1 Hb2].
  pose proof (Z.log2_nonneg n) as Ha0. pose proof (Z.log2_nonneg (Z.pos d)) as Hb0.
  set (a := Z.log2 n) in *. set (b := Z.log2 (Z.pos d)) in *.
  assert (Hnd : (n # d) * inject_Z (Z.pos d) == inject_Z n).
  { unfold Qeq, Qmult, inject_Z. cbn. lia. }
  assert (Hupper : n # d < 2 ^ (a - b + 1)).
  { replace (a - b + 1)%Z with ((a + 1) + - b)%Z by lia.
    rewrite pow2_plus, Qpower_opp.
    apply Qlt_shift_div_l; [apply pow2_pos|].
    rewrite (pow2_Z b Hb0), (pow2_Z (a + 1)) by lia.
    apply Qle_lt_trans with (inject_Z n).
    - rewrite <- Hnd. apply Qmult_le_l; [exact Hx|]. rewrite <- Zle_Qle. exact Hb1.
    - rewrite <- Zlt_Qlt. replace (a + 1)%Z with (Z.succ a) by lia. exact Ha2. }
  assert (Hlower : 2 ^ (a - b - 1) < n # d).
  { replace (a - b - 1)%Z with (a + - (b + 1))%Z by lia.
    rewrite pow2_plus, Qpower_opp.
    apply Qlt_shift_div_r; [apply pow2_pos|].
    rewrite (pow2_Z a Ha0), (pow2_Z (b + 1)) by lia.
    apply Qle_lt_trans with (inject_Z n); [rewrite <- Zle_Qle; exact Ha1|].
    rewrite <- Hnd. apply Qmult_lt_l; [exact Hx|]. rewrite <- Zlt_Qlt.
    replace (b + 1)%Z with (Z.succ b) by lia. exact Hb2. }
  destruct (Qle_bool (2 ^ (a - b)) (n # d)) eqn:E.
  - apply Qle_bool_iff in E. split; [exact E | exact Hupper].
  - split; [apply Qlt_le_weak; exact Hlower|].
    replace (a - b - 1 + 1)%Z with (a - b)%Z by lia.
    apply Qnot_le_lt. intros H. apply Qle_bool_iff in H. congruence.
Qed.

Lemma ilog2_mono x y : 0 < x -> x <= y -> (ilog2 x <= ilog2 y)%Z.
Proof.
  intros Hx Hxy. assert (Hy : 0 < y) by lra.
  destruct (ilog2_spec x Hx) as [Hx1 _]. destruct (ilog2_spec y Hy) as [_ Hy2].
  destruct (Z_le_gt_dec (ilog2 x) (ilog2 y)) as [H|H]; [exact H|exfalso].
  pose proof (pow2_le (ilog2 y + 1) (ilog2 x) ltac:(lia)). lra.
Qed.

Lemma binary64_pos_mono x y : 0 < x -> x <= y -> binary64_pos x <= binary64_pos y.
Proof.
  intros Hx Hxy. assert (Hy : 0 < y) by lra.
  pose proof (ilog2_mono x y Hx Hxy) as He.
  destruct (ilog2_spec x Hx) as [_ Hx2]. destruct (ilog2_spec y Hy) as [Hy1 _].
  unfold binary64_pos. cbv zeta.
  set (ex := Z.max (ilog2 x) (-1022)). set (ey := Z.max (ilog2 y) (-1022)).
  assert (Hle : (ex <= ey)%Z) by lia.
  pose proof (pow2_pos (ex - 52)) as Hux. pose proof (pow2_pos (ey - 52)) as Huy.
  destruct (Z.eq_dec ex ey) as [Heq|Hne].
  - rewrite <- Heq. apply Qmult_le_compat_r; [|lra].
    rewrite <- Zle_Qle. apply round_half_even_mono.
    apply Qmult_le_compat_r; [exact Hxy|]. apply Qlt_le_weak, Qinv_lt_0_compat, Hux.
  - assert (Hey : ey = ilog2 y) by lia.
    apply Qle_trans with (2 ^ (ex + 1)).
    + assert (Hm : (round_half_even (x / 2 ^ (ex - 52)) <= 2 ^ 53)%Z).
      { rewrite <- (round_half_even_Z (2 ^ 53)). apply round_half_even_mono.
        apply Qle_shift_div_r; [exact Hux|].
        rewrite <- (pow2_Z 53) by lia. rewrite <- pow2_plus.
        replace (53 + (ex - 52))%Z with (ex + 1)%Z by lia.
        apply Qle_trans with (2 ^ (ilog2 x + 1)); [lra|]. apply pow2_le. lia. }
      replace (ex + 1)%Z with (53 + (ex - 52))%Z by lia.
      rewrite pow2_plus, (pow2_Z 53) by lia.
      apply Qmult_le_compat_r; [|lra]. rewrite <- Zle_Qle. exact Hm.
    + apply Qle_trans with (2 ^ ey); [apply pow2_le; lia|].
      assert (Hm : (2 ^ 52 <= round_half_even (y / 2 ^ (ey - 52)))%Z).
      { rewrite <- (round_half_even_Z (2 ^ 52)) at 1. apply round_half_even_mono.
        apply Qle_shift_div_l; [exact Huy|].
        rewrite <- (pow2_Z 52) by lia. rewrite <- pow2_plus.
        replace (52 + (ey - 52))%Z with ey by lia. rewrite Hey. exact Hy1. }
      replace ey with (52 + (ey - 52))%Z at 1 by lia.
      rewrite pow2_plus, (pow2_Z 52) by lia.
      apply Qmult_le_compat_r; [|lra]. rewrite <- Zle_Qle. exact Hm.
Qed.

Lemma binary64_positive x : 0 < x -> binary64 x = binary64_pos x.
Proof.
  intros Hx. unfold binary64. destruct (Qcompare_spec x 0) as [H|H|H]; [exfalso; lra|exfalso; lra|reflexivity].
Qed.

Lemma binary64_mono x y : 0 < x -> x <= y -> binary64 x <= binary64 y.
Proof.
  intros Hx Hxy. rewrite !binary64_positive by lra. now apply binary64_pos_mono.
Qed.

Lemma ilog2_Z n : (0 < n)%Z -> ilog2 (inject_Z n) = Z.log2 n.
Proof.
  intros Hn. unfold ilog2, inject_Z. cbn [Qnum Qden].
  change (Z.log2 1) with 0%Z. rewrite Z.sub_0_r.
  pose proof (Z.log2_spec n Hn) as [Ha _]. pose proof (Z.log2_nonneg n).
  assert (H2 : Qle_bool (2 ^ Z.log2 n) (n # 1) = true).
  { apply Qle_bool_iff. rewrite pow2_Z by lia. change (n # 1) with (inject_Z n).
    rewrite <- Zle_Qle. exact Ha. }
  now rewrite H2.
Qed.

Lemma binary64_Z n : (0 < n < 2 ^ 53)%Z -> binary64 (inject_Z n) == inject_Z n.
Proof.
  intros [Hn Hmax].
  assert (Hpos : 0 < inject_Z n) by (rewrite (Zlt_Qlt 0 n) in Hn; exact Hn).
  rewrite binary64_positive by exact Hpos.
  unfold binary64_pos. cbv zeta. rewrite (ilog2_Z n Hn).
  pose proof (Z.log2_nonneg n) as Ha0.
  assert (Ha : (Z.log2 n < 53)%Z) by (apply Z.log2_lt_pow2; lia).
  rewrite Z.max_l by lia.
  set (a := Z.log2 n) in *.
  assert (Hq : inject_Z n / 2 ^ (a - 52) == inject_Z (n * 2 ^ (52 - a))).
  { rewrite inject_Z_mult, <- (pow2_Z (52 - a)) by lia.
    replace (a - 52)%Z with (- (52 - a))%Z by lia. rewrite Qpower_opp.
    unfold Qdiv. rewrite Qinv_involutive. reflexivity. }
  rewrite (round_half_even_eq _ _ Hq), <- Hq.
  field. pose proof (pow2_pos (a - 52)). lra.
Qed.

(** The float sum of a float and a positive rational is not below the
    float. *)
Lemma float_add_le x y : 0 < y -> 0 < x -> binary64 x == x -> x <= float_add x y.
Proof.
  intros Hy Hx Hfloat. unfold float_add. rewrite <- Hfloat at 1.
  apply binary64_mono; lra.
Qed.

(** Adding at least one second moves a clock below 2^52 s. *)
Lemma float_add_lt x y : 1 <= y -> 0 < x -> x < 2 ^ 52 -> x < float_add x y.
Proof.
  intros Hy Hx Hmax. unfold float_add.
  pose proof (Qfloor_le x) as Hf1. pose proof (Qlt_floor x) as Hf2.
  assert (Hf0 : (0 <= Qfloor x)%Z).
  { change 0%Z with (Qfloor 0). apply Qfloor_resp_le. lra. }
  assert (Hfmax : (Qfloor x < 2 ^ 52)%Z).
  { rewrite Zlt_Qlt. rewrite <- (pow2_Z 52) by lia. lra. }
  apply Qlt_le_trans with (inject_Z (Qfloor x + 1)); [exact Hf2|].
  rewrite <- (binary64_Z (Qfloor x + 1)) by lia.
  assert (Hpos : 0 < inject_Z (Qfloor x + 1)).
  { change 0 with (inject_Z 0). rewrite <- Zlt_Qlt. lia. }
  apply binary64_mono; [exact Hpos|].
  rewrite inject_Z_plus. change (inject_Z 1) with 1. lra.
Qed.

End Binary64.

(** C8, as stated, fails: with a rotation interval of 2^-24 s, which is
    positive, and a clock at 1700000000 s, where neighbouring floats are
    2^-22 s apart, the sum is rounded back to the clock reading, and the
    credentials of a successful rotation expire at the very time of their
    creation. *)
Lemma rotate_credentials_expiry_at_creation :
  (0 < rotation_interval_sec Scenario.tiny_interval)%Q /\
  fst (fst (rotate_credentials "startup" Scenario.wlan0
              (Scenario.fresh_world Scenario.tiny_interval Scenario.at_1700000000)))
  = true /\
  exists c,
    creds_of
      (snd (fst (rotate_credentials "startup" Scenario.wlan0
                   (Scenario.fresh_world Scenario.tiny_interval Scenario.at_1700000000))))
      (snd (rotate_credentials "startup" Scenario.wlan0
              (Scenario.fresh_world Scenario.tiny_interval Scenario.at_1700000000)))
    = Some c /\
    ~ (Credentials.created_at c < Credentials.expires_at c)%Q.
Proof.
  split; [reflexivity|]. split; [vm_compute; reflexivity|].
  eexists. split; [vm_compute; reflexivity|].
  vm_compute. discriminate.
Qed.

(** C8, amended. A successful rotation leaves the engine pointing to a
    credentials object whose expiry is the float sum of its creation time
    and the rotation interval. Under a positive interval, and the creation
    time being a positive float, the creation time is not after the expiry;
    it is before the expiry when the interval is at least one second (and
    the clock below 2^52 s). That object is newly allocated (its reference
    is the allocation pointer of the store), every object already in the
    store, the engine's previous credentials among them, is left as it
    was, and the engine no longer points to its previous object. *)
Theorem rotate_credentials_fresh_credentials reason ap w :
  let run := rotate_credentials reason ap w in
  let c := creds_heap (snd run) (creds_next w) in
  let interval := rotation_interval_sec (cfg_heap w (APInstance.global_config ap)) in
  fst (fst run) = true ->
  APInstance.current_creds (snd (fst run)) = Some (creds_next w) /\
  Credentials.expires_at c = float_add (Credentials.created_at c) interval /\
  ((0 < interval)%Q ->
   (0 < Credentials.created_at c)%Q ->
   (binary64 (Credentials.created_at c) == Credentials.created_at c)%Q ->
   (Credentials.created_at c <= Credentials.expires_at c)%Q) /\
  ((1 <= interval)%Q ->
   (0 < Credentials.created_at c)%Q ->
   (Credentials.created_at c < 2 ^ 52)%Q ->
   (Credentials.created_at c < Credentials.expires_at c)%Q) /\
  creds_next (snd run) = S (creds_next w) /\
  (forall r, r <> creds_next w -> creds_heap (snd run) r = creds_heap w r) /\
  (forall old, APInstance.current_creds ap = Some old -> old < creds_next w ->
     APInstance.current_creds (snd (fst run)) <> Some old /\
     creds_heap (snd run) old = creds_heap w old).
Proof.
  intros run c interval. subst run c interval.
  destruct (rotate_credentials reason ap w) as [[ok ap'] w'] eqn:E.
  cbn [fst snd]. intros ->.
  destruct (rotate_credentials_true _ _ _ _ _ E)
    as (ssid & pw & now & qr & service & H).
  cbv zeta in H. destruct H as (-> & Hh & Hn & _).
  assert (Hframe : forall r, r <> creds_next w -> creds_heap w' r = creds_heap w r).
  { intros r Hr. rewrite Hh. destruct (Nat.eqb_spec r (creds_next w)); [contradiction|].
    reflexivity. }
  split; [reflexivity|].
  rewrite Hh, Nat.eqb_refl. cbn [Credentials.created_at Credentials.expires_at].
  split; [reflexivity|].
  split; [intros Hpos Hnow Hfloat; now apply float_add_le|].
  split; [intros Hone Hnow Hmax; now apply float_add_lt|].
  split; [exact Hn|]. split; [exact Hframe|].
  intros old Hold Hlt. split.
  - cbn [APInstance.current_creds APInstance.set_current_creds]. intros [= Heq]. lia.
  - apply Hframe. lia.
Qed.

(** The first rotation of a fresh engine with the default configuration:
    the clock reads 1003 s and the interval is 300 s. *)
Lemma rotate_credentials_fresh_credentials_witness :
  (Credentials.created_at
     (creds_heap (snd (rotate_credentials "startup" Scenario.wlan0
                         (Scenario.fresh_world DEFAULT_CONFIG Scenario.calm))) 0)
   < Credentials.expires_at
       (creds_heap (snd (rotate_credentials "startup" Scenario.wlan0
                           (Scenario.fresh_world DEFAULT_CONFIG Scenario.calm))) 0))%Q.
Proof.
  refine (proj1 (proj2 (proj2 (proj2
            (rotate_credentials_fresh_credentials "startup" Scenario.wlan0
               (Scenario.fresh_world DEFAULT_CONFIG Scenario.calm) _)))) _ _ _).
  - vm_compute. reflexivity.
  - vm_compute. discriminate.
  - vm_compute. reflexivity.
  - vm_compute. reflexivity.
Defined.

(** *** The rotation decision *)

Lemma bind_get_client_count {B} ap (k : Z -> M B) w :
  bind (get_client_count ap) k w = k (clients_at w (step w)) (asked 1 w).
Proof.
  unfold get_client_count. rewrite bind_bind, bind_ask. cbv beta.
  unfold reading, clients_at. destruct (o_station_dump (oracle w) (step w)); reflexivity.
Qed.

Lemma py_ge_true x y : py_ge x y = true <-> (y <= x)%Q.
Proof. apply Qle_bool_iff. Qed.

Lemma py_ge_false x y : py_ge x y = false <-> (x < y)%Q.
Proof.
  unfold py_ge. split.
  - intros H. apply Qnot_le_lt. intros Hle. apply Qle_bool_iff in Hle. congruence.
  - intros H. destruct (Qle_bool y x) eqn:E; [|reflexivity].
    apply Qle_bool_iff in E. exfalso. apply (Qlt_not_le _ _ H E).
Qed.

(** [should_rotate] on an engine that has credentials: two readings, then
    the two tests in the order of the code. *)
Lemma should_rotate_some ap r w :
  APInstance.current_creds ap = Some r ->
  should_rotate ap w =
  (let c := creds_heap w r in
   let cfg := cfg_heap w (APInstance.global_config ap) in
   let count := clients_at w (S (step w)) in
   if py_ge (now_at w) (Credentials.expires_at c) then (true, "time_expired")
   else if (count >=? client_threshold cfg)%Z
           && py_ge (now_at w - Credentials.created_at c) (min_time_after_clients_sec cfg)
        then (true, "client_threshold_" +:+ py_str_int count)
        else (false, ""),
   asked 1 (asked 1 w)).
Proof.
  intros Hr. unfold should_rotate, time_time, the_global_config. rewrite Hr.
  rewrite bind_ask. cbv beta. rewrite bind_get. cbv beta.
  rewrite bind_get_client_count. cbv beta zeta.
  change (reading o_time w) with (now_at w).
  change (clients_at (asked 1 w) (step (asked 1 w))) with (clients_at w (S (step w))).
  change (creds_heap (asked 1 w) r) with (creds_heap w r).
  destruct (py_ge (now_at w) (Credentials.expires_at (creds_heap w r))); [reflexivity|].
  rewrite bind_get. cbv beta.
  change (cfg_heap (asked 1 (asked 1 w)) (APInstance.global_config ap))
    with (cfg_heap w (APInstance.global_config ap)).
  destruct ((clients_at w (S (step w))
             >=? client_threshold (cfg_heap w (APInstance.global_config ap)))%Z
            && py_ge (now_at w - Credentials.created_at (creds_heap w r))
                 (min_time_after_clients_sec (cfg_heap w (APInstance.global_config ap))));
    reflexivity.
Qed.

(** C1. [should_rotate] returns (True, "initial") when the engine has no
    credentials; otherwise (True, "time_expired") when the clock has reached
    the expiry, whatever the client count; otherwise
    (True, "client_threshold_<count>") when the count has reached the
    threshold and the age the minimum; otherwise (False, ""). The clock and
    the client count are the two readings the call makes, in this order. *)
Theorem should_rotate_decision ap w :
  let now := now_at w in
  let count := clients_at w (S (step w)) in
  let cfg := cfg_heap w (APInstance.global_config ap) in
  let decision := fst (should_rotate ap w) in
  (creds_of ap w = None -> decision = (true, "initial")) /\
  (forall c, creds_of ap w = Some c ->
     (Credentials.expires_at c <= now)%Q -> decision = (true, "time_expired")) /\
  (forall c, creds_of ap w = Some c ->
     (now < Credentials.expires_at c)%Q ->
     (client_threshold cfg <= count)%Z ->
     (min_time_after_clients_sec cfg <= now - Credentials.created_at c)%Q ->
     decision = (true, "client_threshold_" +:+ py_str_int count)) /\
  (forall c, creds_of ap w = Some c ->
     (now < Credentials.expires_at c)%Q ->
     ~ ((client_threshold cfg <= count)%Z /\
        (min_time_after_clients_sec cfg <= now - Credentials.created_at c)%Q) ->
     decision = (false, "")).
Proof.
  intros now count cfg decision. subst decision.
  unfold creds_of. destruct (APInstance.current_creds ap) as [r|] eqn:Hr.
  - rewrite (should_rotate_some ap r w Hr). cbn [fst option_map]. cbv zeta.
    fold now count cfg.
    split; [discriminate|].
    split.
    { intros c [= <-] Hexp. apply py_ge_true in Hexp. now rewrite Hexp. }
    split.
    { intros c [= <-] Hexp Hcount Hage.
      apply py_ge_false in Hexp. rewrite Hexp.
      apply Z.geb_le in Hcount. apply py_ge_true in Hage.
      now rewrite Hcount, Hage. }
    intros c [= <-] Hexp Hnot.
    apply py_ge_false in Hexp. rewrite Hexp.
    destruct (count >=? client_threshold cfg)%Z eqn:Hc; [|reflexivity].
    destruct (py_ge (now - Credentials.created_at (creds_heap w r))
                (min_time_after_clients_sec cfg)) eqn:Ha; [|reflexivity].
    exfalso. apply Hnot. split; [now apply Z.geb_le | now apply py_ge_true].
  - unfold should_rotate. rewrite Hr. cbn [fst option_map ret].
    split; [reflexivity|]. repeat split; discriminate.
Qed.

(** Six clients at an age of 150 s, 150 s before the expiry. *)
Lemma should_rotate_decision_witness :
  fst (should_rotate Scenario.wlan0_serving
         (Scenario.serving_world DEFAULT_CONFIG Scenario.busy ∅))
  = (true, "client_threshold_6").
Proof.
  refine (proj1 (proj2 (proj2 (should_rotate_decision Scenario.wlan0_serving
            (Scenario.serving_world DEFAULT_CONFIG Scenario.busy ∅))))
          Scenario.current _ _ _ _).
  - reflexivity.
  - vm_compute. reflexivity.
  - vm_compute. discriminate.
  - vm_compute. discriminate.
Defined.

(** *** The manual trigger *)

Lemma py_lt_false x y : py_lt x y = false <-> (y <= x)%Q.
Proof.
  unfold py_lt. rewrite negb_false_iff. apply Qle_bool_iff.
Qed.

(** [check_trigger_file] when the marker is there and [unlink] removes it. *)
Lemma check_trigger_file_present ap w :
  APInstance.interface ap ∈ trigger_files w ->
  reading o_unlink_ok w = true ->
  check_trigger_file ap w =
  (let w1 := emitted [EvUnlinkTrigger (APInstance.interface ap)]
               (set_trigger_files (trigger_files w ∖ {[APInstance.interface ap]})
                  (asked 1 w)) in
   let cooldown := manual_rotation_cooldown_sec (cfg_heap w (APInstance.global_config ap)) in
   if py_lt (checked_at w - APInstance.last_manual_rotation ap) cooldown
   then ((false, ap), emitted [EvWarning "Manual rotation cooldown"] (asked 1 w1))
   else ((true, APInstance.set_last_manual_rotation (checked_at w) ap), asked 1 w1)).
Proof.
  intros Hin0 Hok.
  assert (Hin : bool_decide (APInstance.interface ap ∈ trigger_files w) = true)
    by now apply bool_decide_eq_true_2.
  unfold check_trigger_file, unlink_trigger, time_time, the_global_config.
  rewrite bind_get. cbv beta. rewrite Hin.
  rewrite bind_bind, bind_get. cbv beta. rewrite Hin.
  rewrite bind_bind, bind_ask. cbv beta. rewrite Hok.
  rewrite bind_bind, bind_modify. cbv beta.
  rewrite bind_bind, bind_emit. cbv beta.
  rewrite bind_ret. cbv beta iota.
  rewrite bind_ask. cbv beta. rewrite bind_get. cbv beta zeta.
  match goal with |- context [py_lt ?a ?b] =>
    change (py_lt a b)
      with (py_lt (checked_at w - APInstance.last_manual_rotation ap)
              (manual_rotation_cooldown_sec (cfg_heap w (APInstance.global_config ap))));
    destruct (py_lt (checked_at w - APInstance.last_manual_rotation ap)
                (manual_rotation_cooldown_sec (cfg_heap w (APInstance.global_config ap))))
  end.
  - rewrite bind_emit. reflexivity.
  - reflexivity.
Qed.

(** [check_trigger_file] when the marker is there and [unlink] raises. *)
Lemma check_trigger_file_stuck ap w :
  APInstance.interface ap ∈ trigger_files w ->
  reading o_unlink_ok w = false ->
  check_trigger_file ap w
  = ((false, ap), emitted [EvError "Error checking trigger"] (asked 1 w)).
Proof.
  intros Hin0 Hko.
  assert (Hin : bool_decide (APInstance.interface ap ∈ trigger_files w) = true)
    by now apply bool_decide_eq_true_2.
  unfold check_trigger_file, unlink_trigger.
  rewrite bind_get. cbv beta. rewrite Hin.
  rewrite bind_bind, bind_get. cbv beta. rewrite Hin.
  rewrite bind_bind, bind_ask. cbv beta. rewrite Hko.
  rewrite bind_ret. cbv beta iota.
  rewrite bind_emit. reflexivity.
Qed.

Lemma check_trigger_file_absent ap w :
  APInstance.interface ap ∉ trigger_files w ->
  check_trigger_file ap w = ((false, ap), w).
Proof.
  intros Hout0.
  assert (Hout : bool_decide (APInstance.interface ap ∈ trigger_files w) = false)
    by now apply bool_decide_eq_false_2.
  unfold check_trigger_file. rewrite bind_get. cbv beta. now rewrite Hout.
Qed.

(** C5, as stated, fails: a marker that is there but cannot be unlinked
    stays where it is, and [check_trigger_file] returns [False] although
    the cooldown since the last manual rotation has elapsed (1150 s against
    a cooldown of 30 s). *)
Lemma check_trigger_file_marker_stays :
  "wlan0" ∈ trigger_files (Scenario.serving_world DEFAULT_CONFIG Scenario.stuck {["wlan0"]}) /\
  "wlan0" ∈ trigger_files
    (snd (check_trigger_file Scenario.wlan0_serving
            (Scenario.serving_world DEFAULT_CONFIG Scenario.stuck {["wlan0"]}))) /\
  fst (fst (check_trigger_file Scenario.wlan0_serving
              (Scenario.serving_world DEFAULT_CONFIG Scenario.stuck {["wlan0"]}))) = false /\
  (manual_rotation_cooldown_sec DEFAULT_CONFIG
   <= checked_at (Scenario.serving_world DEFAULT_CONFIG Scenario.stuck {["wlan0"]})
      - APInstance.last_manual_rotation Scenario.wlan0_serving)%Q.
Proof.
  assert (Hin : "wlan0" ∈ trigger_files
            (Scenario.serving_world DEFAULT_CONFIG Scenario.stuck {["wlan0"]})).
  { apply (bool_decide_unpack ("wlan0" ∈ ({["wlan0"]} : gset string))).
    vm_compute. exact I. }
  split; [exact Hin|].
  rewrite (check_trigger_file_stuck Scenario.wlan0_serving _ Hin eq_refl).
  split; [exact Hin|]. split; [reflexivity|].
  vm_compute. discriminate.
Qed.

(** C5, amended. When the trigger marker of the interface is there and
    [unlink] removes it, [check_trigger_file] has consumed the marker,
    whether it accepts the request or not, and returns [True] exactly when
    the cooldown since the last accepted manual rotation has elapsed (it
    then records the time of this request; a rejected request leaves the
    engine as it was). When the marker is there and [unlink] raises, it
    returns [False] and logs an error: the marker, the engine and
    everything else stay as they were. When the marker is absent it returns
    [False] and changes nothing. *)
Theorem check_trigger_file_consumes ap w :
  let run := check_trigger_file ap w in
  let cooldown := manual_rotation_cooldown_sec (cfg_heap w (APInstance.global_config ap)) in
  (APInstance.interface ap ∈ trigger_files w ->
     (reading o_unlink_ok w = true ->
        (APInstance.interface ap ∉ trigger_files (snd run)) /\
        ((fst (fst run) = true) <->
         (cooldown <= checked_at w - APInstance.last_manual_rotation ap)%Q) /\
        (fst (fst run) = true ->
         snd (fst run) = APInstance.set_last_manual_rotation (checked_at w) ap) /\
        (fst (fst run) = false -> snd (fst run) = ap)) /\
     (reading o_unlink_ok w = false ->
        (APInstance.interface ap ∈ trigger_files (snd run)) /\
        run = ((false, ap), emitted [EvError "Error checking trigger"] (asked 1 w)))) /\
  (APInstance.interface ap ∉ trigger_files w -> run = ((false, ap), w)).
Proof.
  intros run cooldown. subst run. split.
  - intros Hin. split;
      [|intros Hko; rewrite (check_trigger_file_stuck ap w Hin Hko); now split].
    intros Hok. rewrite (check_trigger_file_present ap w Hin Hok). cbv zeta.
    fold cooldown.
    destruct (py_lt (checked_at w - APInstance.last_manual_rotation ap) cooldown) eqn:E;
      cbn [fst snd].
    + split; [cbn [trigger_files emitted asked set_step set_trace set_trigger_files];
              apply not_elem_of_difference; right; now apply elem_of_singleton|].
      split.
      { split; [discriminate|]. intros H. apply py_lt_false in H. congruence. }
      split; [discriminate | reflexivity].
    + split; [cbn [trigger_files emitted asked set_step set_trace set_trigger_files];
              apply not_elem_of_difference; right; now apply elem_of_singleton|].
      split.
      { split; [intros _; now apply py_lt_false | reflexivity]. }
      split; [reflexivity | discriminate].
  - apply check_trigger_file_absent.
Qed.

(** A marker found 150 s after the last manual rotation, cooldown 30 s. *)
Lemma check_trigger_file_consumes_witness :
  "wlan0" ∉ trigger_files
    (snd (check_trigger_file Scenario.wlan0_serving
            (Scenario.serving_world DEFAULT_CONFIG Scenario.idle {["wlan0"]}))).
Proof.
  refine (proj1 (proj1 (proj1 (check_trigger_file_consumes Scenario.wlan0_serving
            (Scenario.serving_world DEFAULT_CONFIG Scenario.idle {["wlan0"]})) _) _)).
  - apply (bool_decide_unpack ("wlan0" ∈ ({["wlan0"]} : gset string))).
    vm_compute. exact I.
  - reflexivity.
Defined.

(** *** The status file *)

Lemma status_write_result iface st (files : gmap string (File InterfaceStatus.t)) :
  run_status_ops (status_write_ops iface st) files = <[iface := Holds st]> files.
Proof. cbn. apply insert_insert_eq. Qed.

(** C3, as stated, fails: between the two system calls of a status write a
    reader finds an empty file, which is neither the previous snapshot nor
    the new one. *)
Lemma status_write_not_atomic :
  ~ atomic_replace "wlan0" {["wlan0" := Holds Scenario.before]}
      (status_write_ops "wlan0" Scenario.after).
Proof.
  unfold atomic_replace. intros H. apply Forall_cons in H as [[H|H] _].
  - cbn in H. rewrite lookup_insert_eq, lookup_singleton_eq in H. discriminate H.
  - rewrite status_write_result in H. cbn in H.
    rewrite !lookup_insert_eq in H. discriminate H.
Qed.

(** C3, amended. A status write overwrites the file in place: the file is
    first emptied, then receives the whole snapshot, so that it ends holding
    exactly the new snapshot (nothing is appended) and no other interface's
    file is touched at any moment; a reader finds the previous file before
    the write, an empty file in between and the new snapshot after it. This
    is the write that [update_status] makes. *)
Theorem status_write_in_place iface st (files : gmap string (File InterfaceStatus.t)) :
  observable (status_write_ops iface st) files
  = [<[iface := Truncated]> files; <[iface := Holds st]> files] /\
  run_status_ops (status_write_ops iface st) files = <[iface := Holds st]> files /\
  Forall (fun seen => forall j, j <> iface -> seen !! j = files !! j)
         (observable (status_write_ops iface st) files) /\
  (forall state error ap w,
     status_files (snd (update_status state error ap w))
     = <[APInstance.interface ap := Holds (snapshot state error ap w)]> (status_files w)).
Proof.
  split; [cbn; now rewrite insert_insert_eq|].
  split; [apply status_write_result|].
  split.
  - cbn. repeat constructor; intros j Hj; now rewrite ?lookup_insert_ne by congruence.
  - intros state error ap w. rewrite update_status_run.
    cbn [snd status_files published set_trace set_status_files].
    apply insert_insert_eq.
Qed.

(** *** The rotation history *)

Lemma history_logged l w : history (set_rotations_log (Some (Holds l)) w) = l.
Proof. reflexivity. Qed.

(** [log_rotation] on a history file that is absent or readable. *)
Lemma log_rotation_run d r w :
  rotations_log w <> Some Truncated ->
  log_rotation d (Some r) w =
  (tt, emitted [EvLogRotation (Credentials.interface (creds_heap w r))
                  (Credentials.rotation_reason (creds_heap w r))]
         (set_rotations_log
            (Some (Holds (capped (log_retention_count (cfg_heap w (APRotationDaemon.config d)))
                            (history w ++ [entry_of (reading o_isoformat w)
                                             (creds_heap w r)]))))
            (asked 1 w))).
Proof.
  intros Hfile. unfold log_rotation. rewrite bind_get. cbv beta.
  unfold history, capped.
  destruct (rotations_log w) as [[|l]|]; [contradiction| |].
  - rewrite bind_ask. cbv beta. rewrite bind_get. cbv beta.
    rewrite bind_get. cbv beta zeta. rewrite bind_modify. reflexivity.
  - rewrite bind_ask. cbv beta. rewrite bind_get. cbv beta.
    rewrite bind_get. cbv beta zeta. rewrite bind_modify. reflexivity.
Qed.

(** C6 fails on the code for a retention count of zero: the slice
    [rotations[-0:]] is the whole list, so nothing is ever dropped and each
    logged rotation makes the history one entry longer. *)
Theorem log_rotation_retention_zero d r w :
  log_retention_count (cfg_heap w (APRotationDaemon.config d)) = 0%Z ->
  rotations_log w <> Some Truncated ->
  history (snd (log_rotation d (Some r) w))
  = (history w ++ [entry_of (reading o_isoformat w) (creds_heap w r)])%list /\
  (Z.of_nat (length (history (snd (log_rotation d (Some r) w)))) > 0)%Z.
Proof.
  intros Hzero Hfile. rewrite (log_rotation_run d r w Hfile), Hzero.
  cbn [snd]. change (history (emitted ?e ?x)) with (history x).
  rewrite history_logged.
  assert (Hcap : forall l : list Entry.t, capped 0 l = l).
  { intros l. unfold capped. destruct (Z.of_nat (length l) >? 0)%Z; [|reflexivity].
    reflexivity. }
  rewrite Hcap. split; [reflexivity|].
  rewrite length_app. cbn [length]. lia.
Qed.

(** The first rotation logged with a retention count of zero. *)
Lemma log_rotation_retention_zero_witness :
  (Z.of_nat (length (history (snd (log_rotation Scenario.supervisor (Some 0%nat)
     (Scenario.serving_world Scenario.keep_nothing Scenario.idle ∅))))) > 0)%Z.
Proof.
  refine (proj2 (log_rotation_retention_zero Scenario.supervisor 0%nat
            (Scenario.serving_world Scenario.keep_nothing Scenario.idle ∅) _ _)).
  - reflexivity.
  - discriminate.
Defined.

(** *** Reload *)

Lemma load_config_run w : _load_config w = (cfg_next w, reloaded w).
Proof.
  unfold _load_config, reloaded, loaded_config, loaded_interfaces.
  rewrite bind_ask. cbv beta.
  destruct (reading o_config_file w) as [fc|]; [|reflexivity].
  destruct (fc_interfaces fc); reflexivity.
Qed.

Lemma handle_reload_run d w :
  _handle_reload d w =
  (set_ap_instances
     (map (fun item => (fst item, APInstance.set_global_config (cfg_next w) (snd item)))
          (APRotationDaemon.ap_instances d))
     (set_config (cfg_next w) d),
   reloaded w).
Proof.
  unfold _handle_reload, bind. rewrite load_config_run. reflexivity.
Qed.

Lemma merge_interfaces_other items : forall store k,
  k ∉ map fst items -> merge_interfaces items store !! k = store !! k.
Proof.
  induction items as [|[i c] rest IH]; intros store k Hk; [reflexivity|].
  cbn [map fst] in Hk. apply not_elem_of_cons in Hk as [Hki Hk].
  cbn [merge_interfaces]. rewrite (IH _ k Hk).
  destruct (store !! i); apply lookup_insert_ne; intros Heq; apply Hki; now symmetry.
Qed.

Lemma merge_interfaces_listed items : forall store k c,
  NoDup (map fst items) ->
  In (k, c) items ->
  merge_interfaces items store !! k
  = Some (match store !! k with Some old => iface_update old c | None => c end).
Proof.
  induction items as [|[i c0] rest IH]; intros store k c Hkeys Hin; [destruct Hin|].
  cbn [map fst] in Hkeys. apply NoDup_cons in Hkeys as [Hi Hkeys].
  cbn [merge_interfaces]. destruct Hin as [Heq|Hin].
  - injection Heq as -> ->. rewrite (merge_interfaces_other _ _ _ Hi).
    destruct (store !! k); apply lookup_insert_eq.
  - assert (Hne : i <> k).
    { intros ->. apply Hi. apply list_elem_of_In.
      change k with (fst (k, c)). now apply in_map. }
    rewrite (IH _ k c Hkeys Hin).
    destruct (store !! i); now rewrite lookup_insert_ne.
Qed.

(** C9, as stated, fails: a reload changes more than the two configuration
    references. The per-interface settings are dicts shared by all loads
    and updated in place, and the engine of wlan0 holds one of them as its
    [config]: with a configuration file that sets channel 1 for wlan0, the
    channel in that dict goes from 6 to 1. *)
Lemma handle_reload_changes_interface_settings :
  (interfaces (Scenario.fresh_world DEFAULT_CONFIG Scenario.rechannelled)
     !! APInstance.config Scenario.wlan0) ≫= ic_channel = Some 6%Z /\
  (interfaces (snd (_handle_reload Scenario.supervisor
                      (Scenario.fresh_world DEFAULT_CONFIG Scenario.rechannelled)))
     !! APInstance.config Scenario.wlan0) ≫= ic_channel = Some 1%Z /\
  APRotationDaemon.ap_instances Scenario.supervisor = [("wlan0", Scenario.wlan0)].
Proof.
  split; [vm_compute; reflexivity|]. split; [|reflexivity].
  rewrite handle_reload_run. cbn [snd]. vm_compute. reflexivity.
Qed.

(** C9, amended. [_handle_reload] loads the configuration into a new dict,
    makes it the supervisor's configuration and the [global_config] of
    every engine, and merges the "interfaces" section of the file into the
    per-interface dicts, which the engines hold as their [config]: in
    place, a listed interface getting the file's keys over its previous
    ones and an interface that the file does not list keeping its
    settings; without a file, or without that section, these dicts are not
    touched. It leaves the rest alone: the engine map keeps its keys in
    their order, every engine keeps its interface, the reference to its
    per-interface dict, its current credentials, its cooldown timestamp and
    its lock, the running flag is kept, the configuration dicts that
    existed are not modified, and no credentials object, file or marker is
    touched and nothing is added to the trace. *)
Theorem handle_reload_frame d w :
  let d' := fst (_handle_reload d w) in
  let w' := snd (_handle_reload d w) in
  APRotationDaemon.config d' = cfg_next w /\
  cfg_heap w' (cfg_next w) = loaded_config w /\
  cfg_next w' = S (cfg_next w) /\
  (forall r, r <> cfg_next w -> cfg_heap w' r = cfg_heap w r) /\
  APRotationDaemon.running d' = APRotationDaemon.running d /\
  map fst (APRotationDaemon.ap_instances d') = map fst (APRotationDaemon.ap_instances d) /\
  Forall2 (fun old new =>
             APInstance.global_config new = APRotationDaemon.config d' /\
             APInstance.interface new = APInstance.interface old /\
             APInstance.config new = APInstance.config old /\
             APInstance.current_creds new = APInstance.current_creds old /\
             APInstance.last_manual_rotation new = APInstance.last_manual_rotation old /\
             APInstance.rotation_lock new = APInstance.rotation_lock old)
          (map snd (APRotationDaemon.ap_instances d))
          (map snd (APRotationDaemon.ap_instances d')) /\
  ((reading o_config_file w = None \/
    exists fc, reading o_config_file w = Some fc /\ fc_interfaces fc = None) ->
   interfaces w' = interfaces w) /\
  (forall fc items,
     reading o_config_file w = Some fc ->
     fc_interfaces fc = Some items ->
     NoDup (map fst items) ->
     (forall k, k ∉ map fst items -> interfaces w' !! k = interfaces w !! k) /\
     (forall k c, In (k, c) items ->
        interfaces w' !! k
        = Some (match interfaces w !! k with
                | Some old => iface_update old c
                | None => c
                end))) /\
  creds_heap w' = creds_heap w /\ creds_next w' = creds_next w /\
  status_files w' = status_files w /\ creds_files w' = creds_files w /\
  trigger_files w' = trigger_files w /\ hostapd_confs w' = hostapd_confs w /\
  rotations_log w' = rotations_log w /\ oracle w' = oracle w /\ trace w' = trace w.
Proof.
  intros d' w'. subst d' w'. rewrite handle_reload_run. cbn [fst snd].
  split; [reflexivity|].
  split; [unfold reloaded; cbn [cfg_heap alloc_cfg cfg_next set_interfaces asked set_step];
          now rewrite Nat.eqb_refl|].
  split; [reflexivity|].
  split.
  { intros r Hr. unfold reloaded.
    cbn [cfg_heap alloc_cfg cfg_next set_interfaces asked set_step].
    destruct (Nat.eqb_spec r (cfg_next w)); [contradiction | reflexivity]. }
  split; [reflexivity|].
  split.
  { cbn [APRotationDaemon.ap_instances set_ap_instances].
    rewrite map_map. reflexivity. }
  split.
  { cbn [APRotationDaemon.ap_instances APRotationDaemon.config set_ap_instances set_config].
    induction (APRotationDaemon.ap_instances d) as [|item items IH].
    - constructor.
    - cbn [map]. constructor; [|exact IH]. repeat split. }
  split.
  { unfold reloaded, loaded_interfaces. cbn [interfaces alloc_cfg set_interfaces].
    intros [-> | (fc & -> & ->)]; reflexivity. }
  split.
  { unfold reloaded, loaded_interfaces. cbn [interfaces alloc_cfg set_interfaces].
    intros fc items -> -> Hkeys. split.
    - intros k Hk. now apply merge_interfaces_other.
    - intros k c Hin. now apply merge_interfaces_listed. }
  repeat split.
Qed.

(** *** Attempts in a trace *)

Lemma attempts_app evs1 evs2 :
  attempts (evs1 ++ evs2) = (attempts evs1 ++ attempts evs2)%list.
Proof. apply flat_map_app. Qed.

Lemma attempts_on_app iface evs1 evs2 :
  attempts_on iface (evs1 ++ evs2)
  = (attempts_on iface evs1 ++ attempts_on iface evs2)%list.
Proof. apply flat_map_app. Qed.

Lemma attempts_on_attempts iface evs :
  attempts_on iface evs
  = flat_map (fun p => if String.eqb (fst p) iface then [snd p] else []) (attempts evs).
Proof.
  induction evs as [|e evs IH]; [reflexivity|].
  change (e :: evs) with ([e] ++ evs)%list.
  rewrite attempts_on_app, attempts_app, flat_map_app, <- IH.
  f_equal. destruct e; reflexivity.
Qed.

Lemma attempts_qr_events ap ssid pw qr : attempts (qr_events ap ssid pw qr) = [].
Proof.
  unfold qr_events. destruct qr; [|reflexivity].
  now destruct (String.eqb (APInstance.interface ap) "wlan0").
Qed.

Lemma attempts_gate ap gate msg : gate_failure ap gate msg -> attempts gate = [].
Proof.
  intros [ssid pw | ssid pw qr service]; [reflexivity|].
  change (?e :: ?l ++ ?k)%list with ([e] ++ l ++ k)%list.
  now rewrite !attempts_app, attempts_qr_events.
Qed.

(** What every rotation attempt does, whatever its outcome: it is recorded
    once, under its reason, it leaves the other interfaces' status files
    alone, and it changes the engine only when it succeeds. *)
Lemma rotate_credentials_attempt reason ap w :
  exists evs,
    trace (snd (rotate_credentials reason ap w)) = (trace w ++ evs)%list /\
    attempts evs = [(APInstance.interface ap, reason)] /\
    APInstance.interface (snd (fst (rotate_credentials reason ap w)))
    = APInstance.interface ap /\
    (forall j, j <> APInstance.interface ap ->
       status_files (snd (rotate_credentials reason ap w)) !! j = status_files w !! j) /\
    (fst (fst (rotate_credentials reason ap w)) = false ->
       snd (fst (rotate_credentials reason ap w)) = ap) /\
    (fst (fst (rotate_credentials reason ap w)) = true ->
       APInstance.current_creds (snd (fst (rotate_credentials reason ap w)))
       = Some (creds_next w)).
Proof.
  destruct (rotate_credentials reason ap w) as [[ok ap'] w'] eqn:E.
  cbn [fst snd]. destruct ok.
  - destruct (rotate_credentials_true _ _ _ _ _ E)
      as (ssid & pw & now & qr & service & H).
    cbv zeta in H.
    destruct H as (-> & _ & _ & _ & _ & _ & _ & _ & _ & _ & Hs & T & _).
    eexists. split; [exact T|].
    split; [now rewrite !attempts_app, attempts_qr_events|].
    split; [reflexivity|]. split; [exact Hs|].
    split; [discriminate | reflexivity].
  - destruct (rotate_credentials_false _ _ _ _ _ E)
      as (-> & F & gate & msg & st & Hg & T & _).
    eexists. split; [exact T|].
    split; [now rewrite !attempts_app, (attempts_gate _ _ _ Hg)|].
    split; [reflexivity|]. split; [exact (same_other_status _ _ _ F)|].
    split; [reflexivity | discriminate].
Qed.

(** [log_rotation] adds no attempt and writes no status file. *)
Lemma log_rotation_quiet d creds w :
  exists evs,
    trace (snd (log_rotation d creds w)) = (trace w ++ evs)%list /\
    attempts evs = [] /\
    status_files (snd (log_rotation d creds w)) = status_files w.
Proof.
  unfold log_rotation. rewrite bind_get. cbv beta.
  destruct (rotations_log w) as [[|l]|]; [exists [EvError "Failed to log rotation"]; now split| |].
  - rewrite bind_ask. cbv beta.
    destruct creds as [r|]; [|exists [EvError "Failed to log rotation"]; now split].
    rewrite bind_get. cbv beta. rewrite bind_get. cbv beta zeta.
    rewrite bind_modify. eexists [_]. now split.
  - rewrite bind_ask. cbv beta.
    destruct creds as [r|]; [|exists [EvError "Failed to log rotation"]; now split].
    rewrite bind_get. cbv beta. rewrite bind_get. cbv beta zeta.
    rewrite bind_modify. eexists [_]. now split.
Qed.

Lemma bind_run {A B} (m : M A) (k : A -> M B) (w w' : World) (a : A) :
  m w = (a, w') -> bind m k w = k a w'.
Proof. intros H. unfold bind. now rewrite H. Qed.

Lemma pair_eta {A B} (p : A * B) : p = (fst p, snd p).
Proof. now destruct p. Qed.

Lemma fst_pair {A B} (a : A) (b : B) : fst (a, b) = a.
Proof. reflexivity. Qed.

Lemma snd_pair {A B} (a : A) (b : B) : snd (a, b) = b.
Proof. reflexivity. Qed.

(** *** A tick without a rotation *)





(** *** Startup *)

Lemma startup_body_first d name ap w ap1 w1 :
  rotate_credentials "startup" ap w = (true, ap1, w1) ->
  startup_body d name ap w
  = (ap1, snd (log_rotation d (APInstance.current_creds ap1) w1)).
Proof.
  intros E. unfold startup_body. rewrite (bind_run _ _ _ _ _ E). cbv beta zeta.
  rewrite !fst_pair, !snd_pair, if_negb. cbv iota.
  unfold bind. destruct (log_rotation d (APInstance.current_creds ap1) w1).
  reflexivity.
Qed.

Lemma startup_body_retry d name ap w ap1 w1 ok ap2 w2 :
  rotate_credentials "startup" ap w = (false, ap1, w1) ->
  rotate_credentials "startup_retry" ap1
    (emitted [EvSleep 5] (emitted [EvError "Initial rotation failed, retrying..."] w1))
  = (ok, ap2, w2) ->
  startup_body d name ap w
  = (ap2, if ok then w2
          else published "error" (Some "Startup rotation failed") ap2
                 (emitted [EvError "Startup rotation failed"] w2)).
Proof.
  intros E1 E2. unfold startup_body. rewrite (bind_run _ _ _ _ _ E1). cbv beta zeta.
  rewrite !fst_pair, !snd_pair, if_negb. cbv iota.
  rewrite bind_emit. cbv beta. unfold time_sleep. rewrite bind_emit. cbv beta.
  rewrite (bind_run _ _ _ _ _ E2). cbv beta zeta.
  rewrite !fst_pair, !snd_pair, if_negb.
  destruct ok; cbv iota; [reflexivity|].
  rewrite bind_emit. cbv beta. rewrite bind_update_status. reflexivity.
Qed.



Lemma attempts_on_other i j reason evs :
  attempts evs = [(i, reason)] -> j <> i -> attempts_on j evs = [].
Proof.
  intros H Hj. rewrite attempts_on_attempts, H. cbn [flat_map fst snd].
  destruct (String.eqb_spec i j) as [Heq|_]; [|reflexivity].
  exfalso. apply Hj. symmetry. exact Heq.
Qed.

Lemma attempts_on_none j evs : attempts evs = [] -> attempts_on j evs = [].
Proof. intros H. now rewrite attempts_on_attempts, H. Qed.





Lemma for_each_cons body k ap rest w :
  for_each body ((k, ap) :: rest) w
  = ((k, fst (body k ap w)) :: fst (for_each body rest (snd (body k ap w))),
     snd (for_each body rest (snd (body k ap w)))).
Proof.
  cbn [for_each]. rewrite (bind_run _ _ _ _ _ (pair_eta (body k ap w))). cbv beta.
  rewrite (bind_run _ _ _ _ _ (pair_eta (for_each body rest (snd (body k ap w))))).
  reflexivity.
Qed.









(** *** The rotation history under a positive retention count *)

Lemma capped_keep_last {A} (n : Z) (l : list A) :
  (1 <= n)%Z -> capped n l = keep_last (Z.to_nat n) l.
Proof.
  intros Hn. unfold capped, keep_last, py_slice_from.
  destruct (Z.gtb_spec (Z.of_nat (length l)) n) as [Hlong|Hshort].
  - assert (Hneg : (- n <? 0)%Z = true) by (apply Z.ltb_lt; lia).
    rewrite Hneg. f_equal. lia.
  - replace (length l - Z.to_nat n) with 0 by lia. reflexivity.
Qed.

Lemma keep_last_length {A} (n : nat) (l : list A) :
  length (keep_last n l) = Nat.min n (length l).
Proof. unfold keep_last. rewrite length_drop. lia. Qed.

Lemma keep_last_app {A} (n : nat) (l l' : list A) :
  keep_last n (keep_last n l ++ l') = keep_last n (l ++ l').
Proof.
  unfold keep_last. rewrite !length_app, length_drop.
  destruct (Nat.le_gt_cases (length l) n) as [Hshort|Hlong].
  - replace (length l - n) with 0 by lia. now rewrite Nat.sub_0_r.
  - replace (length l - (length l - n) + length l' - n) with (length l') by lia.
    replace (length l + length l' - n) with ((length l - n) + length l') by lia.
    rewrite <- drop_drop. f_equal. symmetry. apply drop_app_le. lia.
Qed.

Lemma keep_last_snoc {A} (n : nat) (l : list A) (x : A) :
  1 <= n -> last (keep_last n (l ++ [x])) = Some x.
Proof.
  intros Hn. unfold keep_last. rewrite length_app. cbn [length].
  rewrite drop_app_le by lia. apply last_snoc.
Qed.

Lemma log_rotation_keeps_last d r w :
  (1 <= log_retention_count (cfg_heap w (APRotationDaemon.config d)))%Z ->
  rotations_log w <> Some Truncated ->
  history (snd (log_rotation d (Some r) w))
  = keep_last (Z.to_nat (log_retention_count (cfg_heap w (APRotationDaemon.config d))))
      (history w ++ [entry_of (reading o_isoformat w) (creds_heap w r)]).
Proof.
  intros Hn Hfile. rewrite (log_rotation_run d r w Hfile). cbn [snd].
  change (history (emitted ?e ?x)) with (history x). rewrite history_logged.
  now rewrite (capped_keep_last _ _ Hn).
Qed.

(** With a retention count of at least one, [log_rotation] appends the new
    entry and keeps the last [retention] entries: the history never exceeds
    the retention count, the newest entry is its last one, and nothing is
    dropped while there is room. *)
Theorem log_rotation_capped d r w :
  (1 <= log_retention_count (cfg_heap w (APRotationDaemon.config d)))%Z ->
  rotations_log w <> Some Truncated ->
  history (snd (log_rotation d (Some r) w))
  = keep_last (Z.to_nat (log_retention_count (cfg_heap w (APRotationDaemon.config d))))
      (history w ++ [entry_of (reading o_isoformat w) (creds_heap w r)]) /\
  (Z.of_nat (length (history (snd (log_rotation d (Some r) w))))
   <= log_retention_count (cfg_heap w (APRotationDaemon.config d)))%Z /\
  last (history (snd (log_rotation d (Some r) w)))
  = Some (entry_of (reading o_isoformat w) (creds_heap w r)) /\
  ((Z.of_nat (length (history w))
    < log_retention_count (cfg_heap w (APRotationDaemon.config d)))%Z ->
   history (snd (log_rotation d (Some r) w))
   = (history w ++ [entry_of (reading o_isoformat w) (creds_heap w r)])%list).
Proof.
  intros Hn Hfile. rewrite (log_rotation_keeps_last d r w Hn Hfile).
  split; [reflexivity|].
  split; [rewrite keep_last_length; lia|].
  split; [apply keep_last_snoc; lia|].
  intros Hroom. unfold keep_last. rewrite length_app. cbn [length].
  replace (_ - _) with 0 by lia. reflexivity.
Qed.

(** The first rotation logged under the default retention count of 100. *)
Lemma log_rotation_capped_witness :
  (Z.of_nat (length (history (snd (log_rotation Scenario.supervisor (Some 0%nat)
     (Scenario.serving_world DEFAULT_CONFIG Scenario.idle ∅))))) <= 100)%Z.
Proof.
  refine (proj1 (proj2 (log_rotation_capped Scenario.supervisor 0%nat
            (Scenario.serving_world DEFAULT_CONFIG Scenario.idle ∅) _ _))).
  - vm_compute. discriminate.
  - discriminate.
Defined.

Lemma log_rotation_world d r w :
  rotations_log w <> Some Truncated ->
  creds_heap (snd (log_rotation d (Some r) w)) = creds_heap w /\
  cfg_heap (snd (log_rotation d (Some r) w)) = cfg_heap w /\
  oracle (snd (log_rotation d (Some r) w)) = oracle w /\
  step (snd (log_rotation d (Some r) w)) = S (step w) /\
  rotations_log (snd (log_rotation d (Some r) w)) <> Some Truncated.
Proof.
  intros Hfile. rewrite (log_rotation_run d r w Hfile). cbn [snd].
  repeat split. discriminate.
Qed.

(** Logging a sequence of rotations with a retention count [n] of at least
    one leaves the last [n] entries of the previous history followed by the
    new entries, in order: the oldest entries are the ones dropped, so that
    after [n + 1] rotations logged to an empty history the first entry is
    gone and the newest is there. *)
Theorem log_rotation_fifo d rs : forall r w,
  (1 <= log_retention_count (cfg_heap w (APRotationDaemon.config d)))%Z ->
  rotations_log w <> Some Truncated ->
  history (log_all d (r :: rs) w)
  = keep_last (Z.to_nat (log_retention_count (cfg_heap w (APRotationDaemon.config d))))
      (history w ++ logged_entries (oracle w) (creds_heap w) (step w) (r :: rs)).
Proof.
  induction rs as [|r' rs IH]; intros r w Hn Hfile.
  - exact (log_rotation_keeps_last d r w Hn Hfile).
  - change (log_all d (r :: r' :: rs) w)
      with (log_all d (r' :: rs) (snd (log_rotation d (Some r) w))).
    destruct (log_rotation_world d r w Hfile) as (Hh & Hc & Ho & Hs & Hfile').
    pose proof (log_rotation_keeps_last d r w Hn Hfile) as Hist.
    set (w1 := snd (log_rotation d (Some r) w)) in *. clearbody w1.
    rewrite IH; [|now rewrite Hc | exact Hfile'].
    rewrite Hc, Ho, Hh, Hs, Hist. rewrite keep_last_app, <- app_assoc. reflexivity.
Qed.

(** Three rotations logged with a retention count of two. *)
Lemma log_rotation_fifo_witness :
  history (log_all Scenario.supervisor [0; 1; 2]
             (Scenario.serving_world Scenario.keep_two Scenario.idle ∅))
  = keep_last 2
      (logged_entries Scenario.idle (fun _ => Scenario.current) 0 [0; 1; 2]).
Proof.
  refine (log_rotation_fifo Scenario.supervisor [1; 2] 0
            (Scenario.serving_world Scenario.keep_two Scenario.idle ∅) _ _).
  - vm_compute. discriminate.
  - discriminate.
Defined.


(** *** The prober *)

Lemma split_nonempty sep s : split sep s <> [].
Proof.
  destruct s as [|c s]; [discriminate|]. cbn [split].
  destruct (N.eqb c sep); [discriminate|].
  destruct (split sep s); discriminate.
Qed.

Lemma split_app sep s1 s2 :
  split sep (s1 ++ sep :: s2) = (split sep s1 ++ split sep s2)%list.
Proof.
  induction s1 as [|c s1 IH].
  - cbn [app split]. now rewrite N.eqb_refl.
  - rewrite <- app_comm_cons. cbn [split]. rewrite IH.
    destruct (N.eqb c sep); [reflexivity|].
    pose proof (split_nonempty sep s1) as Hne.
    destruct (split sep s1) as [|h t]; [contradiction | reflexivity].
Qed.

Lemma split_no_sep sep s : ~ In sep s -> split sep s = [s].
Proof.
  induction s as [|c s IH]; intros Hno; [reflexivity|].
  cbn [split]. cbn [In] in Hno.
  destruct (N.eqb_spec c sep) as [->|_]; [exfalso; apply Hno; now left|].
  rewrite IH; [reflexivity|]. intros Hin. apply Hno. now right.
Qed.

(** The client count of a station dump is the sum of the counts of its
    lines, a line counting once exactly when, leading and trailing white
    space apart, it starts with "Station", where white space is that of
    Unicode (a no-break space before "Station" does not hide the line); the
    count is never negative and it is zero when the probe fails. *)
Theorem get_client_count_lines :
  (forall s1 s2,
     count_stations (s1 ++ newline :: s2)
     = (count_stations s1 + count_stations s2)%Z) /\
  (forall line,
     ~ In newline line ->
     count_stations line
     = if startswith (text_of "Station") (strip line) then 1%Z else 0%Z) /\
  count_stations (160%N :: text_of "Station 02:00:00:00:00:01 (on wlan0)") = 1%Z /\
  (forall ap w, (0 <= fst (get_client_count ap w))%Z) /\
  (forall ap w, reading o_station_dump w = None -> fst (get_client_count ap w) = 0%Z).
Proof.
  split.
  { intros s1 s2. unfold count_stations.
    rewrite split_app, filter_app, length_app. lia. }
  split.
  { intros line Hno. unfold count_stations. rewrite (split_no_sep _ _ Hno).
    cbn [filter]. rewrite filter_cons. cbn [filter].
    destruct (startswith (text_of "Station") (strip line)) eqn:E.
    - rewrite decide_True by reflexivity. reflexivity.
    - rewrite decide_False by discriminate. reflexivity. }
  split; [vm_compute; reflexivity|].
  split.
  { intros ap w. unfold get_client_count, bind, ask, ret. cbn [fst].
    destruct (o_station_dump (oracle w) (step w)); cbn [fst]; [|lia].
    unfold count_stations. lia. }
  intros ap w Hnone. unfold get_client_count, bind, ask, ret. unfold reading in Hnone.
  now rewrite Hnone.
Qed.

(** *** The generated names *)

Lemma random_text_length chars n o k : String.length (random_text chars n o k) = n.
Proof.
  revert k. induction n as [|n IH]; intros k; [reflexivity|].
  cbn [random_text String.length]. now rewrite IH.
Qed.

Lemma get_some_in s : forall i c,
  String.get i s = Some c -> In c (list_ascii_of_string s).
Proof.
  induction s as [|a s IH]; intros i c H; [discriminate|].
  destruct i as [|i]; cbn [String.get] in H.
  - injection H as ->. now left.
  - right. now apply (IH i).
Qed.

Lemma get_within s : forall i, i < String.length s -> is_Some (String.get i s).
Proof.
  induction s as [|a s IH]; intros i Hi; cbn [String.length] in Hi; [lia|].
  destruct i as [|i]; cbn [String.get]; [now eexists|]. apply IH. lia.
Qed.

Lemma random_text_alphabet chars n o : forall k,
  chars <> "" ->
  Forall (fun c => In c (list_ascii_of_string chars))
         (list_ascii_of_string (random_text chars n o k)).
Proof.
  induction n as [|n IH]; intros k Hne; [constructor|].
  cbn [random_text list_ascii_of_string]. constructor; [|now apply IH].
  assert (Hlen : String.length chars <> 0) by (destruct chars; [contradiction | discriminate]).
  destruct (get_within chars (o_randbelow o k mod String.length chars)) as [c Hc].
  { now apply Nat.mod_upper_bound. }
  rewrite Hc. cbn [default]. exact (get_some_in _ _ _ Hc).
Qed.

Lemma generate_ssid_run ap w :
  fst (generate_ssid ap w)
  = ssid_prefix (cfg_heap w (APInstance.global_config ap))
    +:+ random_text (ascii_lowercase +:+ digits)
          (Z.to_nat (ssid_length (cfg_heap w (APInstance.global_config ap))))
          (oracle w) (step w).
Proof.
  unfold generate_ssid, the_global_config. rewrite bind_get. cbv beta zeta.
  unfold bind. rewrite random_string_run. reflexivity.
Qed.

Lemma generate_password_run ap w :
  fst (generate_password ap w)
  = random_text (ascii_letters +:+ digits)
      (Z.to_nat (password_length (cfg_heap w (APInstance.global_config ap))))
      (oracle w) (step w).
Proof.
  unfold generate_password, the_global_config. rewrite bind_get. cbv beta zeta.
  rewrite random_string_run. reflexivity.
Qed.

(** A generated SSID is the configured prefix followed by exactly
    [ssid_length] characters (none when the length is not positive), each a
    lowercase letter or a digit. *)
Theorem generate_ssid_shape ap w :
  exists random_part,
    fst (generate_ssid ap w)
    = ssid_prefix (cfg_heap w (APInstance.global_config ap)) +:+ random_part /\
    String.length random_part
    = Z.to_nat (ssid_length (cfg_heap w (APInstance.global_config ap))) /\
    Forall (fun c => In c (list_ascii_of_string "abcdefghijklmnopqrstuvwxyz0123456789"))
           (list_ascii_of_string random_part).
Proof.
  eexists. split; [apply generate_ssid_run|].
  split; [apply random_text_length|].
  now apply (random_text_alphabet (ascii_lowercase +:+ digits)).
Qed.

(** A generated password has exactly [password_length] characters, each a
    letter or a digit. *)
Theorem generate_password_shape ap w :
  String.length (fst (generate_password ap w))
  = Z.to_nat (password_length (cfg_heap w (APInstance.global_config ap))) /\
  Forall (fun c => In c (list_ascii_of_string
            "abcdefghijklmnopqrstuvwxyzABCDEFGHIJKLMNOPQRSTUVWXYZ0123456789"))
         (list_ascii_of_string (fst (generate_password ap w))).
Proof.
  rewrite generate_password_run.
  split; [apply random_text_length|].
  now apply (random_text_alphabet (ascii_letters +:+ digits)).
Qed.


(** *** The outcome of an attempt *)



Lemma lock_events_app evs1 evs2 :
  lock_events (evs1 ++ evs2) = (lock_events evs1 ++ lock_events evs2)%list.
Proof. apply flat_map_app. Qed.

Lemma lock_events_qr ap ssid pw qr : lock_events (qr_events ap ssid pw qr) = [].
Proof.
  unfold qr_events. destruct qr; [|reflexivity].
  now destruct (String.eqb (APInstance.interface ap) "wlan0").
Qed.

Lemma lock_events_gate ap gate msg : gate_failure ap gate msg -> lock_events gate = [].
Proof.
  intros [ssid pw | ssid pw qr service]; [reflexivity|].
  change (?e :: ?l ++ ?k)%list with ([e] ++ l ++ k)%list.
  now rewrite !lock_events_app, lock_events_qr.
Qed.

Lemma restart_done_qr ap ssid pw qr :
  existsb is_restart_done (qr_events ap ssid pw qr) = false.
Proof.
  unfold qr_events. destruct qr; [|reflexivity].
  now destruct (String.eqb (APInstance.interface ap) "wlan0").
Qed.

Lemma restart_done_gate ap gate msg :
  gate_failure ap gate msg -> existsb is_restart_done gate = false.
Proof.
  intros [ssid pw | ssid pw qr service]; [reflexivity|].
  change (?e :: ?l ++ ?k)%list with ([e] ++ l ++ k)%list.
  now rewrite !existsb_app, restart_done_qr.
Qed.

(** Every attempt, whatever its outcome, takes the engine's lock first,
    releases it last and does not touch a lock in between; it returns
    [True] exactly when hostapd was restarted successfully, so that a
    failed QR generation alone never fails a rotation. *)
Theorem rotate_credentials_lock_and_result reason ap w :
  lock_events (new_events w (snd (rotate_credentials reason ap w)))
  = [EvAcquire (APInstance.rotation_lock ap); EvRelease (APInstance.rotation_lock ap)] /\
  head (new_events w (snd (rotate_credentials reason ap w)))
  = Some (EvAcquire (APInstance.rotation_lock ap)) /\
  last (new_events w (snd (rotate_credentials reason ap w)))
  = Some (EvRelease (APInstance.rotation_lock ap)) /\
  fst (fst (rotate_credentials reason ap w))
  = existsb is_restart_done (new_events w (snd (rotate_credentials reason ap w))).
Proof.
  destruct (rotate_credentials reason ap w) as [[ok ap'] w'] eqn:E.
  cbn [fst snd]. destruct ok.
  - destruct (rotate_credentials_true _ _ _ _ _ E) as (ssid & pw & now & qr & service & H).
    cbv zeta in H.
    destruct H as (_ & _ & _ & _ & _ & _ & _ & _ & _ & _ & _ & T & _).
    rewrite (new_events_app _ _ _ T).
    split; [now rewrite !lock_events_app, lock_events_qr|].
    split; [reflexivity|].
    split.
    { rewrite !app_assoc.
      change [EvRestart service true; EvSaveCredentials (APInstance.interface ap);
              EvPublish (APInstance.interface ap) "ready" None;
              EvRelease (APInstance.rotation_lock ap)]
        with ([EvRestart service true; EvSaveCredentials (APInstance.interface ap);
               EvPublish (APInstance.interface ap) "ready" None]
              ++ [EvRelease (APInstance.rotation_lock ap)])%list.
      rewrite app_assoc. apply last_snoc. }
    rewrite !existsb_app, restart_done_qr. reflexivity.
  - destruct (rotate_credentials_false _ _ _ _ _ E)
      as (_ & _ & gate & msg & st & Hg & T & _).
    rewrite (new_events_app _ _ _ T).
    split; [now rewrite !lock_events_app, (lock_events_gate _ _ _ Hg)|].
    split; [reflexivity|].
    split.
    { change [EvPublish (APInstance.interface ap) "error" (Some msg);
              EvRelease (APInstance.rotation_lock ap)]
        with ([EvPublish (APInstance.interface ap) "error" (Some msg)]
              ++ [EvRelease (APInstance.rotation_lock ap)])%list.
      rewrite !app_assoc. apply last_snoc. }
    rewrite !existsb_app, (restart_done_gate _ _ _ Hg). reflexivity.
Qed.


(** *** Manual triggers and the cooldown *)

Lemma py_lt_true x y : py_lt x y = true <-> (x < y)%Q.
Proof.
  unfold py_lt. rewrite negb_true_iff. split.
  - intros H. apply Qnot_le_lt. intros Hle. apply Qle_bool_iff in Hle. congruence.
  - intros H. destruct (Qle_bool y x) eqn:E; [|reflexivity].
    apply Qle_bool_iff in E. exfalso. apply (Qlt_not_le _ _ H E).
Qed.

(** After an accepted manual trigger, a new marker found before the
    cooldown has elapsed since that trigger is rejected, and the rejection
    does not restart the cooldown: the engine keeps the time of the
    accepted trigger. The rejected marker is consumed when [unlink] removes
    it, and stays when [unlink] raises. *)
Theorem check_trigger_file_cooldown ap w w2 :
  APInstance.interface ap ∈ trigger_files w ->
  fst (fst (check_trigger_file ap w)) = true ->
  APInstance.interface ap ∈ trigger_files w2 ->
  (checked_at w2 - checked_at w
   < manual_rotation_cooldown_sec (cfg_heap w2 (APInstance.global_config ap)))%Q ->
  fst (fst (check_trigger_file (snd (fst (check_trigger_file ap w))) w2)) = false /\
  snd (fst (check_trigger_file (snd (fst (check_trigger_file ap w))) w2))
  = snd (fst (check_trigger_file ap w)) /\
  APInstance.last_manual_rotation (snd (fst (check_trigger_file ap w))) = checked_at w /\
  (reading o_unlink_ok w2 = true ->
   APInstance.interface ap
   ∉ trigger_files (snd (check_trigger_file (snd (fst (check_trigger_file ap w))) w2))) /\
  (reading o_unlink_ok w2 = false ->
   trigger_files (snd (check_trigger_file (snd (fst (check_trigger_file ap w))) w2))
   = trigger_files w2).
Proof.
  intros Hin Hok Hin2 Hsoon.
  destruct (reading o_unlink_ok w) eqn:Hu;
    [|rewrite (check_trigger_file_stuck ap w Hin Hu) in Hok; discriminate Hok].
  rewrite (check_trigger_file_present ap w Hin Hu) in *. cbv zeta in *.
  destruct (py_lt (checked_at w - APInstance.last_manual_rotation ap)
              (manual_rotation_cooldown_sec (cfg_heap w (APInstance.global_config ap))));
    [discriminate Hok|]. clear Hok. cbn [fst snd].
  destruct (reading o_unlink_ok w2) eqn:Hu2.
  - rewrite (check_trigger_file_present
               (APInstance.set_last_manual_rotation (checked_at w) ap) w2 Hin2 Hu2).
    cbv zeta.
    cbn [APInstance.last_manual_rotation APInstance.global_config APInstance.interface
         APInstance.set_last_manual_rotation].
    apply py_lt_true in Hsoon. rewrite Hsoon. cbn [fst snd].
    split; [reflexivity|]. split; [reflexivity|]. split; [reflexivity|].
    split; [intros _|discriminate].
    cbn [trigger_files emitted asked set_step set_trace set_trigger_files].
    intros [_ Hn]%elem_of_difference. apply Hn. now apply elem_of_singleton.
  - rewrite (check_trigger_file_stuck
               (APInstance.set_last_manual_rotation (checked_at w) ap) w2 Hin2 Hu2).
    cbn [fst snd APInstance.last_manual_rotation APInstance.set_last_manual_rotation].
    split; [reflexivity|]. split; [reflexivity|]. split; [reflexivity|].
    split; [discriminate|]. intros _. reflexivity.
Qed.

(** A marker accepted at 1001 s and another one found at 1011 s, the
    cooldown being 30 s. *)
Lemma check_trigger_file_cooldown_witness :
  fst (fst (check_trigger_file
              (snd (fst (check_trigger_file Scenario.wlan0_serving Scenario.first_request)))
              Scenario.second_request)) = false.
Proof.
  refine (proj1 (check_trigger_file_cooldown Scenario.wlan0_serving
                   Scenario.first_request Scenario.second_request _ _ _ _)).
  - cbn. set_solver.
  - vm_compute. reflexivity.
  - cbn. set_solver.
  - vm_compute. reflexivity.
Defined.

(** *** What the startup loop logs *)

Lemma rotate_credentials_log reason ap w :
  rotations_log (snd (rotate_credentials reason ap w)) = rotations_log w /\
  cfg_heap (snd (rotate_credentials reason ap w)) = cfg_heap w.
Proof.
  destruct (rotate_credentials reason ap w) as [[ok ap'] w'] eqn:E.
  cbn [fst snd]. destruct ok.
  - destruct (rotate_credentials_true _ _ _ _ _ E) as (ssid & pw & now & qr & service & H).
    cbv zeta in H.
    destruct H as (_ & _ & _ & _ & Hc & _ & _ & Hr & _). now split.
  - destruct (rotate_credentials_false _ _ _ _ _ E) as (_ & F & _).
    split; [apply (same_rotations_log _ _ _ F) | apply (same_cfg_heap _ _ _ F)].
Qed.

Lemma rotate_credentials_reason reason ap w :
  fst (fst (rotate_credentials reason ap w)) = true ->
  exists c,
    creds_of (snd (fst (rotate_credentials reason ap w)))
      (snd (rotate_credentials reason ap w)) = Some c /\
    Credentials.interface c = APInstance.interface ap /\
    Credentials.rotation_reason c = reason /\
    Credentials.expires_at c
    = float_add (Credentials.created_at c)
        (rotation_interval_sec (cfg_heap w (APInstance.global_config ap))).
Proof.
  destruct (rotate_credentials reason ap w) as [[ok ap'] w'] eqn:E.
  cbn [fst snd]. intros ->.
  destruct (rotate_credentials_true _ _ _ _ _ E) as (ssid & pw & now & qr & service & H).
  cbv zeta in H. destruct H as (-> & Hh & _).
  eexists. unfold creds_of. cbn [APInstance.current_creds APInstance.set_current_creds option_map].
  rewrite Hh, Nat.eqb_refl. repeat split.
Qed.

(** The startup loop logs a rotation only when the first attempt succeeds:
    the history then ends with an entry for the interface with reason
    "startup" (the history file being absent or readable, the retention
    count at least one); when the first attempt fails the history file is
    left as it was, whether the retry succeeds or not, so that a rotation
    with reason "startup_retry" never reaches the history. *)
Theorem startup_body_logging d name ap w :
  (fst (fst (rotate_credentials "startup" ap w)) = true ->
   (1 <= log_retention_count (cfg_heap w (APRotationDaemon.config d)))%Z ->
   rotations_log w <> Some Truncated ->
   exists e,
     last (history (snd (startup_body d name ap w))) = Some e /\
     Entry.interface e = APInstance.interface ap /\
     Entry.reason e = "startup") /\
  (fst (fst (rotate_credentials "startup" ap w)) = false ->
   rotations_log (snd (startup_body d name ap w)) = rotations_log w).
Proof.
  split.
  - intros Hok Hn Hfile.
    destruct (rotate_credentials_reason "startup" ap w Hok) as (c & Hc & Hi & Hr & _).
    destruct (rotate_credentials_attempt "startup" ap w) as (_ & _ & _ & _ & _ & _ & Hnew).
    specialize (Hnew Hok).
    destruct (rotate_credentials_log "startup" ap w) as [Hlog Hcfg].
    destruct (rotate_credentials "startup" ap w) as [[ok1 ap1] w1] eqn:E1.
    cbn [fst snd] in *. subst ok1.
    rewrite (startup_body_first d name ap w ap1 w1 E1). cbn [snd].
    rewrite Hnew. unfold creds_of in Hc. rewrite Hnew in Hc. cbn [option_map] in Hc.
    injection Hc as Hc.
    rewrite log_rotation_keeps_last; [|now rewrite Hcfg | now rewrite Hlog].
    eexists. split; [apply keep_last_snoc; rewrite Hcfg; lia|].
    rewrite Hc. cbn [entry_of Entry.interface Entry.reason]. now split.
  - intros Hfail.
    destruct (rotate_credentials_attempt "startup" ap w) as (_ & _ & _ & _ & _ & Hsame & _).
    specialize (Hsame Hfail).
    destruct (rotate_credentials_log "startup" ap w) as [Hlog _].
    destruct (rotate_credentials "startup" ap w) as [[ok1 ap1] w1] eqn:E1.
    cbn [fst snd] in *. subst ok1 ap1.
    remember (emitted [EvSleep 5]
                (emitted [EvError "Initial rotation failed, retrying..."] w1))
      as w1' eqn:Hw1'.
    assert (Hlog' : rotations_log w1' = rotations_log w) by now rewrite Hw1'.
    destruct (rotate_credentials_log "startup_retry" ap w1') as [Hlog2 _].
    destruct (rotate_credentials "startup_retry" ap w1') as [[ok2 ap2] w2] eqn:E2.
    cbn [fst snd] in *. rewrite Hw1' in E2.
    rewrite (startup_body_retry d name ap w ap w1 ok2 ap2 w2 E1 E2). cbn [snd].
    destruct ok2; [congruence|].
    change (rotations_log (published ?s ?e ?a (emitted ?evs ?x))) with (rotations_log x).
    congruence.
Qed.

(** *** Reload, then rotate *)

(** A reload takes effect at the next rotation: for every engine of the
    reloaded supervisor, the credentials of its next successful rotation
    expire one rotation interval of the newly loaded configuration after
    their creation (the float sum of the two). *)
Theorem reload_then_rotate d w name ap reason :
  In (name, ap) (APRotationDaemon.ap_instances (fst (_handle_reload d w))) ->
  fst (fst (rotate_credentials reason ap (snd (_handle_reload d w)))) = true ->
  exists c,
    creds_of (snd (fst (rotate_credentials reason ap (snd (_handle_reload d w)))))
      (snd (rotate_credentials reason ap (snd (_handle_reload d w)))) = Some c /\
    Credentials.expires_at c
    = float_add (Credentials.created_at c) (rotation_interval_sec (loaded_config w)).
Proof.
  rewrite handle_reload_run. cbn [fst snd APRotationDaemon.ap_instances set_ap_instances].
  intros Hin Hok.
  apply in_map_iff in Hin as ([name0 ap0] & Heq & _). cbn [fst snd] in Heq.
  injection Heq as _ <-.
  destruct (rotate_credentials_reason reason _ _ Hok) as (c & Hc & _ & _ & He).
  exists c. split; [exact Hc|]. rewrite He.
  cbn [APInstance.global_config APInstance.set_global_config].
  unfold reloaded. cbn [cfg_heap alloc_cfg cfg_next set_interfaces asked set_step].
  now rewrite Nat.eqb_refl.
Qed.

(** The interval is reloaded as 60 s, then wlan0 rotates. *)
Lemma reload_then_rotate_witness :
  exists c,
    creds_of
      (snd (fst (rotate_credentials "initial"
                   (APInstance.set_global_config 1 Scenario.wlan0)
                   (snd (_handle_reload Scenario.supervisor
                           (Scenario.fresh_world DEFAULT_CONFIG Scenario.reconfigured))))))
      (snd (rotate_credentials "initial"
              (APInstance.set_global_config 1 Scenario.wlan0)
              (snd (_handle_reload Scenario.supervisor
                      (Scenario.fresh_world DEFAULT_CONFIG Scenario.reconfigured)))))
    = Some c /\
    Credentials.expires_at c
    = float_add (Credentials.created_at c)
        (rotation_interval_sec
           (loaded_config (Scenario.fresh_world DEFAULT_CONFIG Scenario.reconfigured))).
Proof.
  refine (reload_then_rotate Scenario.supervisor
            (Scenario.fresh_world DEFAULT_CONFIG Scenario.reconfigured)
            "wlan0" (APInstance.set_global_config 1 Scenario.wlan0)
            "initial" _ _).
  - vm_compute. left. reflexivity.
  - vm_compute. reflexivity.
Defined.


(** *** Attempts in a tick *)

Lemma should_rotate_trace ap w : trace (snd (should_rotate ap w)) = trace w.
Proof.
  destruct (APInstance.current_creds ap) as [r|] eqn:Hr.
  - now rewrite (should_rotate_some ap r w Hr).
  - unfold should_rotate. now rewrite Hr.
Qed.

(** What follows a rotation in a tick: the history entry or the warning. *)
Lemma tick_body_tail d (ok : bool) ap2 (fallback : M unit) w2 evs0 :
  (forall w, exists evs, trace (snd (fallback w)) = (trace w ++ evs)%list /\ attempts evs = []) ->
  trace w2 = evs0 ->
  exists evs,
    bind (if ok then log_rotation d (APInstance.current_creds ap2) else fallback)
         (fun _ => ret ap2) w2
    = (ap2, snd (bind (if ok then log_rotation d (APInstance.current_creds ap2) else fallback)
                      (fun _ => ret ap2) w2)) /\
    trace (snd (bind (if ok then log_rotation d (APInstance.current_creds ap2) else fallback)
                     (fun _ => ret ap2) w2))
    = (evs0 ++ evs)%list /\
    attempts evs = [].
Proof.
  intros Hfallback <-. destruct ok.
  - destruct (log_rotation_quiet d (APInstance.current_creds ap2) w2) as (evs & T & A & _).
    exists evs. unfold bind.
    destruct (log_rotation d (APInstance.current_creds ap2) w2) as [[] w3].
    cbn [fst snd ret] in *. now split.
  - destruct (Hfallback w2) as (evs & T & A).
    exists evs. unfold bind. destruct (fallback w2) as [[] w3].
    cbn [fst snd ret] in *. now split.
Qed.

Lemma ret_quiet (w : World) :
  exists evs, trace (snd (ret tt w)) = (trace w ++ evs)%list /\ attempts evs = [].
Proof. exists []. now rewrite app_nil_r. Qed.

Lemma emit_quiet msg (w : World) :
  exists evs, trace (snd (emit (EvWarning msg) w)) = (trace w ++ evs)%list /\ attempts evs = [].
Proof. now exists [EvWarning msg]. Qed.

Lemma rotate_credentials_markers reason ap w :
  trigger_files (snd (rotate_credentials reason ap w)) = trigger_files w.
Proof.
  destruct (rotate_credentials reason ap w) as [[ok ap'] w'] eqn:E.
  cbn [snd]. destruct ok.
  - destruct (rotate_credentials_true _ _ _ _ _ E) as (ssid & pw & now & qr & service & H).
    cbv zeta in H. now destruct H as (_ & _ & _ & _ & _ & _ & _ & _ & H & _).
  - destruct (rotate_credentials_false _ _ _ _ _ E) as (_ & F & _).
    exact (same_trigger_files _ _ _ F).
Qed.

Lemma log_rotation_markers d creds w :
  trigger_files (snd (log_rotation d creds w)) = trigger_files w.
Proof.
  unfold log_rotation. rewrite bind_get. cbv beta.
  destruct (rotations_log w) as [[|l]|]; [reflexivity| |].
  - rewrite bind_ask. cbv beta. destruct creds as [r|]; [|reflexivity].
    rewrite bind_get. cbv beta. rewrite bind_get. cbv beta zeta.
    rewrite bind_modify. reflexivity.
  - rewrite bind_ask. cbv beta. destruct creds as [r|]; [|reflexivity].
    rewrite bind_get. cbv beta. rewrite bind_get. cbv beta zeta.
    rewrite bind_modify. reflexivity.
Qed.

(** [should_rotate] leaves the markers alone and never gives the reason of
    a manual request. *)
Lemma should_rotate_policy ap w :
  trigger_files (snd (should_rotate ap w)) = trigger_files w /\
  snd (fst (should_rotate ap w)) <> "manual_trigger".
Proof.
  destruct (APInstance.current_creds ap) as [r|] eqn:Hr.
  - rewrite (should_rotate_some ap r w Hr). cbv zeta. cbn [fst snd].
    split; [reflexivity|].
    destruct (py_ge _ _); [discriminate|].
    destruct (_ && _); cbn [fst snd]; discriminate.
  - unfold should_rotate. rewrite Hr. split; [reflexivity | discriminate].
Qed.

(** A tick in which [check_trigger_file] declines: the rotation policy
    decides. *)
Lemma tick_body_declined d name ap w w0 pre :
  check_trigger_file ap w = ((false, ap), w0) ->
  trace w0 = (trace w ++ pre)%list ->
  attempts pre = [] ->
  exists evs,
    trace (snd (tick_body d name ap w)) = (trace w ++ evs)%list /\
    APInstance.interface (fst (tick_body d name ap w)) = APInstance.interface ap /\
    (attempts evs = [] \/
     attempts evs = [(APInstance.interface ap, snd (fst (should_rotate ap w0)))]) /\
    trigger_files (snd (tick_body d name ap w)) = trigger_files w0.
Proof.
  intros Hcheck Tpre Apre. unfold tick_body.
  rewrite (bind_run _ _ _ _ _ Hcheck).
  cbv beta zeta. rewrite !fst_pair, !snd_pair. cbv iota.
  pose proof (should_rotate_trace ap w0) as T0.
  pose proof (proj1 (should_rotate_policy ap w0)) as M0.
  destruct (should_rotate ap w0) as [[go reason] w1] eqn:E0. cbn [fst snd] in T0, M0 |- *.
  rewrite (bind_run _ _ _ _ _ E0). cbv beta. rewrite fst_pair, snd_pair.
  destruct go; cbv iota.
  - destruct (rotate_credentials_attempt reason ap w1) as (evs1 & T1 & A1 & I1 & _).
    pose proof (rotate_credentials_markers reason ap w1) as M1.
    destruct (rotate_credentials reason ap w1) as [[ok ap2] w2] eqn:E1.
    cbn [fst snd] in T1, I1, M1.
    rewrite (bind_run _ _ _ _ _ E1). cbv beta zeta. rewrite !fst_pair, !snd_pair.
    destruct (tick_body_tail d ok ap2 (emit (EvWarning "Rotation failed, will retry")) w2
                _ (emit_quiet _) T1) as (evs2 & Hrun & T2 & A2).
    assert (M2 : trigger_files
                   (snd (bind (if ok then log_rotation d (APInstance.current_creds ap2)
                               else emit (EvWarning "Rotation failed, will retry"))
                              (fun _ => ret ap2) w2)) = trigger_files w2).
    { unfold bind. destruct ok.
      - pose proof (log_rotation_markers d (APInstance.current_creds ap2) w2) as M.
        destruct (log_rotation d (APInstance.current_creds ap2) w2) as [[] w3].
        exact M.
      - reflexivity. }
    rewrite Hrun in M2 |- *. cbn [fst snd] in M2 |- *. exists (pre ++ evs1 ++ evs2)%list.
    split; [now rewrite T2, T0, Tpre, <- !app_assoc|].
    split; [exact I1|].
    split; [right; now rewrite !attempts_app, Apre, A1, A2|].
    now rewrite M2, M1, M0.
  - rewrite bind_update_status. unfold ret. cbn [fst snd].
    exists (pre ++ [EvPublish (APInstance.interface ap) "ready" None])%list.
    split; [now rewrite trace_published, T0, Tpre, <- app_assoc|].
    split; [reflexivity|].
    split; [left; now rewrite attempts_app, Apre|].
    rewrite (same_trigger_files _ _ _ (frame_published _ _ _ _)). exact M0.
Qed.

(** A tick on an engine whose marker is there and cannot be unlinked: the
    marker stays and no manual rotation is attempted. *)
Lemma tick_body_stuck d name ap w :
  APInstance.interface ap ∈ trigger_files w ->
  reading o_unlink_ok w = false ->
  APInstance.interface ap ∈ trigger_files (snd (tick_body d name ap w)) /\
  ~ In (APInstance.interface ap, "manual_trigger")
       (attempts (new_events w (snd (tick_body d name ap w)))).
Proof.
  intros Hin Hu.
  destruct (tick_body_declined d name ap w _ [EvError "Error checking trigger"]
              (check_trigger_file_stuck ap w Hin Hu) eq_refl eq_refl)
    as (evs & T & _ & A & M).
  split; [rewrite M; exact Hin|].
  rewrite (new_events_app _ _ _ T).
  destruct A as [-> | ->]; [intros []|].
  intros [Heq|[]]. injection Heq as Heq.
  exact (proj2 (should_rotate_policy ap _) Heq).
Qed.

(** A tick on an engine whose marker is there and can be unlinked, the
    cooldown over. *)
Lemma tick_body_accepted d name ap w :
  APInstance.interface ap ∈ trigger_files w ->
  reading o_unlink_ok w = true ->
  py_lt (checked_at w - APInstance.last_manual_rotation ap)
    (manual_rotation_cooldown_sec (cfg_heap w (APInstance.global_config ap))) = false ->
  exists evs,
    trace (snd (tick_body d name ap w)) = (trace w ++ evs)%list /\
    APInstance.interface (fst (tick_body d name ap w)) = APInstance.interface ap /\
    attempts evs = [(APInstance.interface ap, "manual_trigger")].
Proof.
  intros Hin Hu Hover.
  pose proof (check_trigger_file_present ap w Hin Hu) as Hcheck. cbv zeta in Hcheck.
  rewrite Hover in Hcheck.
  unfold tick_body. rewrite (bind_run _ _ _ _ _ Hcheck).
  cbv beta zeta. rewrite !fst_pair, !snd_pair. cbv iota.
  match type of Hcheck with _ = (_, ?w0) =>
    assert (T0 : trace w0 = (trace w ++ [EvUnlinkTrigger (APInstance.interface ap)])%list);
    [rewrite trace_asked, trace_emitted; reflexivity|];
    set (w0' := w0) in *; clearbody w0'
  end.
  clear Hcheck.
  set (ap1 := APInstance.set_last_manual_rotation (checked_at w) ap).
  assert (I0 : APInstance.interface ap1 = APInstance.interface ap) by reflexivity.
  clearbody ap1.
  destruct (rotate_credentials_attempt "manual_trigger" ap1 w0') as (evs1 & T1 & A1 & I1 & _).
  destruct (rotate_credentials "manual_trigger" ap1 w0') as [[ok ap2] w2] eqn:E1.
  cbn [fst snd] in T1, I1.
  rewrite (bind_run _ _ _ _ _ E1). cbv beta zeta. rewrite !fst_pair, !snd_pair.
  destruct (tick_body_tail d ok ap2 (ret tt) w2 _ ret_quiet T1) as (evs2 & Hrun & T2 & A2).
  rewrite Hrun. cbn [fst snd].
  exists ([EvUnlinkTrigger (APInstance.interface ap)] ++ evs1 ++ evs2)%list.
  split; [now rewrite T2, T0, <- !app_assoc|].
  split; [now rewrite I1|].
  now rewrite !attempts_app, A1, A2, I0.
Qed.

(** In a tick an engine makes at most one rotation attempt, on its own
    interface. *)
Lemma tick_body_events d name ap w :
  exists evs,
    trace (snd (tick_body d name ap w)) = (trace w ++ evs)%list /\
    APInstance.interface (fst (tick_body d name ap w)) = APInstance.interface ap /\
    (attempts evs = [] \/ exists reason, attempts evs = [(APInstance.interface ap, reason)]).
Proof.
  destruct (decide (APInstance.interface ap ∈ trigger_files w)) as [Hin|Hout].
  2:{ destruct (tick_body_declined d name ap w w [] (check_trigger_file_absent ap w Hout))
        as (evs & T & I & A & _); [now rewrite app_nil_r | reflexivity |].
      exists evs. split; [exact T|]. split; [exact I|].
      destruct A as [A|A]; [now left | right; eexists; exact A]. }
  destruct (reading o_unlink_ok w) eqn:Hu.
  2:{ destruct (tick_body_declined d name ap w _ [EvError "Error checking trigger"]
                    (check_trigger_file_stuck ap w Hin Hu) eq_refl eq_refl)
        as (evs & T & I & A & _).
      exists evs. split; [exact T|]. split; [exact I|].
      destruct A as [A|A]; [now left | right; eexists; exact A]. }
  destruct (py_lt (checked_at w - APInstance.last_manual_rotation ap)
              (manual_rotation_cooldown_sec (cfg_heap w (APInstance.global_config ap))))
    eqn:Hcool.
  - pose proof (check_trigger_file_present ap w Hin Hu) as Hcheck. cbv zeta in Hcheck.
    rewrite Hcool in Hcheck.
    destruct (tick_body_declined d name ap w _
                [EvUnlinkTrigger (APInstance.interface ap);
                 EvWarning "Manual rotation cooldown"] Hcheck)
      as (evs & T & I & A & _); [|reflexivity|].
    { rewrite !trace_emitted, trace_asked, trace_emitted. cbn [trace set_trigger_files].
      rewrite trace_asked. now rewrite <- app_assoc. }
    exists evs. split; [exact T|]. split; [exact I|].
    destruct A as [A|A]; [now left | right; eexists; exact A].
  - destruct (tick_body_accepted d name ap w Hin Hu Hcool) as (evs & T & I & A).
    exists evs. split; [exact T|]. split; [exact I|]. right. eexists. exact A.
Qed.

(** A manual trigger has priority: when the marker is there, [unlink]
    removes it and the cooldown is over, the tick makes exactly one
    rotation attempt, with reason "manual_trigger", whatever the rotation
    conditions are (the credentials may be far from their expiry, or
    expired). When [unlink] raises, the request is lost for this tick: the
    marker stays, and the tick makes the attempt that the rotation policy
    asks for, if any, which is never a "manual_trigger". *)
Theorem tick_body_manual_trigger d name ap w :
  APInstance.interface ap ∈ trigger_files w ->
  (reading o_unlink_ok w = true ->
   (manual_rotation_cooldown_sec (cfg_heap w (APInstance.global_config ap))
    <= checked_at w - APInstance.last_manual_rotation ap)%Q ->
   attempts (new_events w (snd (tick_body d name ap w)))
   = [(APInstance.interface ap, "manual_trigger")]) /\
  (reading o_unlink_ok w = false ->
   APInstance.interface ap ∈ trigger_files (snd (tick_body d name ap w)) /\
   ~ In (APInstance.interface ap, "manual_trigger")
        (attempts (new_events w (snd (tick_body d name ap w))))).
Proof.
  intros Hin. split.
  - intros Hu Hover. apply py_lt_false in Hover.
    destruct (tick_body_accepted d name ap w Hin Hu Hover) as (evs & T & _ & A).
    rewrite (new_events_app _ _ _ T). exact A.
  - intros Hu. apply (tick_body_stuck d name ap w Hin Hu).
Qed.

(** A marker is found while the credentials are still valid for 150 s. *)
Lemma tick_body_manual_trigger_witness :
  attempts (new_events (Scenario.serving_world DEFAULT_CONFIG Scenario.idle {["wlan0"]})
              (snd (tick_body Scenario.supervisor "wlan0" Scenario.wlan0_serving
                      (Scenario.serving_world DEFAULT_CONFIG Scenario.idle {["wlan0"]}))))
  = [("wlan0", "manual_trigger")].
Proof.
  refine (proj1 (tick_body_manual_trigger Scenario.supervisor "wlan0" Scenario.wlan0_serving
            (Scenario.serving_world DEFAULT_CONFIG Scenario.idle {["wlan0"]}) _) _ _).
  - apply (bool_decide_unpack ("wlan0" ∈ ({["wlan0"]} : gset string))).
    vm_compute. exact I.
  - reflexivity.
  - vm_compute. discriminate.
Defined.

Lemma attempts_on_at_most_one i evs :
  attempts evs = [] \/ (exists reason, attempts evs = [(i, reason)]) ->
  (forall j, j <> i -> attempts_on j evs = []) /\
  (forall j, length (attempts_on j evs) <= 1).
Proof.
  intros [A | [reason A]].
  - split; intros j; [intros _|]; rewrite (attempts_on_none j _ A); [reflexivity|].
    cbn [length]. lia.
  - split.
    + intros j Hj. exact (attempts_on_other _ _ _ _ A Hj).
    + intros j. rewrite attempts_on_attempts, A. cbn [flat_map fst snd].
      destruct (String.eqb i j); cbn [length app]; lia.
Qed.

(** The loop of a tick over a list of engines with distinct keys, each
    registered under its interface name. *)
Lemma for_each_tick d items : forall w,
  NoDup (map fst items) ->
  Forall (fun item => APInstance.interface (snd item) = fst item) items ->
  exists evs,
    trace (snd (for_each (tick_body d) items w)) = (trace w ++ evs)%list /\
    map fst (fst (for_each (tick_body d) items w)) = map fst items /\
    (forall j, j ∉ map fst items -> attempts_on j evs = []) /\
    (forall j, length (attempts_on j evs) <= 1).
Proof.
  induction items as [|[k ap] rest IH]; intros w Hkeys Hnames.
  - exists []. cbn [for_each ret fst snd]. rewrite app_nil_r.
    split; [reflexivity|]. split; [reflexivity|]. split; [now intros|].
    intros j. cbn [attempts_on flat_map length]. lia.
  - cbn [map fst] in Hkeys. apply NoDup_cons in Hkeys as [Hk Hkeys].
    apply Forall_cons in Hnames as [Hname Hnames]. cbn [fst snd] in Hname.
    rewrite for_each_cons. cbn [fst snd map].
    destruct (tick_body_events d k ap w) as (evs1 & T1 & _ & A1).
    rewrite Hname in A1. apply attempts_on_at_most_one in A1 as [Off1 One1].
    set (w1 := snd (tick_body d k ap w)) in *. clearbody w1.
    destruct (IH w1 Hkeys Hnames) as (evs2 & T2 & K2 & Off2 & One2).
    exists (evs1 ++ evs2)%list.
    split; [now rewrite T2, T1, <- app_assoc|].
    split; [now rewrite K2|].
    split.
    + intros j Hj. apply not_elem_of_cons in Hj as [Hjk Hj].
      now rewrite attempts_on_app, (Off1 j Hjk), (Off2 j Hj).
    + intros j. rewrite attempts_on_app, length_app.
      destruct (decide (j = k)) as [->|Hjk].
      * rewrite (Off2 k Hk). cbn [length]. specialize (One1 k). lia.
      * rewrite (Off1 j Hjk). cbn [length]. specialize (One2 j). lia.
Qed.

(** In one iteration of the main loop, with the engines registered under
    their distinct interface names, every interface sees at most one
    rotation attempt and an interface without engine none; the engine map
    keeps its keys, and the iteration ends with the sleep of one second. *)
Theorem tick_one_attempt_per_interface d w :
  NoDup (map fst (APRotationDaemon.ap_instances d)) ->
  Forall (fun item => APInstance.interface (snd item) = fst item)
    (APRotationDaemon.ap_instances d) ->
  (forall j, length (attempts_on j (new_events w (snd (tick d w)))) <= 1) /\
  (forall j, j ∉ map fst (APRotationDaemon.ap_instances d) ->
             attempts_on j (new_events w (snd (tick d w))) = []) /\
  last (new_events w (snd (tick d w))) = Some (EvSleep 1) /\
  map fst (APRotationDaemon.ap_instances (fst (tick d w)))
  = map fst (APRotationDaemon.ap_instances d).
Proof.
  intros Hkeys Hnames.
  destruct (for_each_tick d _ w Hkeys Hnames) as (evs & T & K & Off & One).
  unfold tick.
  rewrite (bind_run _ _ _ _ _ (pair_eta (for_each (tick_body d)
                                           (APRotationDaemon.ap_instances d) w))).
  cbv beta. unfold time_sleep. rewrite bind_emit. cbv beta. unfold ret.
  cbn [fst snd APRotationDaemon.ap_instances set_ap_instances].
  set (w1 := snd (for_each (tick_body d) (APRotationDaemon.ap_instances d) w)) in *.
  clearbody w1.
  assert (T' : trace (emitted [EvSleep 1] w1) = (trace w ++ evs ++ [EvSleep 1])%list).
  { now rewrite trace_emitted, T, <- app_assoc. }
  rewrite (new_events_app _ _ _ T').
  split.
  { intros j. rewrite attempts_on_app, length_app.
    change (attempts_on j [EvSleep 1]) with (@nil string).
    cbn [length]. specialize (One j). lia. }
  split.
  { intros j Hj. now rewrite attempts_on_app, (Off j Hj). }
  split; [apply last_snoc | exact K].
Qed.

(** A tick of the dual supervisor on freshly constructed engines. *)
Lemma tick_one_attempt_per_interface_witness :
  length (attempts_on "wlan1"
            (new_events (Scenario.fresh_world DEFAULT_CONFIG Scenario.calm)
               (snd (tick Scenario.dual_supervisor
                       (Scenario.fresh_world DEFAULT_CONFIG Scenario.calm))))) <= 1.
Proof.
  refine (proj1 (tick_one_attempt_per_interface Scenario.dual_supervisor
                   (Scenario.fresh_world DEFAULT_CONFIG Scenario.calm) _ _) "wlan1").
  - apply (bool_decide_unpack (NoDup ["wlan0"; "wlan1"])). vm_compute. exact I.
  - simpl. repeat constructor.
Defined.

(** *** Shutdown *)

(** A termination signal (SIGTERM or SIGINT) found pending at the top of
    the main loop ends the run there, whatever budget of iterations is left:
    no tick is made and nothing is written, so the status files keep the
    state they had (a "ready" stays published after the daemon is gone). *)
Theorem main_loop_shutdown fuel d w s :
  reading o_signal w = Some s ->
  s <> SIGHUP ->
  fst (main_loop (S fuel) d w) = set_running false d /\
  trace (snd (main_loop (S fuel) d w)) = trace w /\
  status_files (snd (main_loop (S fuel) d w)) = status_files w /\
  creds_files (snd (main_loop (S fuel) d w)) = creds_files w /\
  rotations_log (snd (main_loop (S fuel) d w)) = rotations_log w.
Proof.
  intros Hs Hterm. cbn [main_loop]. unfold deliver_signal.
  rewrite bind_bind, bind_ask. cbv beta. rewrite Hs.
  assert (Hd : (match s with
                | SIGHUP => _handle_reload d
                | _ => _handle_signal d
                end) = _handle_signal d) by (destruct s; [reflexivity | reflexivity | contradiction]).
  rewrite Hd. unfold _handle_signal. rewrite bind_ret. cbv beta.
  cbn [APRotationDaemon.running set_running]. now repeat split.
Qed.

(** SIGTERM is pending when the main loop starts. *)
Lemma main_loop_shutdown_witness :
  fst (main_loop 3 Scenario.supervisor
         (Scenario.fresh_world DEFAULT_CONFIG Scenario.terminated))
  = set_running false Scenario.supervisor.
Proof.
  refine (proj1 (main_loop_shutdown 2 Scenario.supervisor
                   (Scenario.fresh_world DEFAULT_CONFIG Scenario.terminated) SIGTERM _ _)).
  - reflexivity.
  - discriminate.
Defined.


(** *** The merge of the configuration file *)

(** What [_load_config] does to the per-interface settings and to the
    top-level keys. The per-interface dicts are shared with the defaults
    and updated in place, so the merge accumulates: without a file, or with
    a file without "interfaces", they are left as the previous load left
    them (not reset to the defaults); with unique interface names in the
    file, an interface that the file does not list keeps its settings and a
    listed one gets the file's keys over its previous ones. The top-level
    keys do not accumulate: in the dict that a load returns, each of the
    ten keys has the value that the file gives it and, when the file does
    not give it, the default, whatever the previous configuration held;
    without a file the dict holds the defaults. *)
Theorem load_config_merge w :
  ((reading o_config_file w = None \/
    exists fc, reading o_config_file w = Some fc /\ fc_interfaces fc = None) ->
   interfaces (snd (_load_config w)) = interfaces w) /\
  (forall fc items,
     reading o_config_file w = Some fc ->
     fc_interfaces fc = Some items ->
     NoDup (map fst items) ->
     (forall k, k ∉ map fst items ->
        interfaces (snd (_load_config w)) !! k = interfaces w !! k) /\
     (forall k c, In (k, c) items ->
        interfaces (snd (_load_config w)) !! k
        = Some (match interfaces w !! k with
                | Some old => iface_update old c
                | None => c
                end))) /\
  (forall fc,
     reading o_config_file w = Some fc ->
     let cfg := cfg_heap (snd (_load_config w)) (fst (_load_config w)) in
     rotation_interval_sec cfg
     = match fc_rotation_interval_sec fc with
       | Some v => v | None => rotation_interval_sec DEFAULT_CONFIG end /\
     client_threshold cfg
     = match fc_client_threshold fc with
       | Some v => v | None => client_threshold DEFAULT_CONFIG end /\
     min_time_after_clients_sec cfg
     = match fc_min_time_after_clients_sec fc with
       | Some v => v | None => min_time_after_clients_sec DEFAULT_CONFIG end /\
     ssid_prefix cfg
     = match fc_ssid_prefix fc with
       | Some v => v | None => ssid_prefix DEFAULT_CONFIG end /\
     ssid_length cfg
     = match fc_ssid_length fc with
       | Some v => v | None => ssid_length DEFAULT_CONFIG end /\
     password_length cfg
     = match fc_password_length fc with
       | Some v => v | None => password_length DEFAULT_CONFIG end /\
     country_code cfg
     = match fc_country_code fc with
       | Some v => v | None => country_code DEFAULT_CONFIG end /\
     log_retention_count cfg
     = match fc_log_retention_count fc with
       | Some v => v | None => log_retention_count DEFAULT_CONFIG end /\
     manual_rotation_cooldown_sec cfg
     = match fc_manual_rotation_cooldown_sec fc with
       | Some v => v | None => manual_rotation_cooldown_sec DEFAULT_CONFIG end /\
     dual_ap_mode cfg
     = match fc_dual_ap_mode fc with
       | Some v => v | None => dual_ap_mode DEFAULT_CONFIG end) /\
  (reading o_config_file w = None ->
   cfg_heap (snd (_load_config w)) (fst (_load_config w)) = DEFAULT_CONFIG).
Proof.
  rewrite load_config_run. cbn [fst snd]. unfold reloaded.
  cbn [interfaces alloc_cfg set_interfaces cfg_heap cfg_next asked set_step].
  rewrite Nat.eqb_refl. unfold loaded_interfaces, loaded_config.
  split.
  { intros [-> | (fc & -> & ->)]; reflexivity. }
  split.
  { intros fc items -> -> Hkeys. split.
    - intros k Hk. now apply merge_interfaces_other.
    - intros k c Hin. now apply merge_interfaces_listed. }
  split.
  { intros fc ->. cbv zeta.
    cbn [config_update rotation_interval_sec client_threshold min_time_after_clients_sec
         ssid_prefix ssid_length password_length country_code log_retention_count
         manual_rotation_cooldown_sec dual_ap_mode].
    repeat split.
    all: match goal with |- default _ ?x = _ => now destruct x end. }
  intros ->. reflexivity.
Qed.

(** *** The time shown in a status *)





(** The file only lists wlan0: wlan1 keeps its settings. *)
Lemma load_config_merge_witness :
  interfaces (snd (_load_config (Scenario.fresh_world DEFAULT_CONFIG Scenario.rechannelled)))
    !! "wlan1"
  = interfaces (Scenario.fresh_world DEFAULT_CONFIG Scenario.rechannelled) !! "wlan1".
Proof.
  refine (proj1 (proj1 (proj2 (load_config_merge
            (Scenario.fresh_world DEFAULT_CONFIG Scenario.rechannelled)))
            Scenario.channel_one _ eq_refl eq_refl _) "wlan1" _).
  - apply (bool_decide_unpack (NoDup ["wlan0"])). vm_compute. exact I.
  - apply (bool_decide_eq_false_1 ("wlan1" ∈ ["wlan0"])). vm_compute. reflexivity.
Defined.


(** *** Construction of the engines *)

Lemma init_loop_frame available d names : forall lock w,
  cfg_heap (snd (init_loop available d names lock w)) = cfg_heap w /\
  interfaces (snd (init_loop available d names lock w)) = interfaces w /\
  (forall j, j ∉ names ->
     status_files (snd (init_loop available d names lock w)) !! j = status_files w !! j).
Proof.
  induction names as [|name rest IH]; intros lock w; [now repeat split|].
  cbn [init_loop]. rewrite bind_get. cbv beta. rewrite bind_get. cbv beta zeta.
  assert (Hrest : forall j, j ∉ name :: rest -> j ∉ rest).
  { intros j Hj. now apply not_elem_of_cons in Hj as [_ Hj]. }
  destruct (String.eqb name "wlan1" && negb (dual_ap_mode (cfg_heap w (APRotationDaemon.config d)))).
  { destruct (IH lock w) as (Hc & Hi & Hs). split; [exact Hc|]. split; [exact Hi|].
    intros j Hj. apply Hs, Hrest, Hj. }
  cbv iota.
  destruct (negb (default true ((interfaces w !! name) ≫= ic_enabled))).
  { destruct (IH lock w) as (Hc & Hi & Hs). split; [exact Hc|]. split; [exact Hi|].
    intros j Hj. apply Hs, Hrest, Hj. }
  cbv iota. destruct (negb (available name)); cbv iota.
  - rewrite bind_update_status. cbv beta.
    match goal with |- context [init_loop _ _ _ _ ?w0] =>
      destruct (IH (S lock) w0) as (Hc & Hi & Hs) end.
    split; [rewrite Hc; reflexivity|]. split; [rewrite Hi; reflexivity|].
    intros j Hj. rewrite (Hs j (Hrest j Hj)).
    apply not_elem_of_cons in Hj as [Hj _].
    match goal with |- status_files (published ?s ?e ?a ?w0) !! _ = _ =>
      exact (same_other_status _ _ _ (frame_published s e a w0) j Hj) end.
  - rewrite (bind_run _ _ _ _ _ (pair_eta (init_loop available d rest (S lock) w))).
    cbv beta. unfold ret. cbn [snd].
    destruct (IH (S lock) w) as (Hc & Hi & Hs). split; [exact Hc|]. split; [exact Hi|].
    intros j Hj. apply Hs, Hrest, Hj.
Qed.

Lemma init_loop_engines available d names : forall lock w,
  NoDup names ->
  Forall (fresh_engine d) (fst (init_loop available d names lock w)) /\
  map fst (fst (init_loop available d names lock w))
  = filter (fun name => wanted d w name && available name = true) names /\
  (forall name, name ∈ names -> wanted d w name = true -> available name = false ->
     exists st,
       status_files (snd (init_loop available d names lock w)) !! name = Some (Holds st) /\
       InterfaceStatus.state st = "disabled" /\
       InterfaceStatus.last_error st = Some "Interface not found").
Proof.
  induction names as [|name rest IH]; intros lock w Hnames.
  { split; [constructor|]. split; [reflexivity|]. intros name Hin. inversion Hin. }
  apply NoDup_cons in Hnames as [Hname Hnames].
  cbn [init_loop]. rewrite bind_get. cbv beta. rewrite bind_get. cbv beta zeta.
  rewrite filter_cons.
  destruct (String.eqb name "wlan1" && negb (dual_ap_mode (cfg_heap w (APRotationDaemon.config d))))
    eqn:Hskip.
  { assert (Hw : wanted d w name = false) by (unfold wanted; now rewrite Hskip).
    rewrite decide_False by (rewrite Hw; discriminate).
    destruct (IH lock w Hnames) as (Hf & Hk & Hd). split; [exact Hf|]. split; [exact Hk|].
    intros n Hin Hwn Ha. apply elem_of_cons in Hin as [->|Hin]; [congruence | now apply Hd]. }
  cbv iota.
  destruct (default true ((interfaces w !! name) ≫= ic_enabled)) eqn:Hen; cbn [negb]; cbv iota.
  2:{ assert (Hw : wanted d w name = false).
      { unfold wanted. rewrite Hskip, Hen. reflexivity. }
      rewrite decide_False by (rewrite Hw; discriminate).
      destruct (IH lock w Hnames) as (Hf & Hk & Hd). split; [exact Hf|]. split; [exact Hk|].
      intros n Hin Hwn Ha. apply elem_of_cons in Hin as [->|Hin]; [congruence | now apply Hd]. }
  assert (Hw : wanted d w name = true).
  { unfold wanted. rewrite Hskip, Hen. reflexivity. }
  destruct (available name) eqn:Hav; cbn [negb]; cbv iota.
  - rewrite decide_True by (rewrite Hw; reflexivity).
    rewrite (bind_run _ _ _ _ _ (pair_eta (init_loop available d rest (S lock) w))).
    cbv beta. unfold ret. cbn [fst snd map].
    destruct (IH (S lock) w Hnames) as (Hf & Hk & Hd).
    split; [constructor; [now repeat split | exact Hf]|].
    split; [now rewrite Hk|].
    intros n Hin Hwn Ha. apply elem_of_cons in Hin as [->|Hin]; [congruence | now apply Hd].
  - rewrite decide_False by (rewrite Hw; discriminate).
    rewrite bind_update_status. cbv beta.
    match goal with |- context [init_loop _ _ _ _ ?w0] =>
      assert (Hw0 : forall n, wanted d w0 n = wanted d w n) by reflexivity;
      assert (S0 : exists st, status_files w0 !! name = Some (Holds st) /\
                              InterfaceStatus.state st = "disabled" /\
                              InterfaceStatus.last_error st = Some "Interface not found");
      [eexists; split;
       [exact (status_published "disabled" (Some "Interface not found")
                 {| APInstance.interface := name; APInstance.config := name;
                    APInstance.global_config := APRotationDaemon.config d;
                    APInstance.current_creds := None;
                    APInstance.last_manual_rotation := 0;
                    APInstance.rotation_lock := lock |} w)
       | split; reflexivity]|];
      set (w0' := w0) in *; clearbody w0'
    end.
    destruct (IH (S lock) w0' Hnames) as (Hf & Hk & Hd).
    destruct (init_loop_frame available d rest (S lock) w0') as (_ & _ & Hs).
    split; [exact Hf|].
    split.
    { rewrite Hk. apply list_filter_iff. intros n. now rewrite Hw0. }
    intros n Hin Hwn Ha. apply elem_of_cons in Hin as [->|Hin].
    + rewrite (Hs name Hname). exact S0.
    + apply Hd; [exact Hin | now rewrite Hw0 | exact Ha].
Qed.

(** [_init_ap_instances] over distinct interface names (the keys of a
    dict). When it does not exit, the engines it registers are those of the
    interfaces that are wanted (not wlan1 outside dual mode, not disabled in
    the configuration) and available, in the order of the configuration,
    each under its own interface name, without credentials and sharing the
    supervisor's configuration: the engine map has distinct keys that are
    the engines' interfaces, which is what the startup loop and each tick
    rely on. A wanted interface that is not available has the status
    "disabled" published with last error "Interface not found". The
    initialisation exits exactly when no interface is wanted and
    available. *)
Theorem init_ap_instances_engines available names d w :
  NoDup names ->
  (forall d',
     fst (_init_ap_instances available names d w) = Some d' ->
     map fst (APRotationDaemon.ap_instances d')
     = filter (fun name => wanted d w name && available name = true) names /\
     NoDup (map fst (APRotationDaemon.ap_instances d')) /\
     Forall (fresh_engine d) (APRotationDaemon.ap_instances d') /\
     APRotationDaemon.config d' = APRotationDaemon.config d) /\
  (fst (_init_ap_instances available names d w) = None <->
   filter (fun name => wanted d w name && available name = true) names = []) /\
  (forall name, name ∈ names -> wanted d w name = true -> available name = false ->
     exists st,
       status_files (snd (_init_ap_instances available names d w)) !! name
       = Some (Holds st) /\
       InterfaceStatus.state st = "disabled" /\
       InterfaceStatus.last_error st = Some "Interface not found").
Proof.
  intros Hnames.
  destruct (init_loop_engines available d names 0 w Hnames) as (Hf & Hk & Hd).
  unfold _init_ap_instances.
  rewrite (bind_run _ _ _ _ _ (pair_eta (init_loop available d names 0 w))). cbv beta.
  set (items := fst (init_loop available d names 0 w)) in *.
  set (w1 := snd (init_loop available d names 0 w)) in *.
  clearbody items w1.
  destruct items as [|item items].
  - rewrite bind_emit. unfold ret. cbn [fst snd].
    split; [intros d' Heq; discriminate Heq|].
    split; [split; [intros _; now rewrite <- Hk | reflexivity]|].
    intros name Hin Hw Ha. rewrite status_emitted. now apply Hd.
  - unfold ret. cbn [fst snd].
    split.
    { intros d' Heq. injection Heq as <-.
      cbn [APRotationDaemon.ap_instances APRotationDaemon.config set_ap_instances].
      split; [exact Hk|]. split; [|split; [exact Hf | reflexivity]].
      rewrite Hk. now apply NoDup_filter. }
    split; [split; [discriminate | intros Hnil; rewrite <- Hk in Hnil; discriminate Hnil]|].
    exact Hd.
Qed.

(** The default configuration, both radios present: only wlan0 gets an
    engine. *)
Lemma init_ap_instances_engines_witness :
  exists d',
    fst (_init_ap_instances (fun _ => true) ["wlan0"; "wlan1"] Scenario.supervisor
           (Scenario.fresh_world DEFAULT_CONFIG Scenario.calm)) = Some d' /\
    map fst (APRotationDaemon.ap_instances d') = ["wlan0"] /\
    NoDup (map fst (APRotationDaemon.ap_instances d')).
Proof.
  eexists. split; [vm_compute; reflexivity|].
  split; [reflexivity|].
  refine (proj1 (proj2 (proj1 (init_ap_instances_engines (fun _ => true) ["wlan0"; "wlan1"]
            Scenario.supervisor (Scenario.fresh_world DEFAULT_CONFIG Scenario.calm) _)
            _ _))).
  - apply (bool_decide_unpack (NoDup ["wlan0"; "wlan1"])). vm_compute. exact I.
  - vm_compute. reflexivity.
Defined.


(** *** The credentials files mirror the engines *)

Lemma creds_same_refl w : creds_same w w.
Proof. now repeat split. Qed.

Lemma creds_same_trans w1 w2 w3 : creds_same w1 w2 -> creds_same w2 w3 -> creds_same w1 w3.
Proof. intros (H1 & H2 & H3) (K1 & K2 & K3). repeat split; congruence. Qed.

Lemma creds_same_kept i w w' : creds_same w w' -> creds_kept i w w'.
Proof.
  intros (Hh & Hn & Hf). split; [rewrite Hn; lia|].
  split; [intros r _; now rewrite Hh | intros j _; now rewrite Hf].
Qed.

Lemma creds_kept_trans i w1 w2 w3 : creds_kept i w1 w2 -> creds_kept i w2 w3 -> creds_kept i w1 w3.
Proof.
  intros (N1 & H1 & F1) (N2 & H2 & F2). split; [lia|]. split.
  - intros r Hr. rewrite H2 by lia. now apply H1.
  - intros j Hj. rewrite (F2 j Hj). now apply F1.
Qed.

Lemma mirrored_same w w' ap ap' :
  creds_same w w' ->
  APInstance.current_creds ap' = APInstance.current_creds ap ->
  APInstance.interface ap' = APInstance.interface ap ->
  mirrored w ap -> mirrored w' ap'.
Proof.
  intros (Hh & Hn & Hf) Hc Hi. unfold mirrored. rewrite Hc, Hi, Hh, Hn, Hf. tauto.
Qed.

Lemma mirrored_kept i w w' ap :
  creds_kept i w w' -> APInstance.interface ap <> i -> mirrored w ap -> mirrored w' ap.
Proof.
  intros (Hn & Hh & Hf) Hi. unfold mirrored.
  destruct (APInstance.current_creds ap) as [r|]; [|trivial].
  intros [Hr Hfile]. split; [lia|]. rewrite (Hf _ Hi), (Hh r Hr). exact Hfile.
Qed.

Lemma rotate_credentials_mirror reason ap w :
  body_keeps ap w (snd (fst (rotate_credentials reason ap w)),
                   snd (rotate_credentials reason ap w)).
Proof.
  unfold body_keeps.
  destruct (rotate_credentials reason ap w) as [[ok ap'] w'] eqn:E.
  cbn [fst snd]. destruct ok.
  - destruct (rotate_credentials_true _ _ _ _ _ E) as (ssid & pw & now & qr & service & H).
    cbv zeta in H. destruct H as (-> & Hh & Hn & Hf & _).
    split; [|split; [|reflexivity]].
    + split; [rewrite Hn; lia|]. split.
      * intros r Hr. rewrite Hh.
        destruct (Nat.eqb_spec r (creds_next w)); [lia | reflexivity].
      * intros j Hj. rewrite Hf. apply lookup_insert_ne. intros Heq. apply Hj. now symmetry.
    + intros _. unfold mirrored.
      cbn [APInstance.current_creds APInstance.interface APInstance.set_current_creds].
      split; [rewrite Hn; lia|]. rewrite Hf, Hh, Nat.eqb_refl. apply lookup_insert_eq.
  - destruct (rotate_credentials_false _ _ _ _ _ E) as (-> & F & _).
    assert (Hsame : creds_same w w').
    { split; [apply (same_creds_heap _ _ _ F)|].
      split; [apply (same_creds_next _ _ _ F) | apply (same_creds_files _ _ _ F)]. }
    split; [now apply creds_same_kept|]. split; [|reflexivity].
    now apply mirrored_same.
Qed.

Lemma should_rotate_same ap w : creds_same w (snd (should_rotate ap w)).
Proof.
  destruct (APInstance.current_creds ap) as [r|] eqn:Hr.
  - rewrite (should_rotate_some ap r w Hr). now repeat split.
  - unfold should_rotate. rewrite Hr. now repeat split.
Qed.

Lemma check_trigger_file_same ap w :
  creds_same w (snd (check_trigger_file ap w)) /\
  APInstance.current_creds (snd (fst (check_trigger_file ap w))) = APInstance.current_creds ap /\
  APInstance.interface (snd (fst (check_trigger_file ap w))) = APInstance.interface ap.
Proof.
  destruct (decide (APInstance.interface ap ∈ trigger_files w)) as [Hin|Hout].
  - destruct (reading o_unlink_ok w) eqn:Hu.
    + rewrite (check_trigger_file_present ap w Hin Hu). cbv zeta.
      destruct (py_lt _ _); now repeat split.
    + rewrite (check_trigger_file_stuck ap w Hin Hu). now repeat split.
  - rewrite (check_trigger_file_absent ap w Hout). now repeat split.
Qed.

Lemma log_rotation_same d creds w : creds_same w (snd (log_rotation d creds w)).
Proof.
  unfold log_rotation. rewrite bind_get. cbv beta.
  destruct (rotations_log w) as [[|l]|]; [now repeat split| |].
  - rewrite bind_ask. cbv beta. destruct creds as [r|]; [|now repeat split].
    rewrite bind_get. cbv beta. rewrite bind_get. cbv beta zeta.
    rewrite bind_modify. now repeat split.
  - rewrite bind_ask. cbv beta. destruct creds as [r|]; [|now repeat split].
    rewrite bind_get. cbv beta. rewrite bind_get. cbv beta zeta.
    rewrite bind_modify. now repeat split.
Qed.

(** What follows a rotation in a loop body, as far as credentials go. *)
Lemma body_tail_same (ok : bool) (ap2 : APInstance.t) (logging fallback : M unit)
    (w2 : World) :
  (forall w, creds_same w (snd (logging w))) ->
  (forall w, creds_same w (snd (fallback w))) ->
  bind (if ok then logging else fallback) (fun _ => ret ap2) w2
  = (ap2, snd (bind (if ok then logging else fallback) (fun _ => ret ap2) w2)) /\
  creds_same w2 (snd (bind (if ok then logging else fallback) (fun _ => ret ap2) w2)).
Proof.
  intros Hlog Hfall. unfold bind. destruct ok.
  - specialize (Hlog w2). destruct (logging w2) as [[] w3]. now split.
  - specialize (Hfall w2). destruct (fallback w2) as [[] w3]. now split.
Qed.

Lemma ret_same (w : World) : creds_same w (snd (ret tt w)).
Proof. apply creds_same_refl. Qed.

Lemma emit_same e (w : World) : creds_same w (snd (emit e w)).
Proof. now repeat split. Qed.

Lemma body_keeps_steps ap w ap1 w1 ap2 w2 w3 :
  creds_same w w1 ->
  APInstance.current_creds ap1 = APInstance.current_creds ap ->
  APInstance.interface ap1 = APInstance.interface ap ->
  body_keeps ap1 w1 (ap2, w2) ->
  creds_same w2 w3 ->
  body_keeps ap w (ap2, w3).
Proof.
  intros S1 C1 I1 (K & M & I2) S3. cbn [fst snd] in *. rewrite I1 in K.
  split; [|split].
  - eapply creds_kept_trans; [apply creds_same_kept, S1|].
    eapply creds_kept_trans; [exact K | apply creds_same_kept, S3].
  - intros Hm. cbn [fst snd].
    apply (mirrored_same w2 w3 ap2 ap2 S3 eq_refl eq_refl). apply M.
    now apply (mirrored_same w w1 ap ap1 S1 C1 I1).
  - cbn [fst]. congruence.
Qed.

Lemma tick_body_mirror d name ap w : body_keeps ap w (tick_body d name ap w).
Proof.
  destruct (check_trigger_file_same ap w) as (S0 & C0 & I0).
  destruct (check_trigger_file ap w) as [[b ap1] w1] eqn:E0. cbn [fst snd] in S0, C0, I0.
  unfold tick_body. rewrite (bind_run _ _ _ _ _ E0). cbv beta zeta.
  rewrite !fst_pair, !snd_pair. destruct b; cbv iota.
  - pose proof (rotate_credentials_mirror "manual_trigger" ap1 w1) as K1.
    destruct (rotate_credentials "manual_trigger" ap1 w1) as [[ok ap2] w2] eqn:E1.
    cbn [fst snd] in K1.
    rewrite (bind_run _ _ _ _ _ E1). cbv beta zeta. rewrite !fst_pair, !snd_pair.
    destruct (body_tail_same ok ap2 (log_rotation d (APInstance.current_creds ap2))
                (ret tt) w2 (log_rotation_same d _) ret_same) as [-> S3].
    exact (body_keeps_steps ap w ap1 w1 ap2 w2 _ S0 C0 I0 K1 S3).
  - pose proof (should_rotate_same ap1 w1) as S1.
    destruct (should_rotate ap1 w1) as [[go reason] w1'] eqn:E1. cbn [snd] in S1.
    rewrite (bind_run _ _ _ _ _ E1). cbv beta. rewrite fst_pair, snd_pair.
    pose proof (creds_same_trans _ _ _ S0 S1) as S01.
    destruct go; cbv iota.
    + pose proof (rotate_credentials_mirror reason ap1 w1') as K1.
      destruct (rotate_credentials reason ap1 w1') as [[ok ap2] w2] eqn:E2.
      cbn [fst snd] in K1.
      rewrite (bind_run _ _ _ _ _ E2). cbv beta zeta. rewrite !fst_pair, !snd_pair.
      destruct (body_tail_same ok ap2 (log_rotation d (APInstance.current_creds ap2))
                  (emit (EvWarning "Rotation failed, will retry")) w2
                  (log_rotation_same d _) (emit_same _)) as [-> S3].
      exact (body_keeps_steps ap w ap1 w1' ap2 w2 _ S01 C0 I0 K1 S3).
    + rewrite bind_update_status. unfold ret.
      assert (S3 : creds_same w1' (published "ready" None ap1 w1')) by now repeat split.
      assert (K1 : body_keeps ap1 w1' (ap1, w1')).
      { split; [apply creds_same_kept, creds_same_refl|]. now split. }
      exact (body_keeps_steps ap w ap1 w1' ap1 w1' _ S01 C0 I0 K1 S3).
Qed.

Lemma startup_body_mirror d name ap w : body_keeps ap w (startup_body d name ap w).
Proof.
  pose proof (rotate_credentials_mirror "startup" ap w) as K1.
  destruct (rotate_credentials_attempt "startup" ap w) as (_ & _ & _ & _ & _ & Hsame & _).
  destruct (rotate_credentials "startup" ap w) as [[ok1 ap1] w1] eqn:E1.
  cbn [fst snd] in K1, Hsame. destruct ok1.
  - rewrite (startup_body_first d name ap w ap1 w1 E1).
    exact (body_keeps_steps ap w ap w ap1 w1 _ (creds_same_refl w) eq_refl eq_refl K1
             (log_rotation_same d _ w1)).
  - rewrite (Hsame eq_refl) in *. clear Hsame.
    remember (emitted [EvSleep 5]
                (emitted [EvError "Initial rotation failed, retrying..."] w1))
      as w1' eqn:Hw1'.
    assert (S1 : creds_same w1 w1') by (rewrite Hw1'; now repeat split).
    pose proof (rotate_credentials_mirror "startup_retry" ap w1') as K2.
    destruct (rotate_credentials "startup_retry" ap w1') as [[ok2 ap2] w2] eqn:E2.
    cbn [fst snd] in K2. rewrite Hw1' in E2.
    rewrite (startup_body_retry d name ap w ap w1 ok2 ap2 w2 E1 E2).
    assert (K12 : body_keeps ap w (ap2, w2)).
    { destruct K1 as (Ka & Ma & _). destruct K2 as (Kb & Mb & Ib). cbn [fst snd] in *.
      split; [|split; [|exact Ib]].
      - eapply creds_kept_trans; [exact Ka|].
        eapply creds_kept_trans; [apply creds_same_kept, S1 | exact Kb].
      - intros Hm. apply Mb.
        apply (mirrored_same w1 w1' ap ap S1 eq_refl eq_refl). now apply Ma. }
    destruct ok2.
    + exact K12.
    + refine (body_keeps_steps ap w ap w ap2 w2 _ (creds_same_refl w) eq_refl eq_refl K12 _).
      now repeat split.
Qed.

(** A loop over engines with distinct keys, registered under their
    interface names, whose body keeps the mirror. *)
Lemma for_each_mirror (body : string -> APInstance.t -> M APInstance.t) :
  (forall name ap w, body_keeps ap w (body name ap w)) ->
  forall items w,
    NoDup (map fst items) ->
    Forall (fun item => APInstance.interface (snd item) = fst item) items ->
    Forall (fun item => mirrored w (snd item)) items ->
    map fst (fst (for_each body items w)) = map fst items /\
    Forall (fun item => APInstance.interface (snd item) = fst item)
      (fst (for_each body items w)) /\
    Forall (fun item => mirrored (snd (for_each body items w)) (snd item))
      (fst (for_each body items w)) /\
    creds_next w <= creds_next (snd (for_each body items w)) /\
    (forall r, r < creds_next w ->
       creds_heap (snd (for_each body items w)) r = creds_heap w r) /\
    (forall j, j ∉ map fst items ->
       creds_files (snd (for_each body items w)) !! j = creds_files w !! j).
Proof.
  intros Hbody. induction items as [|[k ap] rest IH]; intros w Hkeys Hnames Hmirror.
  { cbn [for_each ret fst snd map]. repeat split; auto. }
  cbn [map fst] in Hkeys. apply NoDup_cons in Hkeys as [Hk Hkeys].
  apply Forall_cons in Hnames as [Hname Hnames]. cbn [fst snd] in Hname.
  apply Forall_cons in Hmirror as [Hm Hmirror]. cbn [snd] in Hm.
  rewrite for_each_cons. cbn [fst snd map].
  destruct (Hbody k ap w) as ((N1 & H1 & F1) & M1 & I1). rewrite Hname in *.
  set (w1 := snd (body k ap w)) in *. set (ap1 := fst (body k ap w)) in *.
  clearbody w1 ap1.
  assert (Hmirror1 : Forall (fun item => mirrored w1 (snd item)) rest).
  { rewrite Forall_forall in Hmirror, Hnames. apply Forall_forall. intros item Hin.
    apply (mirrored_kept k w w1); [now repeat split| |now apply Hmirror].
    rewrite (Hnames item Hin). intros Heq. apply Hk. rewrite <- Heq.
    apply list_elem_of_In, in_map, list_elem_of_In, Hin. }
  destruct (IH w1 Hkeys Hnames Hmirror1) as (K2 & R2 & M2 & N2 & H2 & F2).
  set (w2 := snd (for_each body rest w1)) in *.
  set (rest' := fst (for_each body rest w1)) in *. clearbody w2 rest'.
  split; [now rewrite K2|].
  split; [constructor; [exact I1 | exact R2]|].
  split.
  { constructor; [|exact M2]. cbn [snd]. specialize (M1 Hm).
    unfold mirrored in *. rewrite I1 in *.
    destruct (APInstance.current_creds ap1) as [r|]; [|trivial].
    destruct M1 as [Hr Hfile]. split; [lia|].
    rewrite (F2 k Hk), (H2 r Hr). exact Hfile. }
  split; [lia|]. split.
  - intros r Hr. rewrite H2 by lia. now apply H1.
  - intros j Hj. apply not_elem_of_cons in Hj as [Hjk Hj].
    rewrite (F2 j Hj). now apply F1.
Qed.

Lemma tick_consistent d w : consistent d w -> consistent (fst (tick d w)) (snd (tick d w)).
Proof.
  intros (Hkeys & Hnames & Hmirror).
  destruct (for_each_mirror (tick_body d) (tick_body_mirror d) _ w Hkeys Hnames Hmirror)
    as (K & R & M & _).
  unfold tick.
  rewrite (bind_run _ _ _ _ _ (pair_eta (for_each (tick_body d)
                                           (APRotationDaemon.ap_instances d) w))).
  cbv beta. unfold time_sleep. rewrite bind_emit. cbv beta. unfold ret.
  unfold consistent. cbn [fst snd APRotationDaemon.ap_instances set_ap_instances].
  split; [now rewrite K|]. split; [exact R|].
  eapply Forall_impl; [exact M|]. intros item Hi.
  refine (mirrored_same _ _ _ _ _ eq_refl eq_refl Hi). now repeat split.
Qed.

Lemma startup_consistent d w :
  consistent d w -> consistent (fst (startup d w)) (snd (startup d w)).
Proof.
  intros (Hkeys & Hnames & Hmirror).
  destruct (for_each_mirror (startup_body d) (startup_body_mirror d) _ w Hkeys Hnames Hmirror)
    as (K & R & M & _).
  unfold startup.
  rewrite (bind_run _ _ _ _ _ (pair_eta (for_each (startup_body d)
                                           (APRotationDaemon.ap_instances d) w))).
  cbv beta. unfold ret.
  unfold consistent. cbn [fst snd APRotationDaemon.ap_instances set_ap_instances].
  split; [now rewrite K|]. split; [exact R | exact M].
Qed.

Lemma deliver_signal_consistent d w :
  consistent d w -> consistent (fst (deliver_signal d w)) (snd (deliver_signal d w)).
Proof.
  intros (Hkeys & Hnames & Hmirror). unfold deliver_signal.
  rewrite bind_ask. cbv beta.
  assert (Hasked : Forall (fun item => mirrored (asked 1 w) (snd item))
                     (APRotationDaemon.ap_instances d)).
  { eapply Forall_impl; [exact Hmirror|]. intros item Hi.
    refine (mirrored_same _ _ _ _ _ eq_refl eq_refl Hi). now repeat split. }
  destruct (reading o_signal w) as [[| |]|].
  1,2: unfold _handle_signal, ret; cbn [fst snd]; now repeat split.
  2: unfold ret; cbn [fst snd]; now repeat split.
  rewrite handle_reload_run. unfold consistent.
  cbn [fst snd APRotationDaemon.ap_instances set_ap_instances set_config].
  split; [now rewrite map_map|].
  split.
  - apply Forall_map. eapply Forall_impl; [exact Hnames|]. now intros item Hi.
  - apply Forall_map. eapply Forall_impl; [exact Hasked|]. intros item Hi. cbn [snd].
    refine (mirrored_same _ _ _ _ _ eq_refl eq_refl Hi). now repeat split.
Qed.

Lemma main_loop_consistent fuel : forall d w,
  consistent d w -> consistent (fst (main_loop fuel d w)) (snd (main_loop fuel d w)).
Proof.
  induction fuel as [|fuel IH]; intros d w Hc; [exact Hc|].
  cbn [main_loop].
  rewrite (bind_run _ _ _ _ _ (pair_eta (deliver_signal d w))). cbv beta.
  apply deliver_signal_consistent in Hc.
  set (d1 := fst (deliver_signal d w)) in *. set (w1 := snd (deliver_signal d w)) in *.
  clearbody d1 w1.
  destruct (APRotationDaemon.running d1); [|exact Hc].
  rewrite (bind_run _ _ _ _ _ (pair_eta (tick d1 w1))). cbv beta.
  apply IH. now apply tick_consistent.
Qed.

(** Throughout a run of the daemon (the startup loop, then any number of
    iterations of the main loop with the signals that arrive, reloads
    included) the credentials files mirror the engines: when the engine map
    has distinct keys that are the engines' interface names, and every
    engine that has credentials finds them in the credentials file of its
    interface, the same holds when the run ends, with the same keys. A
    failed rotation, a rejected trigger or a reload never leaves a
    credentials file that differs from what the engine serves. *)
Theorem run_keeps_credentials_files fuel d w :
  consistent d w -> consistent (fst (run fuel d w)) (snd (run fuel d w)).
Proof.
  intros Hc. unfold run.
  rewrite (bind_run _ _ _ _ _ (pair_eta (startup d w))). cbv beta.
  apply main_loop_consistent. now apply startup_consistent.
Qed.

(** The supervisor of a single interface, from its construction through
    the startup and two iterations. *)
Lemma run_keeps_credentials_files_witness :
  consistent
    (fst (run 2 Scenario.supervisor (Scenario.fresh_world DEFAULT_CONFIG Scenario.calm)))
    (snd (run 2 Scenario.supervisor (Scenario.fresh_world DEFAULT_CONFIG Scenario.calm))).
Proof.
  apply (run_keeps_credentials_files 2 Scenario.supervisor
           (Scenario.fresh_world DEFAULT_CONFIG Scenario.calm)).
  split; [apply (bool_decide_unpack (NoDup ["wlan0"])); vm_compute; exact I|].
  split; simpl; repeat constructor.
Defined.

End ApFacts.

Module WebFacts.

Import Ap ApSpec Web.

Section Reader.

Variable strftime : Q -> string.
Variable str_error : string.



Lemma listed_disabled dir now i st :
  status dir !! i = Some (Holds st) ->
  InterfaceStatus.state st = "disabled" ->
  listed strftime str_error dir now i = false.
Proof.
  intros Hfile Hstate. unfold listed, get_interface_status, status_file.
  rewrite Hfile. cbn [computed updated state enabled]. now rewrite Hstate.
Qed.

(** The server never lists as active an interface whose status file says
    "disabled" (as [_init_ap_instances] writes for a radio that is
    missing), except wlan0 through the fallback on the legacy status file
    when no interface at all is active. *)
Theorem get_active_interfaces_skips_disabled dir now i st :
  status dir !! i = Some (Holds st) ->
  InterfaceStatus.state st = "disabled" ->
  i ∈ get_active_interfaces strftime str_error dir now ->
  i = "wlan0" /\ is_Some (legacy dir).
Proof.
  intros Hfile Hstate. unfold get_active_interfaces. cbv zeta.
  destruct (decide (_ = ∅)) as [_|_].
  - destruct (legacy dir) as [f|]; [|intros Hin; now apply elem_of_empty in Hin].
    intros Hin. apply elem_of_singleton in Hin. split; [exact Hin | now exists f].
  - intros Hin. apply elem_of_list_to_set, list_elem_of_filter in Hin as [Hlisted _].
    rewrite (listed_disabled dir now i st Hfile Hstate) in Hlisted. discriminate.
Qed.

End Reader.

(** The radio of wlan0 is missing at startup and there is no legacy file:
    the server lists no interface. *)
Lemma get_active_interfaces_skips_disabled_witness :
  ~ ("wlan0" ∈ get_active_interfaces (fun _ => "") "Expecting value"
               {| status := status_files Scenario.radio_missing; legacy := None |} 0%Q).
Proof.
  intros Hin.
  destruct (get_active_interfaces_skips_disabled (fun _ => "") "Expecting value"
              {| status := status_files Scenario.radio_missing; legacy := None |} 0%Q
              "wlan0"
              (snapshot "disabled" (Some "Interface not found") Scenario.wlan0
                 (Scenario.fresh_world DEFAULT_CONFIG Scenario.calm)))
    as [_ [f Hf]].
  - vm_compute. reflexivity.
  - reflexivity.
  - exact Hin.
  - discriminate Hf.
Defined.

End WebFacts.

Module MakeQrFacts.

Import MakeQr.

Lemma images_app e1 e2 : images (e1 ++ e2) = (images e1 ++ images e2)%list.
Proof. apply flat_map_app. Qed.

Lemma json_writes_app e1 e2 :
  json_writes (e1 ++ e2) = (json_writes e1 ++ json_writes e2)%list.
Proof. apply flat_map_app. Qed.

(** The script saves at most one image, and only for a non-empty SSID and
    a non-empty password (a short password only gets a warning): the image
    then encodes the WPA payload of exactly these two, at the path given as
    third argument or at the default path. It ends without error exactly
    when it saved the image and set its permissions: when the image is
    saved and its permissions cannot be set, it exits with status 1 and the
    image stays. It never writes [current.json] when that file is there
    (the daemon owns it), and when it writes it, it is in a run that ends
    without error and with the credentials of the image. *)
Theorem main_saves_one_image argv env :
  (images (snd (main argv env)) = [] \/
   exists prog ssid password rest,
     argv = prog :: ssid :: password :: rest /\
     ssid <> "" /\ password <> "" /\
     images (snd (main argv env))
     = [(image_path env rest, Qr.generate_wifi_qr_string ssid password "WPA")] /\
     (json_writes (snd (main argv env)) = [] \/
      json_writes (snd (main argv env)) = [(ssid, password)])) /\
  (fst (main argv env) = None
   <-> images (snd (main argv env)) <> [] /\ image_chmod_ok env = true) /\
  (images (snd (main argv env)) <> [] -> image_chmod_ok env = false ->
   fst (main argv env) = Some 1%Z) /\
  (current_json_exists env = true -> json_writes (snd (main argv env)) = []) /\
  (fst (main argv env) <> None -> json_writes (snd (main argv env)) = []).
Proof.
  destruct argv as [|prog [|ssid [|password rest]]];
    try (cbn; repeat split; try (now left); try discriminate; try congruence;
         try (now intros []); fail).
  cbn [main]. fold (image_path env rest).
  destruct (String.eqb_spec ssid "") as [Hs|Hs].
  { cbn. repeat split; try (now left); try discriminate; try congruence;
      try (now intros []). }
  destruct (String.eqb_spec password "") as [Hp|Hp].
  { cbn. repeat split; try (now left); try discriminate; try congruence;
      try (now intros []). }
  cbv zeta.
  set (warning := if Nat.ltb (py_len password) 8
                  then [Stderr "WARNING: WPA2 passwords should be at least 8 characters"]
                  else []).
  assert (Hw : images warning = [] /\ json_writes warning = []).
  { subst warning. now destruct (Nat.ltb (py_len password) 8). }
  destruct Hw as [Hwi Hwj]. clearbody warning.
  unfold generate_qr_code, update_current_json.
  destruct (image_ok env), (image_chmod_ok env), (current_json_exists env),
    (json_ok env), (json_chmod_ok env); cbn [fst snd negb];
    rewrite ?images_app, ?json_writes_app, ?Hwi, ?Hwj; cbn.
  all: split; [first [ now left
                     | right; exists prog, ssid, password, rest;
                       repeat split; try assumption; try reflexivity; auto ]|].
  all: repeat split; try discriminate; try congruence; try reflexivity;
    try (now intros []); try (now intros [_ ?]); try (intros H; now contradiction H).
Qed.

(** The daemon's call for wlan0, the permissions of the image being
    refused: the image is saved and the script exits with status 1. *)
Lemma main_saves_one_image_witness :
  fst (main ["make_qr.py"; "ssb-k3x9qa"; "Zq8rT1mVb0pLs4Yd";
             "/opt/ssb-wifi-kiosk/web/static/qr-wlan0.png"] chmod_refused) = Some 1%Z.
Proof.
  refine (proj1 (proj2 (proj2 (main_saves_one_image _ chmod_refused))) _ _).
  - discriminate.
  - reflexivity.
Defined.

End MakeQrFacts.

Module SenseHatFacts.

Import Ap ApSpec SenseHat.

Lemma draw_full_display_blank color show :
  draw_full_display color show (replicate 64 COLOR_OFF)
  = Some (replicate 64 (if show then color else COLOR_OFF)).
Proof. destruct show; vm_compute; reflexivity. Qed.

Lemma draw_half_left color show (pixels : list Color) :
  length pixels = 64 ->
  exists pixels',
    draw_half 0 0 color show pixels = Some pixels' /\
    length pixels' = 64 /\
    right_half pixels' = right_half pixels /\
    (show = false -> pixels' = pixels) /\
    (show = true -> take 4 (drop 56 pixels') = replicate 4 color).
Proof.
  intros Hlen.
  do 64 (destruct pixels as [|? pixels]; [discriminate Hlen|]).
  destruct pixels; [|discriminate Hlen].
  destruct show.
  - eexists. split; [vm_compute; reflexivity|].
    split; [reflexivity|]. split; [reflexivity|]. split; [discriminate | reflexivity].
  - eexists. split; [reflexivity|].
    split; [reflexivity|]. split; [reflexivity|]. split; [reflexivity | discriminate].
Qed.

Lemma draw_half_right color show (pixels : list Color) :
  length pixels = 64 ->
  exists pixels',
    draw_half 4 1 color show pixels = Some pixels' /\
    length pixels' = 64 /\
    left_half pixels' = left_half pixels /\
    (show = false -> pixels' = pixels) /\
    (show = true -> take 4 (drop 60 pixels') = replicate 4 color).
Proof.
  intros Hlen.
  do 64 (destruct pixels as [|? pixels]; [discriminate Hlen|]).
  destruct pixels; [|discriminate Hlen].
  destruct show.
  - eexists. split; [vm_compute; reflexivity|].
    split; [reflexivity|]. split; [reflexivity|]. split; [discriminate | reflexivity].
  - eexists. split; [reflexivity|].
    split; [reflexivity|]. split; [reflexivity|]. split; [reflexivity | discriminate].
Qed.

Lemma draw_half_right_depends color show (p q : list Color) :
  length p = 64 -> length q = 64 ->
  right_half p = right_half q ->
  right_half <$> draw_half 4 1 color show p = right_half <$> draw_half 4 1 color show q.
Proof.
  intros Hp Hq Hsame.
  do 64 (destruct p as [|? p]; [discriminate Hp|]). destruct p; [|discriminate Hp].
  do 64 (destruct q as [|? q]; [discriminate Hq|]). destruct q; [|discriminate Hq].
  cbn in Hsame.
  injection Hsame as -> -> -> -> -> -> -> -> -> -> -> -> -> -> -> ->
                     -> -> -> -> -> -> -> -> -> -> -> -> -> -> -> ->.
  destruct show; vm_compute; reflexivity.
Qed.

Lemma fmap_Some {A B} (f : A -> B) (x : A) : f <$> Some x = Some (f x).
Proof. reflexivity. Qed.

(** What the left step of the dual display does to the blank matrix. *)
Lemma update_display_left (s0 : option InterfaceStatus.t) internet blink thr :
  exists pixels,
    match s0 with
    | Some status0 =>
        if negb (String.eqb (InterfaceStatus.state status0) "disabled") then
          draw_half 0 0 (get_status_color status0 internet)
            (negb (should_blink thr status0) || blink) (replicate 64 COLOR_OFF)
        else Some (replicate 64 COLOR_OFF)
    | None => Some (replicate 64 COLOR_OFF)
    end = Some pixels /\
    length pixels = 64 /\
    right_half pixels = right_half (replicate 64 COLOR_OFF).
Proof.
  destruct s0 as [st|]; [|now eexists].
  destruct (negb (String.eqb (InterfaceStatus.state st) "disabled")); [|now eexists].
  destruct (draw_half_left (get_status_color st internet)
              (negb (should_blink thr st) || blink) (replicate 64 COLOR_OFF) eq_refl)
    as (p & Hp & Hl & Hr & _).
  now exists p.
Qed.

(** [update_display] never raises and always hands 64 pixels to the
    matrix. *)
Theorem update_display_total (i : Inputs) :
  exists pixels, update_display i = Some pixels /\ length pixels = 64.
Proof.
  unfold update_display. cbv zeta. destruct (dual_mode i).
  - destruct (update_display_left (status0 i) (has_internet i) (blink_state i) (threshold i))
      as (p & -> & Hl & _).
    destruct (status1 i) as [st|]; [|now exists p].
    destruct (negb (String.eqb (InterfaceStatus.state st) "disabled")); [|now exists p].
    destruct (draw_half_right (get_status_color st (has_internet i))
                (negb (should_blink (threshold i) st) || blink_state i) p Hl)
      as (p' & Hp' & Hl' & _).
    now exists p'.
  - destruct (status0 i) as [st|].
    + rewrite draw_full_display_blank. eexists. split; [reflexivity|].
      apply length_replicate.
    + destruct (has_internet i); rewrite draw_full_display_blank; eexists;
        (split; [reflexivity | apply length_replicate]).
Qed.

(** In dual mode the two halves of the matrix are independent: the
    columns 0-3 show wlan0 and do not depend on the status of wlan1, the
    columns 4-7 show wlan1 and do not depend on the status of wlan0. *)
Theorem update_display_halves (i : Inputs) (other : option InterfaceStatus.t) :
  dual_mode i = true ->
  left_half <$> update_display i
  = left_half <$> update_display
      {| dual_mode := true; has_internet := has_internet i; status0 := status0 i;
         status1 := other; blink_state := blink_state i; threshold := threshold i |} /\
  right_half <$> update_display i
  = right_half <$> update_display
      {| dual_mode := true; has_internet := has_internet i; status0 := other;
         status1 := status1 i; blink_state := blink_state i; threshold := threshold i |}.
Proof.
  intros Hdual.
  assert (Hleft : forall s0 s1,
            left_half <$> update_display
              {| dual_mode := true; has_internet := has_internet i; status0 := s0;
                 status1 := s1; blink_state := blink_state i; threshold := threshold i |}
            = left_half <$> update_display
              {| dual_mode := true; has_internet := has_internet i; status0 := s0;
                 status1 := None; blink_state := blink_state i; threshold := threshold i |}).
  { intros s0 s1. unfold update_display.
    cbn [dual_mode has_internet status0 status1 blink_state threshold]. cbv zeta.
    destruct (update_display_left s0 (has_internet i) (blink_state i) (threshold i))
      as (p & -> & Hl & _).
    destruct s1 as [st|]; [|reflexivity].
    destruct (negb (String.eqb (InterfaceStatus.state st) "disabled")); [|reflexivity].
    destruct (draw_half_right (get_status_color st (has_internet i))
                (negb (should_blink (threshold i) st) || blink_state i) p Hl)
      as (p' & -> & _ & Hsame & _).
    rewrite !fmap_Some. now rewrite Hsame. }
  assert (Hright : forall s0 s1,
            right_half <$> update_display
              {| dual_mode := true; has_internet := has_internet i; status0 := s0;
                 status1 := s1; blink_state := blink_state i; threshold := threshold i |}
            = right_half <$> update_display
              {| dual_mode := true; has_internet := has_internet i; status0 := None;
                 status1 := s1; blink_state := blink_state i; threshold := threshold i |}).
  { intros s0 s1. unfold update_display.
    cbn [dual_mode has_internet status0 status1 blink_state threshold].
    cbv beta iota zeta.
    destruct (update_display_left s0 (has_internet i) (blink_state i) (threshold i))
      as (p & -> & Hl & Hr).
    destruct s1 as [st|]; [|rewrite !fmap_Some; now rewrite Hr].
    destruct (negb (String.eqb (InterfaceStatus.state st) "disabled"));
      [|rewrite !fmap_Some; now rewrite Hr].
    apply (draw_half_right_depends _ _ p (replicate 64 COLOR_OFF) Hl eq_refl Hr). }
  destruct i as [dual internet s0 s1 blink thr]. cbn [dual_mode] in Hdual. subst dual.
  cbn [has_internet status0 status1 blink_state threshold] in *.
  split.
  - rewrite (Hleft s0 s1), (Hleft s0 other). reflexivity.
  - rewrite (Hright s0 s1), (Hright other s1). reflexivity.
Qed.

(** The dual display with wlan0 ready and wlan1 rotating. *)
Lemma update_display_halves_witness :
  left_half <$> update_display
    {| dual_mode := true; has_internet := true; status0 := Some Scenario.before;
       status1 := Some Scenario.after; blink_state := true; threshold := 60 |}
  = left_half <$> update_display
    {| dual_mode := true; has_internet := true; status0 := Some Scenario.before;
       status1 := None; blink_state := true; threshold := 60 |}.
Proof.
  refine (proj1 (update_display_halves
            {| dual_mode := true; has_internet := true; status0 := Some Scenario.before;
               status1 := Some Scenario.after; blink_state := true; threshold := 60 |}
            None _)).
  reflexivity.
Defined.

(** In single mode the whole matrix has one colour: without a status,
    green with internet and red without; with a status that is hidden by
    the blinking (the credentials expire within the threshold and the
    toggle is off), dark; otherwise yellow while rotating, red on error,
    dark when disabled, and else red without internet and green with it. *)
Theorem update_display_single (i : Inputs) :
  dual_mode i = false ->
  update_display i
  = Some (replicate 64
            match status0 i with
            | None => if has_internet i then COLOR_GREEN else COLOR_RED
            | Some status =>
                if (InterfaceStatus.time_remaining status <=? threshold i)%Z
                   && (0 <? InterfaceStatus.time_remaining status)%Z
                   && negb (blink_state i)
                then COLOR_OFF
                else if String.eqb (InterfaceStatus.state status) "rotating" then COLOR_YELLOW
                else if String.eqb (InterfaceStatus.state status) "error" then COLOR_RED
                else if String.eqb (InterfaceStatus.state status) "disabled" then COLOR_OFF
                else if has_internet i then COLOR_GREEN
                else COLOR_RED
            end).
Proof.
  intros Hsingle. unfold update_display. cbv zeta. rewrite Hsingle.
  destruct (status0 i) as [st|].
  - rewrite draw_full_display_blank. f_equal. f_equal.
    unfold should_blink, get_status_color. cbv zeta.
    rewrite Z.gtb_ltb.
    destruct ((InterfaceStatus.time_remaining st <=? threshold i)%Z
              && (0 <? InterfaceStatus.time_remaining st)%Z), (blink_state i);
      cbn [negb orb andb]; try reflexivity.
    all: destruct (String.eqb (InterfaceStatus.state st) "rotating"); [reflexivity|].
    all: destruct (String.eqb (InterfaceStatus.state st) "error"); [reflexivity|].
    all: destruct (String.eqb (InterfaceStatus.state st) "disabled"); [reflexivity|].
    all: now destruct (has_internet i).
  - destruct (has_internet i); now rewrite draw_full_display_blank.
Qed.

(** The single display without a status file. *)
Lemma update_display_single_witness :
  update_display
    {| dual_mode := false; has_internet := true; status0 := None; status1 := None;
       blink_state := true; threshold := 60 |}
  = Some (replicate 64 COLOR_GREEN).
Proof.
  refine (update_display_single
            {| dual_mode := false; has_internet := true; status0 := None; status1 := None;
               blink_state := true; threshold := 60 |} _).
  reflexivity.
Defined.

(** The monitor and the daemon keep separate clocks for the cooldown: the
    monitor counts from the moment it created its last marker, the daemon
    from the moment it accepted one. A request that the monitor confirms
    (it creates the marker, records the time and flashes yellow) is
    therefore discarded by the daemon when the daemon's own cooldown has
    not elapsed: no rotation follows and the engine is unchanged. The
    marker is consumed when the daemon's [unlink] removes it, and stays
    when [unlink] raises. *)
Theorem trigger_confirmed_but_discarded m now ap w :
  (cooldown m
   <= now - default 0%Q (last_rotation_trigger m !! APInstance.interface ap))%Q ->
  (checked_at w - APInstance.last_manual_rotation ap
   < manual_rotation_cooldown_sec (cfg_heap w (APInstance.global_config ap)))%Q ->
  fst (fst (fst (trigger_rotation true now (APInstance.interface ap) m (trigger_files w))))
  = true /\
  snd (trigger_rotation true now (APInstance.interface ap) m (trigger_files w))
  = COLOR_YELLOW /\
  fst (fst (check_trigger_file ap
              (set_trigger_files
                 (snd (fst (trigger_rotation true now (APInstance.interface ap) m
                              (trigger_files w)))) w)))
  = false /\
  snd (fst (check_trigger_file ap
              (set_trigger_files
                 (snd (fst (trigger_rotation true now (APInstance.interface ap) m
                              (trigger_files w)))) w)))
  = ap /\
  (reading o_unlink_ok w = true ->
   APInstance.interface ap
   ∉ trigger_files
       (snd (check_trigger_file ap
               (set_trigger_files
                  (snd (fst (trigger_rotation true now (APInstance.interface ap) m
                               (trigger_files w)))) w)))) /\
  (reading o_unlink_ok w = false ->
   APInstance.interface ap
   ∈ trigger_files
       (snd (check_trigger_file ap
               (set_trigger_files
                  (snd (fst (trigger_rotation true now (APInstance.interface ap) m
                               (trigger_files w)))) w)))).
Proof.
  intros Hmonitor Hdaemon. unfold trigger_rotation. cbv zeta.
  apply ApFacts.py_lt_false in Hmonitor. rewrite Hmonitor. cbn [fst snd].
  split; [reflexivity|]. split; [reflexivity|].
  assert (Hin : APInstance.interface ap
                ∈ trigger_files (set_trigger_files
                                   ({[APInstance.interface ap]} ∪ trigger_files w) w)).
  { cbn [trigger_files set_trigger_files]. apply elem_of_union. left.
    now apply elem_of_singleton. }
  destruct (reading o_unlink_ok w) eqn:Hu.
  - rewrite (ApFacts.check_trigger_file_present ap _ Hin Hu). cbv zeta.
    change (checked_at (set_trigger_files ?t w)) with (checked_at w).
    change (cfg_heap (set_trigger_files ?t w)) with (cfg_heap w).
    apply ApFacts.py_lt_true in Hdaemon. rewrite Hdaemon. cbn [fst snd].
    split; [reflexivity|]. split; [reflexivity|].
    split; [intros _ | discriminate].
    cbn [trigger_files emitted asked set_step set_trace set_trigger_files].
    intros [_ Hn]%elem_of_difference. apply Hn. now apply elem_of_singleton.
  - rewrite (ApFacts.check_trigger_file_stuck ap _ Hin Hu). cbn [fst snd].
    split; [reflexivity|]. split; [reflexivity|].
    split; [discriminate | intros _; exact Hin].
Qed.

(** The monitor created its last marker at 970 s, the daemon accepted it
    at 971 s, and the button is pressed again at 1000 s. *)
Lemma trigger_confirmed_but_discarded_witness :
  fst (fst (check_trigger_file Scenario.accepted_late
              (set_trigger_files
                 (snd (fst (trigger_rotation true 1000 "wlan0" pressed_before
                              (trigger_files
                                 (Scenario.serving_world DEFAULT_CONFIG Scenario.at_1000 ∅)))))
                 (Scenario.serving_world DEFAULT_CONFIG Scenario.at_1000 ∅))))
  = false.
Proof.
  refine (proj1 (proj2 (proj2 (trigger_confirmed_but_discarded pressed_before 1000
            Scenario.accepted_late
            (Scenario.serving_world DEFAULT_CONFIG Scenario.at_1000 ∅) _ _)))).
  - vm_compute. discriminate.
  - vm_compute. reflexivity.
Defined.

End SenseHatFacts.
